(** * Heartflow: proactive-reply admission control for a group-chat bot

    A shallow embedding of [main.py] (class [HeartflowPlugin]) and the
    properties its specification states about it.

    Conventions of the embedding.
    - Python [float] and [int] values that take part in score, energy and
      time arithmetic are exact rationals ([Q]); every comparison the source
      makes is made here on the exact value.  Equality of such numbers is
      [==] ([Qeq]).
    - Python [str] is [string]; a dict used as a map is a [gmap].
    - The wall clock ([time.time()]) and the calendar date
      ([datetime.date.today().isoformat()]) are inputs of the operations that
      read them.
    - A Python exception is a value of [exn]; code that can raise returns a
      [result]. *)

From Stdlib Require Import QArith Qabs Lqa ZArith Lia String Ascii.
From Stdlib Require Import DecimalString.
From stdpp Require Import gmap strings list.

Set Warnings "-register-all".
#[local] Open Scope string_scope.

(** ** Numbers *)

Module Num.

#[local] Open Scope Q_scope.

(** [a < b] as evaluated by Python on two numbers. *)
Definition Qlt_bool (a b : Q) : bool := negb (Qle_bool b a).

(** Python's [min(a, b)]: [b] when [b < a], otherwise [a]. *)
Definition py_min (a b : Q) : Q := if Qlt_bool b a then b else a.

(** Python's [max(a, b)]: [b] when [b > a], otherwise [a]. *)
Definition py_max (a b : Q) : Q := if Qlt_bool a b then b else a.

End Num.

Export Num.

(** ** Exceptions and results *)

Inductive exn : Type :=
| ZeroDivisionError
| TypeError
| AttributeError
| ExternalError (msg : string).

(** [str(e)] *)
Definition str_exn (e : exn) : string :=
  match e with
  | ZeroDivisionError => "division by zero"
  | TypeError => "unsupported operand type(s)"
  | AttributeError => "object has no attribute"
  | ExternalError msg => msg
  end.

Inductive result (A : Type) : Type :=
| Ok (a : A)
| Raise (e : exn).

Arguments Ok {A} a.
Arguments Raise {A} e.

(** ** ScoreWeights and construction ([HeartflowPlugin.__init__]) *)

Record Weights : Type := mkWeights {
  w_relevance : Q;
  w_willingness : Q;
  w_social : Q;
  w_timing : Q;
  w_continuity : Q
}.

(** The configuration mapping, with the keys [__init__] reads. *)
Record Config : Type := mkConfig {
  cfg_judge_provider_name : string;
  cfg_reply_threshold : Q;
  cfg_energy_decay_rate : Q;
  cfg_energy_recovery_rate : Q;
  cfg_context_messages_count : Z;
  cfg_judge_include_reasoning : bool;
  cfg_judge_max_retries : Z;
  cfg_judge_relevance : Q;
  cfg_judge_willingness : Q;
  cfg_judge_social : Q;
  cfg_judge_timing : Q;
  cfg_judge_continuity : Q
}.

(** The attributes [__init__] sets and nothing changes afterwards. *)
Record Plugin : Type := mkPlugin {
  judge_provider_name : string;
  reply_threshold : Q;
  energy_decay_rate : Q;
  energy_recovery_rate : Q;
  context_messages_count : Z;
  silent_wait_duration : Q;
  judge_include_reasoning : bool;
  judge_max_retries : Z;
  weights : Weights
}.

#[local] Open Scope Q_scope.

(** [sum(self.weights.values())] *)
Definition weight_sum (w : Weights) : Q :=
  0 + w_relevance w + w_willingness w + w_social w + w_timing w
  + w_continuity w.

Definition raw_weights (c : Config) : Weights :=
  mkWeights (cfg_judge_relevance c) (cfg_judge_willingness c)
            (cfg_judge_social c) (cfg_judge_timing c)
            (cfg_judge_continuity c).

(** [1e-6] *)
Definition weight_epsilon : Q := 1 # 1000000.

(** [v / weight_sum]; Python raises on a zero divisor. *)
Definition py_div (v s : Q) : result Q :=
  if Qeq_bool s 0 then Raise ZeroDivisionError else Ok (v / s).

(** [{k: v / weight_sum for k, v in self.weights.items()}] *)
Definition divide_weights (w : Weights) (s : Q) : result Weights :=
  match py_div (w_relevance w) s with Raise e => Raise e | Ok a =>
  match py_div (w_willingness w) s with Raise e => Raise e | Ok b =>
  match py_div (w_social w) s with Raise e => Raise e | Ok c =>
  match py_div (w_timing w) s with Raise e => Raise e | Ok d =>
  match py_div (w_continuity w) s with Raise e => Raise e | Ok e' =>
  Ok (mkWeights a b c d e')
  end end end end end.

(** The weight check at the end of [__init__]. *)
Definition normalize_weights (w : Weights) : result Weights :=
  let s := weight_sum w in
  if Qlt_bool weight_epsilon (Qabs (s - 1))
  then divide_weights w s
  else Ok w.

(** [HeartflowPlugin.__init__] *)
Definition init (c : Config) : result Plugin :=
  match normalize_weights (raw_weights c) with
  | Raise e => Raise e
  | Ok w =>
      Ok {| judge_provider_name := cfg_judge_provider_name c;
            reply_threshold := cfg_reply_threshold c;
            energy_decay_rate := cfg_energy_decay_rate c;
            energy_recovery_rate := cfg_energy_recovery_rate c;
            context_messages_count := cfg_context_messages_count c;
            silent_wait_duration := 6;
            judge_include_reasoning := cfg_judge_include_reasoning c;
            judge_max_retries := Z.max 0 (cfg_judge_max_retries c);
            weights := w |}
  end.

Definition weights_nonneg (w : Weights) : Prop :=
  0 <= w_relevance w /\ 0 <= w_willingness w /\ 0 <= w_social w /\
  0 <= w_timing w /\ 0 <= w_continuity w.

(** ** ChatState and the energy tracker *)

Record ChatState : Type := mkChatState {
  energy : Q;
  last_reply_time : Q;
  last_reset_date : string;
  total_messages : Z;
  total_replies : Z
}.

(** [ChatState()] *)
Definition ChatState_default : ChatState :=
  mkChatState 1 0 "" 0%Z 0%Z.

(** [_get_chat_state]: lazy creation, then the daily reset.  Returns the
    state and the updated [chat_states] map ([state] is the object stored in
    the map, so its mutation is a mutation of the map entry). *)
Definition _get_chat_state (today : string) (chat_id : string)
    (chat_states : gmap string ChatState)
  : ChatState * gmap string ChatState :=
  let state :=
    match chat_states !! chat_id with
    | Some s => s
    | None => ChatState_default
    end in
  let state' :=
    if decide (last_reset_date state = today) then state
    else mkChatState (py_min 1 (energy state + (2 # 10)))
                     (last_reply_time state) today
                     (total_messages state) (total_replies state) in
  (state', <[chat_id := state']> chat_states).

(** [_update_active_state] *)
Definition _update_active_state (p : Plugin) (today : string) (now : Q)
    (chat_id : string) (chat_states : gmap string ChatState)
  : gmap string ChatState :=
  let '(st, cs) := _get_chat_state today chat_id chat_states in
  <[chat_id :=
      mkChatState (py_max (1 # 10) (energy st - energy_decay_rate p))
                  now (last_reset_date st)
                  (total_messages st + 1)%Z (total_replies st + 1)%Z]> cs.

(** [_update_passive_state] *)
Definition _update_passive_state (p : Plugin) (today : string)
    (chat_id : string) (chat_states : gmap string ChatState)
  : gmap string ChatState :=
  let '(st, cs) := _get_chat_state today chat_id chat_states in
  <[chat_id :=
      mkChatState (py_min 1 (energy st + energy_recovery_rate p))
                  (last_reply_time st) (last_reset_date st)
                  (total_messages st + 1)%Z (total_replies st)]> cs.

(** One call on the tracker. *)
Inductive tracker_call : Type :=
| CallGet (today chat_id : string)
| CallActive (today : string) (now : Q) (chat_id : string)
| CallPassive (today chat_id : string).

Definition run_call (p : Plugin) (cs : gmap string ChatState)
    (c : tracker_call) : gmap string ChatState :=
  match c with
  | CallGet today chat_id => snd (_get_chat_state today chat_id cs)
  | CallActive today now chat_id => _update_active_state p today now chat_id cs
  | CallPassive today chat_id => _update_passive_state p today chat_id cs
  end.

Definition run_calls (p : Plugin) (cs : gmap string ChatState)
    (l : list tracker_call) : gmap string ChatState :=
  fold_left (run_call p) l cs.

Definition energy_in_range (s : ChatState) : Prop :=
  1 # 10 <= energy s /\ energy s <= 1.

Definition all_in_range (cs : gmap string ChatState) : Prop :=
  forall k s, cs !! k = Some s -> energy_in_range s.

#[local] Close Scope Q_scope.

(** ** Strings: the [str] methods the source uses *)

Module Str.

Definition nl : string := String "010"%char EmptyString.

(** [s.startswith(p)] *)
Definition startswith (s p : string) : bool := String.prefix p s.

(** [s.replace(old, new)] for a non-empty [old]: every non-overlapping
    occurrence, scanning from the left.  [skip] counts the characters of a
    matched occurrence that are still to be dropped. *)
Fixpoint replace_from (old new : string) (skip : nat) (s : string) : string :=
  match s with
  | EmptyString => EmptyString
  | String c s' =>
      match skip with
      | S k => replace_from old new k s'
      | O =>
          if String.prefix old s
          then new ++ replace_from old new (String.length old - 1) s'
          else String c (replace_from old new 0 s')
      end
  end.

(** With an empty [old] Python puts [new] before every character and at the
    end. *)
Fixpoint replace_empty (new : string) (s : string) : string :=
  match s with
  | EmptyString => new
  | String c s' => new ++ String c (replace_empty new s')
  end.

Definition replace (s old new : string) : string :=
  match old with
  | EmptyString => replace_empty new s
  | _ => replace_from old new 0 s
  end.

(** The whitespace [str.strip()] removes, within ASCII. *)
Definition is_space (c : ascii) : bool :=
  let n := nat_of_ascii c in
  ((9 <=? n)%nat && (n <=? 13)%nat) || ((28 <=? n)%nat && (n <=? 32)%nat).

Fixpoint lstrip (s : string) : string :=
  match s with
  | EmptyString => EmptyString
  | String c s' => if is_space c then lstrip s' else s
  end.

Fixpoint rstrip (s : string) : string :=
  match s with
  | EmptyString => EmptyString
  | String c s' =>
      match rstrip s' with
      | EmptyString => if is_space c then EmptyString else String c EmptyString
      | r => String c r
      end
  end.

(** [s.strip()] *)
Definition strip (s : string) : string := rstrip (lstrip s).

(** [len(s)]: the number of code points of the UTF-8 text [s], that is the
    bytes that are not continuation bytes [10xxxxxx]. *)
Fixpoint py_len (s : string) : nat :=
  match s with
  | EmptyString => 0
  | String c s' =>
      let n := nat_of_ascii c in
      if (128 <=? n)%nat && (n <? 192)%nat then py_len s' else S (py_len s')
  end.

(** [sub in s] *)
Fixpoint contains (s sub : string) : bool :=
  String.prefix sub s ||
  match s with
  | EmptyString => false
  | String _ s' => contains s' sub
  end.

(** [str(n)] for an integer. *)
Definition str_nat (n : nat) : string := NilZero.string_of_uint (Nat.to_uint n).
Definition str_Z (z : Z) : string := NilZero.string_of_int (Z.to_int z).

(** ["\n".join(l)] and the like. *)
Fixpoint join (sep : string) (l : list string) : string :=
  match l with
  | [] => EmptyString
  | [x] => x
  | x :: rest => x ++ sep ++ join sep rest
  end.

End Str.

(** ** JSON values, as [json.loads] returns them *)

Inductive json : Type :=
| JNull
| JBool (b : bool)
| JNum (q : Q)
| JStr (s : string)
| JArr (l : list json)
| JObj (m : gmap string json).

(** [d.get(k, default)]; only a dict has the method. *)
Definition dict_get (d : json) (k : string) (default : json) : result json :=
  match d with
  | JObj m => Ok (match m !! k with Some v => v | None => default end)
  | _ => Raise AttributeError
  end.

(** The numeric value of an operand of [*] with a float; [bool] is an
    [int]. Any other operand raises. *)
Definition as_number (v : json) : result Q :=
  match v with
  | JNum q => Ok q
  | JBool b => Ok (if b then 1%Q else 0%Q)
  | _ => Raise TypeError
  end.

(** ** JudgeResult *)

Record JudgeResult : Type := mkJudgeResult {
  relevance : Q;
  willingness : Q;
  social : Q;
  timing : Q;
  continuity : Q;
  reasoning : json;
  should_reply : bool;
  confidence : Q;
  overall_score : Q;
  related_messages : list string
}.

(** [JudgeResult(should_reply=False, reasoning=r)] *)
Definition JudgeResult_failure (r : string) : JudgeResult :=
  mkJudgeResult 0 0 0 0 0 (JStr r) false 0 0 [].

(** The body of the loop after [json.loads] has succeeded (lines 343-375). *)
Definition score_response (p : Plugin) (judge_data : json)
  : result JudgeResult :=
  match dict_get judge_data "relevance" (JNum 0) with Raise e => Raise e | Ok rel =>
  match dict_get judge_data "willingness" (JNum 0) with Raise e => Raise e | Ok wil =>
  match dict_get judge_data "social" (JNum 0) with Raise e => Raise e | Ok soc =>
  match dict_get judge_data "timing" (JNum 0) with Raise e => Raise e | Ok tim =>
  match dict_get judge_data "continuity" (JNum 0) with Raise e => Raise e | Ok con =>
  match as_number rel with Raise e => Raise e | Ok r =>
  match as_number wil with Raise e => Raise e | Ok w =>
  match as_number soc with Raise e => Raise e | Ok s =>
  match as_number tim with Raise e => Raise e | Ok t =>
  match as_number con with Raise e => Raise e | Ok c =>
  let ws := weights p in
  let overall :=
    ((r * w_relevance ws + w * w_willingness ws + s * w_social ws
      + t * w_timing ws + c * w_continuity ws) / 10)%Q in
  let reply := Qle_bool (reply_threshold p) overall in
  match (if judge_include_reasoning p
         then dict_get judge_data "reasoning" (JStr "")
         else Ok (JStr "")) with
  | Raise e => Raise e
  | Ok rsn => Ok (mkJudgeResult r w s t c rsn reply overall overall [])
  end
  end end end end end end end end end end.

(** ** The mutable state of the plugin and of its runtime *)

(** An [AstrMessageEvent], with the attributes the plugin reads or sets. *)
Record Event : Type := mkEvent {
  unified_msg_origin : string;
  sender_id : string;
  sender_name : string;
  message_str : string;
  is_at_or_wake_command : bool
}.

(** The dict [_enter_silent_wait] builds for one message. *)
Record message_info : Type := mkMessageInfo {
  timestamp : Q;
  content : string;
  event : Event
}.

(** An [asyncio.Task] running [_wait_and_reply]: the key it was created for,
    when it was created, whether [cancel()] was called on it, and whether its
    coroutine has returned ([done()]). *)
Record Task : Type := mkTask {
  task_key : string;
  task_created : Q;
  task_cancel_requested : bool;
  task_done : bool
}.

Record UserWaitState : Type := mkUserWaitState {
  user_id : string;
  start_time : Q;
  accumulated_messages : list message_info;
  timer_task : option nat;
  waiting_since : Q
}.

(** A value of [system_prompt_cache]. *)
Record CacheEntry : Type := mkCacheEntry {
  ce_original : string;
  ce_summarized : string;
  ce_persona_id : option string
}.

Record State : Type := mkState {
  chat_states : gmap string ChatState;
  user_wait_states : gmap string UserWaitState;
  system_prompt_cache : gmap string CacheEntry;
  (** the tasks created so far; a task is named by its index *)
  tasks : list Task;
  (** what was put on [context.get_event_queue()], oldest first *)
  event_queue : list Event;
  (** the prompts sent to the judge provider, oldest first *)
  provider_log : list string
}.

Definition initial_state : State := mkState ∅ ∅ ∅ [] [] [].

Definition set_chat_states (st : State) (cs : gmap string ChatState) : State :=
  mkState cs (user_wait_states st) (system_prompt_cache st) (tasks st)
          (event_queue st) (provider_log st).

Definition set_user_wait_states (st : State)
    (u : gmap string UserWaitState) : State :=
  mkState (chat_states st) u (system_prompt_cache st) (tasks st)
          (event_queue st) (provider_log st).

Definition set_system_prompt_cache (st : State)
    (c : gmap string CacheEntry) : State :=
  mkState (chat_states st) (user_wait_states st) c (tasks st)
          (event_queue st) (provider_log st).

Definition set_tasks (st : State) (t : list Task) : State :=
  mkState (chat_states st) (user_wait_states st) (system_prompt_cache st) t
          (event_queue st) (provider_log st).

Definition set_event_queue (st : State) (q : list Event) : State :=
  mkState (chat_states st) (user_wait_states st) (system_prompt_cache st)
          (tasks st) q (provider_log st).

Definition set_provider_log (st : State) (l : list string) : State :=
  mkState (chat_states st) (user_wait_states st) (system_prompt_cache st)
          (tasks st) (event_queue st) l.

(** ** The judge provider and the conversation collaborator *)

(** What one [text_chat] call does: it returns a response with a
    [completion_text], or raises. *)
Inductive llm_outcome : Type :=
| Completion (completion_text : string)
| CallRaises (e : exn).

(** A provider answers its [n]-th call (counting from 0) on a prompt and a
    list of [(role, content)] context turns. *)
Definition Provider : Type :=
  nat -> string -> list (string * string) -> llm_outcome.

(** What the conversation manager and the persona store return for the
    event at hand, and the text of the [judge_prompt] f-string as a function
    of the persona text and the chat state it interpolates. *)
Record Collab : Type := mkCollab {
  curr_cid : result (option string);
  conversation_persona : result (option (option string));
  original_persona_prompt : string;
  recent_contexts : list (string * string);
  render_judge_prompt : string -> ChatState -> string
}.

(** ** Fixed texts of the source *)

Module Txt.
Import Str.

Definition dq : string := String "034"%char EmptyString.

Definition json_reminder : string :=
  "**重要提醒：你必须严格按照JSON格式返回结果，不要包含任何其他内容！请不要进行对话，只返回JSON！**".

(** The replacement text of the retry branch, for attempt number [n]. *)
Definition retry_reminder (n : nat) : string :=
  "**重要提醒：你必须严格按照JSON格式返回结果，不要包含任何其他内容！请不要进行对话，只返回JSON！这是第"
  ++ str_nat n ++ "次尝试，请确保返回有效的JSON格式！**".

Definition judge_system_line : string :=
  "你是一个专业的群聊回复决策系统，能够准确判断消息价值和回复时机。".

Definition persona_header : string :=
  nl ++ nl ++ "你正在为以下角色的机器人做决策：" ++ nl.

Definition fence_json : string := "```json".
Definition fence : string := "```".

Definition summarize_prompt (original_prompt : string) : string :=
  "请将以下机器人角色设定总结为简洁的核心要点，保留关键的性格特征、行为方式和角色定位。" ++ nl ++
  "总结后的内容应该在100-200字以内，突出最重要的角色特点。" ++ nl ++ nl ++
  "原始角色设定：" ++ nl ++ original_prompt ++ nl ++ nl ++
  "请以JSON格式回复：" ++ nl ++ "{" ++ nl ++
  "    " ++ dq ++ "summarized_persona" ++ dq ++ ": " ++ dq ++
  "精简后的角色设定，保留核心特征和行为方式" ++ dq ++ nl ++ "}" ++ nl ++ nl ++
  "**重要：你的回复必须是完整的JSON对象，不要包含任何其他内容！**".

Definition reason_not_configured : string := "提供商未配置".
Definition reason_no_provider (name : string) : string :=
  "提供商不存在: " ++ name.
Definition reason_lookup_failed (e : exn) : string :=
  "获取提供商失败: " ++ str_exn e.
Definition reason_retries_exhausted (retries : Z) : string :=
  "JSON解析失败，重试" ++ str_Z retries ++ "次".
Definition reason_exception (e : exn) : string :=
  "异常: " ++ str_exn e.

End Txt.

(** ** The judgment engine *)

Section Engine.

Import Str Txt.

(** [json.loads]; [None] stands for [json.JSONDecodeError]. *)
Variable json_loads : string -> option json.

(** [self.context.get_provider_by_id] *)
Variable get_provider_by_id : string -> result (option Provider).

(** The code-fence stripping both callers of [json.loads] do. *)
Definition strip_fences (content : string) : string :=
  if startswith content fence_json
  then strip (replace (replace content fence_json "") fence "")
  else if startswith content fence
  then strip (replace content fence "")
  else content.

(** One [text_chat] call: the prompt is logged, the provider answers. *)
Definition text_chat (prov : Provider) (prompt : string)
    (contexts : list (string * string)) (st : State)
  : llm_outcome * State :=
  (prov (length (provider_log st)) prompt contexts,
   set_provider_log st (provider_log st ++ [prompt])%list).

(** [_summarize_system_prompt] *)
Definition _summarize_system_prompt (p : Plugin) (original_prompt : string)
    (st : State) : string * State :=
  if decide (judge_provider_name p = "") then (original_prompt, st)
  else
    match get_provider_by_id (judge_provider_name p) with
    | Raise _ => (original_prompt, st)
    | Ok None => (original_prompt, st)
    | Ok (Some judge_provider) =>
        match text_chat judge_provider (summarize_prompt original_prompt) [] st with
        | (CallRaises _, st') => (original_prompt, st')
        | (Completion text, st') =>
            match json_loads (strip_fences (strip text)) with
            | None => (original_prompt, st')
            | Some result_data =>
                match dict_get result_data "summarized_persona" (JStr "") with
                | Ok (JStr summarized) =>
                    if negb (String.eqb summarized "")
                       && (10 <? py_len (strip summarized))%nat
                    then (strip summarized, st')
                    else (original_prompt, st')
                | _ => (original_prompt, st')
                end
            end
        end
    end.

(** [f"{curr_cid}_{persona_id}"] *)
Definition cache_key (cid : string) (persona_id : option string) : string :=
  cid ++ "_" ++ match persona_id with Some s => s | None => "None" end.

(** [_get_or_create_summarized_system_prompt] *)
Definition _get_or_create_summarized_system_prompt (p : Plugin) (c : Collab)
    (original_prompt : string) (st : State) : string * State :=
  match curr_cid c with
  | Raise _ | Ok None | Ok (Some EmptyString) => (original_prompt, st)
  | Ok (Some cid) =>
      match conversation_persona c with
      | Raise _ => (original_prompt, st)
      | Ok conversation =>
          let persona_id :=
            match conversation with
            | Some pid => pid
            | None => Some "default"
            end in
          let key := cache_key cid persona_id in
          let hit :=
            match system_prompt_cache st !! key with
            | Some cached =>
                if String.eqb (ce_original cached) original_prompt
                then Some (ce_summarized cached) else None
            | None => None
            end in
          match hit with
          | Some s => (s, st)
          | None =>
              if String.eqb original_prompt ""
                 || (py_len (strip original_prompt) <? 50)%nat
              then (original_prompt, st)
              else
                let '(summarized_prompt, st') :=
                  _summarize_system_prompt p original_prompt st in
                (summarized_prompt,
                 set_system_prompt_cache st'
                   (<[key := mkCacheEntry original_prompt summarized_prompt
                               persona_id]> (system_prompt_cache st')))
          end
      end
  end.

(** [complete_judge_prompt] as built before the loop. *)
Definition complete_judge_prompt (persona_system_prompt judge_prompt : string)
  : string :=
  judge_system_line
  ++ (if String.eqb persona_system_prompt "" then ""
      else persona_header ++ persona_system_prompt)
  ++ nl ++ nl ++ json_reminder ++ nl ++ nl ++ judge_prompt.

(** The number of iterations of the loop: [range(max_retries)]. *)
Definition total_attempts (p : Plugin) : Z :=
  if (judge_max_retries p =? 0)%Z then 1%Z else (judge_max_retries p + 1)%Z.

(** The [for attempt in range(max_retries)] loop, with [n] iterations left
    starting at index [attempt].  [None] is the loop running out without a
    [return]. *)
Fixpoint judge_loop (p : Plugin) (prov : Provider)
    (contexts : list (string * string)) (n : nat) (attempt : Z)
    (prompt : string) (st : State) : option JudgeResult * State :=
  match n with
  | O => (None, st)
  | S n' =>
      match text_chat prov prompt contexts st with
      | (CallRaises e, st') =>
          (Some (JudgeResult_failure (reason_exception e)), st')
      | (Completion text, st') =>
          match json_loads (strip_fences (strip text)) with
          | Some judge_data =>
              match score_response p judge_data with
              | Ok r => (Some r, st')
              | Raise e => (Some (JudgeResult_failure (reason_exception e)), st')
              end
          | None =>
              if (attempt =? total_attempts p - 1)%Z
              then (Some (JudgeResult_failure
                            (reason_retries_exhausted (judge_max_retries p))),
                    st')
              else judge_loop p prov contexts n' (attempt + 1)%Z
                     (replace prompt json_reminder
                        (retry_reminder (Z.to_nat (attempt + 2))))
                     st'
          end
      end
  end.

(** Lines 218-314 of [judge_with_tiny_model]: everything between the
    provider lookup and the retry loop.  Returns the
    [complete_judge_prompt] and the state the loop starts from. *)
Definition judge_prepare (p : Plugin) (c : Collab) (today : string)
    (ev : Event) (st : State) : string * State :=
  let chat_id := unified_msg_origin ev in
  (* chat_state = self._get_chat_state(event.unified_msg_origin) *)
  let '(_, cs1) := _get_chat_state today chat_id (chat_states st) in
  let st1 := set_chat_states st cs1 in
  let '(persona_system_prompt, st2) :=
    _get_or_create_summarized_system_prompt p c
      (original_persona_prompt c) st1 in
  (* _build_chat_context and _get_minutes_since_last_reply *)
  let '(_, cs2) := _get_chat_state today chat_id (chat_states st2) in
  let '(chat_state, cs3) := _get_chat_state today chat_id cs2 in
  let st3 := set_chat_states st2 cs3 in
  let judge_prompt := render_judge_prompt c persona_system_prompt chat_state in
  (complete_judge_prompt persona_system_prompt judge_prompt, st3).

(** [judge_with_tiny_model].  [None] is Python's [None], returned when the
    function body ends without a [return]. *)
Definition judge_with_tiny_model (p : Plugin) (c : Collab) (today : string)
    (ev : Event) (st : State) : option JudgeResult * State :=
  if decide (judge_provider_name p = "")
  then (Some (JudgeResult_failure reason_not_configured), st)
  else
    match get_provider_by_id (judge_provider_name p) with
    | Raise e => (Some (JudgeResult_failure (reason_lookup_failed e)), st)
    | Ok None =>
        (Some (JudgeResult_failure (reason_no_provider (judge_provider_name p))),
         st)
    | Ok (Some judge_provider) =>
        let '(prompt, st3) := judge_prepare p c today ev st in
        judge_loop p judge_provider (recent_contexts c)
          (Z.to_nat (total_attempts p)) 0%Z prompt st3
    end.

(** The number of [text_chat] calls made between two states. *)
Definition calls_between (before after : State) : nat :=
  length (provider_log after) - length (provider_log before).

End Engine.

(** ** The debounce coordinator *)

Section Debounce.

Import Str.

Variable p : Plugin.

(** [f"{chat_id}_{user_id}"] *)
Definition user_key (chat_id user : string) : string :=
  chat_id ++ "_" ++ user.

Definition event_key (ev : Event) : string :=
  user_key (unified_msg_origin ev) (sender_id ev).

(** [task.done()] for the task named [tid]. *)
Definition is_done (ts : list Task) (tid : nat) : bool :=
  match ts !! tid with
  | Some t => task_done t
  | None => true
  end.

(** [task.cancel()] *)
Definition cancel_task (ts : list Task) (tid : nat) : list Task :=
  match ts !! tid with
  | Some t =>
      <[tid := mkTask (task_key t) (task_created t) true (task_done t)]> ts
  | None => ts
  end.

(** The task's coroutine has returned. *)
Definition finish_task (ts : list Task) (tid : nat) : list Task :=
  match ts !! tid with
  | Some t =>
      <[tid := mkTask (task_key t) (task_created t)
                 (task_cancel_requested t) true]> ts
  | None => ts
  end.

(** [_enter_silent_wait], called at wall-clock time [now] for an admitted
    message. [asyncio.create_task] appends the new task to [tasks]. *)
Definition _enter_silent_wait (now : Q) (ev : Event) (st : State) : State :=
  let key := event_key ev in
  let info := mkMessageInfo now (message_str ev) ev in
  match user_wait_states st !! key with
  | Some wait_state =>
      let ts1 :=
        match timer_task wait_state with
        | Some tid =>
            if negb (is_done (tasks st) tid) then cancel_task (tasks st) tid
            else tasks st
        | None => tasks st
        end in
      let new_tid := length ts1 in
      let ts2 := (ts1 ++ [mkTask key now false false])%list in
      let wait_state' :=
        mkUserWaitState (user_id wait_state) (start_time wait_state)
          (accumulated_messages wait_state ++ [info])%list (Some new_tid) now in
      set_user_wait_states (set_tasks st ts2)
        (<[key := wait_state']> (user_wait_states st))
  | None =>
      let new_tid := length (tasks st) in
      let ts := (tasks st ++ [mkTask key now false false])%list in
      set_user_wait_states (set_tasks st ts)
        (<[key := mkUserWaitState (sender_id ev) now [info] (Some new_tid) now]>
           (user_wait_states st))
  end.

(** [_combine_user_messages]: the carrier is the first message's event, with
    its text overwritten. *)
Definition _combine_user_messages (accumulated : list message_info)
  : option Event :=
  match accumulated with
  | [] => None
  | first :: _ =>
      let base_event := event first in
      Some (mkEvent (unified_msg_origin base_event) (sender_id base_event)
              (sender_name base_event)
              (join nl (map content accumulated))
              (is_at_or_wake_command base_event))
  end.

(** The carrier is the event object held by the first accumulated message:
    what is assigned to it shows in the list as well. *)
Definition store_carrier (accumulated : list message_info) (carrier : Event)
  : list message_info :=
  match accumulated with
  | [] => []
  | first :: rest => mkMessageInfo (timestamp first) (content first) carrier :: rest
  end.

(** The [try] block of [_wait_and_reply] from the line after
    [asyncio.sleep], run at time [now].  [put_ok] tells whether
    [get_event_queue().put] returns ([true]) or raises. *)
Definition wait_and_reply_body (now : Q) (today : string) (key : string)
    (put_ok : bool) (st : State) : State :=
  match user_wait_states st !! key with
  | None => st
  | Some wait_state =>
      if Qlt_bool (now - waiting_since wait_state)
                  (silent_wait_duration p - (1 # 10))
      then st
      else
        match _combine_user_messages (accumulated_messages wait_state) with
        | None => st
        | Some combined =>
            let combined_event :=
              mkEvent (unified_msg_origin combined) (sender_id combined)
                (sender_name combined) (message_str combined) true in
            let cs :=
              _update_active_state p today now
                (unified_msg_origin combined_event) (chat_states st) in
            let acc :=
              store_carrier (accumulated_messages wait_state) combined_event in
            let st1 := set_chat_states st cs in
            if put_ok
            then
              set_user_wait_states
                (set_event_queue st1 (event_queue st1 ++ [combined_event])%list)
                (<[key := mkUserWaitState (user_id wait_state)
                            (start_time wait_state) []
                            (timer_task wait_state)
                            (waiting_since wait_state)]>
                   (user_wait_states st1))
            else
              set_user_wait_states st1
                (<[key := mkUserWaitState (user_id wait_state)
                            (start_time wait_state) acc
                            (timer_task wait_state)
                            (waiting_since wait_state)]>
                   (user_wait_states st1))
        end
  end.

(** The [finally] block of [_wait_and_reply]. *)
Definition wait_and_reply_finally (key : string) (st : State) : State :=
  match user_wait_states st !! key with
  | None => st
  | Some wait_state =>
      match timer_task wait_state with
      | Some tid =>
          if is_done (tasks st) tid
          then set_user_wait_states st (delete key (user_wait_states st))
          else st
      | None => st
      end
  end.

(** The task [tid] is resumed from [asyncio.sleep] at time [now]: with
    [CancelledError] when [cancel()] was called on it, normally otherwise.
    It then runs to its end without suspending; only after the coroutine
    has returned, [finally] block included, is the task done. *)
Definition _wait_and_reply (now : Q) (today : string) (tid : nat)
    (put_ok : bool) (st : State) : State :=
  match tasks st !! tid with
  | None => st
  | Some t =>
      if task_done t then st
      else
        let st1 :=
          if task_cancel_requested t then st
          else wait_and_reply_body now today (task_key t) put_ok st in
        let st2 := wait_and_reply_finally (task_key t) st1 in
        set_tasks st2 (finish_task (tasks st2) tid)
  end.

(** What the event loop does next. *)
Inductive action : Type :=
| Admit (now : Q) (ev : Event)
| Wake (now : Q) (today : string) (tid : nat) (put_ok : bool).

Definition action_time (a : action) : Q :=
  match a with
  | Admit now _ => now
  | Wake now _ _ _ => now
  end.

Definition step (st : State) (a : action) : State :=
  match a with
  | Admit now ev => _enter_silent_wait now ev st
  | Wake now today tid put_ok => _wait_and_reply now today tid put_ok st
  end.

Definition run (st : State) (l : list action) : State := fold_left step l st.

(** The event loop resumes a task that is not done, and a task that was not
    cancelled only when its sleep is over. *)
Definition can_wake (st : State) (now : Q) (tid : nat) : Prop :=
  match tasks st !! tid with
  | Some t =>
      task_done t = false /\
      (task_cancel_requested t = true \/
       (task_created t + silent_wait_duration p <= now)%Q)
  | None => False
  end.

Definition enabled (st : State) (a : action) : Prop :=
  match a with
  | Admit _ _ => True
  | Wake now _ tid _ => can_wake st now tid
  end.

(** A schedule the event loop can follow from [st] when the clock shows
    [clock]: time does not go back and every step is enabled. *)
Fixpoint schedule_ok (clock : Q) (st : State) (l : list action) : Prop :=
  match l with
  | [] => True
  | a :: l' =>
      (clock <= action_time a)%Q /\ enabled st a /\
      schedule_ok (action_time a) (step st a) l'
  end.

(** What a step hands to the downstream queue. *)
Definition emitted (st : State) (a : action) : list Event :=
  drop (length (event_queue st)) (event_queue (step st a)).

End Debounce.

(** ** A decoder for the examples

    [json.loads] is a parameter of the engine.  The closed examples below
    instantiate it with [json_loads_flat], a decoder for one fragment of
    JSON: an object whose values are integers or strings without escapes.
    On that fragment it returns what [json.loads] returns (the last
    binding of a repeated key wins); any other text is rejected. *)

Module JsonFlat.

Inductive pstate : Type :=
| PStart
| PKeyOrEnd (first : bool)
| PKey (k : string)
| PColon (k : string)
| PValue (k : string)
| PMinus (k : string)
| PZero (k : string)
| PInt (k : string) (neg : bool) (n : Z)
| PStr (k : string) (v : string)
| PNext
| PEnd.

Definition is_ws (c : ascii) : bool :=
  let n := nat_of_ascii c in
  (n =? 32)%nat || (n =? 9)%nat || (n =? 10)%nat || (n =? 13)%nat.

Definition digit_of (c : ascii) : option Z :=
  let n := nat_of_ascii c in
  if (48 <=? n)%nat && (n <=? 57)%nat then Some (Z.of_nat (n - 48)) else None.

Definition plain_char (c : ascii) : bool :=
  let n := nat_of_ascii c in
  (32 <=? n)%nat && negb (n =? 34)%nat && negb (n =? 92)%nat.

Definition int_value (neg : bool) (n : Z) : json :=
  JNum (inject_Z (if neg then - n else n)).

Definition snoc (s : string) (c : ascii) : string :=
  s ++ String c EmptyString.

(** After a complete value: a comma, the closing brace or white space. *)
Definition after_value (c : ascii) : option pstate :=
  if is_ws c then Some PNext
  else if Ascii.eqb c "," then Some (PKeyOrEnd false)
  else if Ascii.eqb c "}" then Some PEnd
  else None.

Fixpoint parse (ps : pstate) (m : gmap string json) (s : string)
  : option json :=
  match s with
  | EmptyString =>
      match ps with PEnd => Some (JObj m) | _ => None end
  | String c s' =>
      match ps with
      | PStart =>
          if is_ws c then parse PStart m s'
          else if Ascii.eqb c "{" then parse (PKeyOrEnd true) m s'
          else None
      | PKeyOrEnd first =>
          if is_ws c then parse (PKeyOrEnd first) m s'
          else if Ascii.eqb c "034" then parse (PKey "") m s'
          else if first && Ascii.eqb c "}" then parse PEnd m s'
          else None
      | PKey k =>
          if Ascii.eqb c "034" then parse (PColon k) m s'
          else if plain_char c then parse (PKey (snoc k c)) m s'
          else None
      | PColon k =>
          if is_ws c then parse (PColon k) m s'
          else if Ascii.eqb c ":" then parse (PValue k) m s'
          else None
      | PValue k =>
          if is_ws c then parse (PValue k) m s'
          else if Ascii.eqb c "034" then parse (PStr k "") m s'
          else if Ascii.eqb c "-" then parse (PMinus k) m s'
          else match digit_of c with
               | Some 0%Z => parse (PZero k) m s'
               | Some d => parse (PInt k false d) m s'
               | None => None
               end
      | PMinus k =>
          match digit_of c with
          | Some 0%Z => parse (PZero k) m s'
          | Some d => parse (PInt k true d) m s'
          | None => None
          end
      | PZero k =>
          match after_value c with
          | Some ps' => parse ps' (<[k := int_value false 0]> m) s'
          | None => None
          end
      | PInt k neg n =>
          match digit_of c with
          | Some d => parse (PInt k neg (10 * n + d)) m s'
          | None =>
              match after_value c with
              | Some ps' => parse ps' (<[k := int_value neg n]> m) s'
              | None => None
              end
          end
      | PStr k v =>
          if Ascii.eqb c "034" then parse PNext (<[k := JStr v]> m) s'
          else if plain_char c then parse (PStr k (snoc v c)) m s'
          else None
      | PNext =>
          match after_value c with
          | Some ps' => parse ps' m s'
          | None => None
          end
      | PEnd => if is_ws c then parse PEnd m s' else None
      end
  end.

Definition json_loads_flat (s : string) : option json := parse PStart ∅ s.

(** The text of a flat object, for writing examples. *)
Definition quoted (s : string) : string := Txt.dq ++ s ++ Txt.dq.

Definition int_field (k : string) (n : Z) : string :=
  quoted k ++ ": " ++ Str.str_Z n.

Definition str_field (k v : string) : string :=
  quoted k ++ ": " ++ quoted v.

Definition object_text (fields : list string) : string :=
  "{" ++ Str.join ", " fields ++ "}".

End JsonFlat.

(** ** Inputs of the examples *)

Module Demo.

Import JsonFlat.

(** A configuration with the default weights, but for the last one. *)
Definition config (retries : Z) (continuity_weight : Q) : Config :=
  mkConfig "judge" (6 # 10) (1 # 10) (2 # 100) 5 true retries
           (25 # 100) (2 # 10) (2 # 10) (15 # 100) continuity_weight.

Definition zero_weights_config : Config :=
  mkConfig "judge" (6 # 10) (1 # 10) (2 # 100) 5 true 3 0 0 0 0 0.

Definition today : string := "2025-06-01".
Definition chat : string := "aiocqhttp:GroupMessage:1001".

Definition message (chat_id user text : string) : Event :=
  mkEvent chat_id user user text false.

(** A provider that answers its [n]-th call with the [n]-th outcome of a
    script. *)
Definition scripted (answers : list llm_outcome) (last : llm_outcome)
  : Provider :=
  fun n _ _ => nth n answers last.

Definition resolve (prov : Provider) : string -> result (option Provider) :=
  fun _ => Ok (Some prov).

(** No current conversation, no persona. *)
Definition no_conversation : Collab :=
  mkCollab (Ok None) (Ok None) "" [] (fun _ _ => "judge_prompt").

Definition all_tens : string :=
  object_text [int_field "relevance" 10; int_field "willingness" 10;
               int_field "social" 10; int_field "timing" 10;
               int_field "continuity" 10].

(** The plugin [__init__] builds from [config retries w]. *)
Definition plugin (retries : Z) (continuity_weight : Q) : Plugin :=
  match init (config retries continuity_weight) with
  | Ok p => p
  | Raise _ => mkPlugin "" 0 0 0 0 0 false 0 (mkWeights 0 0 0 0 0)
  end.



Definition long_persona : string :=
  "You are a cheerful assistant who loves cats, tea and long walks in the rain.".

(** A current conversation [conv1] with persona [p1]. *)
Definition persona_conversation : Collab :=
  mkCollab (Ok (Some "conv1")) (Ok (Some (Some "p1"))) long_persona []
           (fun _ _ => "judge_prompt").

(** Two chats and two senders whose keys coincide. *)
Definition message_a : Event :=
  message "aiocqhttp:GroupMessage:100_7" "9" "from a".
Definition message_b : Event :=
  message "aiocqhttp:GroupMessage:100" "7_9" "from b".

(** The provider answers every call with [text]. *)
Definition always (text : string) : Provider :=
  scripted [] (Completion text).


End Demo.

(** ** Vocabulary of the statements *)

(** The score a parsed response gives a dimension: the field when it is
    there, 0 when it is missing. *)
Definition field_value (m : gmap string json) (k : string) : Q :=
  match m !! k with
  | Some (JNum q) => q
  | _ => 0%Q
  end.

(** A dimension field is missing, or a number in [0,10]. *)
Definition score_field_ok (m : gmap string json) (k : string) : Prop :=
  match m !! k with
  | None => True
  | Some (JNum q) => (0 <= q /\ q <= 10)%Q
  | Some _ => False
  end.

Definition scores_ok (m : gmap string json) : Prop :=
  score_field_ok m "relevance" /\ score_field_ok m "willingness" /\
  score_field_ok m "social" /\ score_field_ok m "timing" /\
  score_field_ok m "continuity".

(** The weighted sum of the five scores of a result, over 10. *)
Definition weighted_score (w : Weights) (r : JudgeResult) : Q :=
  ((relevance r * w_relevance w + willingness r * w_willingness w
    + social r * w_social w + timing r * w_timing w
    + continuity r * w_continuity w) / 10)%Q.

(** What [_summarize_system_prompt] accepts as a summary in the text of a
    response: the stripped [summarized_persona] string of the parsed object,
    when it has more than 10 characters. *)
Definition summary_of (json_loads : string -> option json) (text : string)
  : option string :=
  match json_loads (strip_fences (Str.strip text)) with
  | Some (JObj m) =>
      match m !! "summarized_persona" with
      | Some (JStr s) =>
          if (10 <? Str.py_len (Str.strip s))%nat then Some (Str.strip s)
          else None
      | _ => None
      end
  | _ => None
  end.

(** The persona id [_get_or_create_summarized_system_prompt] uses. *)
Definition persona_id_of (conversation : option (option string))
  : option string :=
  match conversation with
  | Some pid => pid
  | None => Some "default"
  end.

(** The state after one more [text_chat] call on [prompt]. *)
Definition logged (st : State) (prompt : string) : State :=
  set_provider_log st (provider_log st ++ [prompt])%list.

(** The provider's answer to call [n] is a completion that does not
    parse, whatever the prompt. *)
Definition malformed_at (json_loads : string -> option json)
    (prov : Provider) (contexts : list (string * string)) (n : nat) : Prop :=
  forall prompt, exists text,
    prov n prompt contexts = Completion text /\
    json_loads (strip_fences (Str.strip text)) = None.

(** Two states that differ at most in the cache and the provider log. *)
Definition same_chat_side (a b : State) : Prop :=
  chat_states a = chat_states b /\
  user_wait_states a = user_wait_states b /\
  tasks a = tasks b /\ event_queue a = event_queue b.

(** What the debounce coordinator does, as seen from outside: a message is
    admitted, or a composite unit is handed to the downstream queue. *)
Inductive obs : Type :=
| ObsAdmit (now : Q) (ev : Event)
| ObsEmit (now : Q) (unit : Event).

Definition obs_time (o : obs) : Q :=
  match o with
  | ObsAdmit now _ => now
  | ObsEmit now _ => now
  end.

Definition obs_key (o : obs) : string :=
  match o with
  | ObsAdmit _ ev => event_key ev
  | ObsEmit _ u => event_key u
  end.

Definition observe (p : Plugin) (st : State) (a : action) : list obs :=
  match a with
  | Admit now ev => [ObsAdmit now ev]
  | Wake now _ _ _ => map (ObsEmit now) (emitted p st a)
  end.

(** The observations of a schedule run from [st], oldest first. *)
Fixpoint trace (p : Plugin) (st : State) (l : list action) : list obs :=
  match l with
  | [] => []
  | a :: l' => (observe p st a ++ trace p (step p st a) l')%list
  end.

(** The last observation for [key] in a trace is an admission: a burst of
    [key] is open. *)
Definition armed_step (key : string) (b : bool) (o : obs) : bool :=
  if String.eqb (obs_key o) key
  then match o with ObsAdmit _ _ => true | ObsEmit _ _ => false end
  else b.

Definition armed (key : string) (tr : list obs) : bool :=
  fold_left (armed_step key) tr false.

(** A task that can still merge: not done, and not cancelled. *)
Definition live (t : Task) : Prop :=
  task_done t = false /\ task_cancel_requested t = false.

(** The invariants of the coordinator. *)

(** Every message accumulated under a key was sent by that key's chat and
    sender. *)
Definition inv_keys (st : State) : Prop :=
  forall k ws m,
    user_wait_states st !! k = Some ws ->
    m ∈ accumulated_messages ws ->
    event_key (event m) = k.

(** A live task is the timer of its key's entry: at most one timer per key
    can merge. *)
Definition inv_timer (st : State) : Prop :=
  forall tid t,
    tasks st !! tid = Some t -> live t ->
    exists ws, user_wait_states st !! task_key t = Some ws /\
               timer_task ws = Some tid.

(** A live task belongs to an open burst, and no message of its key was
    admitted after it was created; no observation is later than the clock. *)
Definition inv_hist (clock : Q) (tr : list obs) (st : State) : Prop :=
  (forall tid t,
     tasks st !! tid = Some t -> live t ->
     armed (task_key t) tr = true /\
     forall t0 ev, ObsAdmit t0 ev ∈ tr -> event_key ev = task_key t ->
                   (t0 <= task_created t)%Q) /\
  (forall o, o ∈ tr -> (obs_time o <= clock)%Q).

(** Every emission of a trace closes an open burst of its key, and comes no
    sooner than the quiet duration after every earlier admission for that
    key. *)
Definition emissions_ok (p : Plugin) (tr : list obs) : Prop :=
  forall tr1 now u tr2,
    tr = (tr1 ++ ObsEmit now u :: tr2)%list ->
    armed (event_key u) tr1 = true /\
    forall t0 ev, ObsAdmit t0 ev ∈ tr1 -> event_key ev = event_key u ->
                  (t0 + silent_wait_duration p <= now)%Q.

(** The states of the coalescing scenario: the record of a message admitted
    at [now], and the entry of a sender whose first message came at 0. *)
Definition info_of (now : Q) (ev : Event) : message_info :=
  mkMessageInfo now (message_str ev) ev.

Definition entry_of (ev : Event) (acc : list message_info) (tid : nat)
    (since : Q) : UserWaitState :=
  mkUserWaitState (sender_id ev) 0 acc (Some tid) since.

(** The unit that merges two messages, carried by the first. *)
Definition merged_unit (m1 m2 : Event) : Event :=
  mkEvent (unified_msg_origin m1) (sender_id m1) (sender_name m1)
          (message_str m1 ++ Str.nl ++ message_str m2) true.

(** ** The code around the decision core *)

(** *** The admission gate ([_should_process_message]) *)

(** What the gate reads besides the event: the [enable_heartflow] option,
    the whitelist attributes, and the bot's own id ([event.get_self_id()]). *)
Record Gate : Type := mkGate {
  enable_heartflow : bool;
  whitelist_enabled : bool;
  chat_whitelist : list string;
  self_id : string
}.

(** [x in l] for a list of strings. *)
Definition str_in (x : string) (l : list string) : bool :=
  existsb (String.eqb x) l.

(** [_should_process_message] *)
Definition _should_process_message (g : Gate) (ev : Event) : bool :=
  if negb (enable_heartflow g) then false
  else if is_at_or_wake_command ev then false
  else if whitelist_enabled g
          && match chat_whitelist g with [] => true | _ => false end
  then false
  else if whitelist_enabled g
          && negb (str_in (unified_msg_origin ev) (chat_whitelist g))
  then false
  else if String.eqb (sender_id ev) (self_id g) then false
  else if String.eqb (message_str ev) ""
          || String.eqb (Str.strip (message_str ev)) ""
  then false
  else true.

(** *** Minutes since the last reply *)

(** [int(x)] on a number: truncation toward zero. *)
Definition py_int (x : Q) : Z := Z.quot (Qnum x) (Zpos (Qden x)).

(** [_get_minutes_since_last_reply], at wall-clock time [now]. *)
Definition _get_minutes_since_last_reply (today : string) (now : Q)
    (chat_id : string) (chat_states : gmap string ChatState)
  : Z * gmap string ChatState :=
  let '(chat_state, cs) := _get_chat_state today chat_id chat_states in
  (if Qeq_bool (last_reply_time chat_state) 0 then 999%Z
   else py_int ((now - last_reply_time chat_state) / 60),
   cs).

(** *** The conversation history readers *)

(** [l[start:]] *)
Definition slice_from {A : Type} (l : list A) (start : Z) : list A :=
  if (start <? 0)%Z
  then drop (Z.to_nat (Z.max 0 (Z.of_nat (length l) + start))) l
  else drop (Z.to_nat start) l.

(** [context[-n:] if len(context) > n else context] *)
Definition recent_window {A : Type} (n : Z) (context : list A) : list A :=
  if (n <? Z.of_nat (length context))%Z then slice_from context (- n)
  else context.

(** [role in ["user", "assistant"]] *)
Definition is_chat_role (role : json) : bool :=
  match role with
  | JStr r => String.eqb r "user" || String.eqb r "assistant"
  | _ => false
  end.

(** The loop of [_get_recent_contexts]; an entry that is not an object
    raises ([msg.get]), which is [None] here. *)
Fixpoint filter_contexts (recent : list json) : option (list (string * string)) :=
  match recent with
  | [] => Some []
  | msg :: rest =>
      match dict_get msg "role" (JStr ""), dict_get msg "content" (JStr "") with
      | Ok role, Ok content =>
          match filter_contexts rest with
          | None => None
          | Some tail =>
              match role, content with
              | JStr r, JStr c =>
                  if is_chat_role role && negb (String.eqb c "")
                  then Some ((r, c) :: tail) else Some tail
              | _, _ => Some tail
              end
          end
      | _, _ => None
      end
  end.

(** What the three readers get from the conversation manager: the current
    conversation id, and the conversation's [history] text. *)
Record HistorySource : Type := mkHistorySource {
  hs_cid : result (option string);
  hs_conversation : result (option (option string))
}.

(** The part the three readers share: the parsed history, when there is a
    conversation with a non-empty history that parses to a list. [None]
    covers every early return and every exception before the loop. *)
Definition load_history (json_loads : string -> option json)
    (h : HistorySource) : option (list json) :=
  match hs_cid h with
  | Ok (Some (String _ _)) =>
      match hs_conversation h with
      | Ok (Some (Some (String c s))) =>
          match json_loads (String c s) with
          | Some (JArr context) => Some context
          | _ => None
          end
      | _ => None
      end
  | _ => None
  end.

(** [_get_recent_contexts] *)
Definition _get_recent_contexts (json_loads : string -> option json)
    (p : Plugin) (h : HistorySource) : list (string * string) :=
  match load_history json_loads h with
  | Some context =>
      match filter_contexts (recent_window (context_messages_count p) context) with
      | Some filtered => filtered
      | None => []
      end
  | None => []
  end.

Definition no_history_text : string := "暂无对话历史".

(** The loop of [_get_recent_messages]: the contents of the user and
    assistant entries, whatever they are. *)
Fixpoint collect_messages (recent : list json) : option (list json) :=
  match recent with
  | [] => Some []
  | msg :: rest =>
      match dict_get msg "role" (JStr "unknown"),
            dict_get msg "content" (JStr "") with
      | Ok role, Ok content =>
          match collect_messages rest with
          | None => None
          | Some tail =>
              if is_chat_role role then Some (content :: tail) else Some tail
          end
      | _, _ => None
      end
  end.

(** The texts of a list whose items are all [str]; [str.join] raises on
    another item. *)
Fixpoint all_texts (l : list json) : option (list string) :=
  match l with
  | [] => Some []
  | JStr s :: rest =>
      match all_texts rest with
      | Some tail => Some (s :: tail)
      | None => None
      end
  | _ :: _ => None
  end.

(** [_get_recent_messages] *)
Definition _get_recent_messages (json_loads : string -> option json)
    (p : Plugin) (h : HistorySource) : string :=
  match load_history json_loads h with
  | Some context =>
      match collect_messages (recent_window (context_messages_count p) context) with
      | Some [] => no_history_text
      | Some messages_text =>
          match all_texts messages_text with
          | Some texts => Str.join (Str.nl ++ "---" ++ Str.nl) texts
          | None => no_history_text
          end
      | None => no_history_text
      end
  | None => no_history_text
  end.

(** [role == "assistant"] *)
Definition is_assistant (role : json) : bool :=
  match role with
  | JStr r => String.eqb r "assistant"
  | _ => false
  end.

(** The loop of [_get_last_bot_reply] over [reversed(context)]: the outer
    [None] is an exception ([msg.get] on an entry that is not an object,
    [content.strip()] on a content that is not a string), the inner one the
    loop ending without a [return]. *)
Fixpoint scan_last_reply (reversed : list json) : option (option string) :=
  match reversed with
  | [] => Some None
  | msg :: rest =>
      match dict_get msg "role" (JStr "unknown"),
            dict_get msg "content" (JStr "") with
      | Ok role, Ok content =>
          if is_assistant role
          then match content with
               | JStr c =>
                   if String.eqb (Str.strip c) "" then scan_last_reply rest
                   else Some (Some c)
               | _ => None
               end
          else scan_last_reply rest
      | _, _ => None
      end
  end.

(** [_get_last_bot_reply] *)
Definition _get_last_bot_reply (json_loads : string -> option json)
    (h : HistorySource) : option string :=
  match load_history json_loads h with
  | Some context =>
      match scan_last_reply (rev context) with
      | Some r => r
      | None => None
      end
  | None => None
  end.

(** *** The personas *)

(** [_get_persona_prompt_by_name] over [provider_manager.personas], each
    persona a name and, when it has one, a prompt. *)
Fixpoint _get_persona_prompt_by_name (personas : list (string * option string))
    (persona_name : string) : string :=
  match personas with
  | [] => ""
  | (name, prompt) :: rest =>
      if String.eqb name persona_name
      then match prompt with Some s => s | None => "" end
      else _get_persona_prompt_by_name rest persona_name
  end.

Definition no_persona_marker : string := "[%None]".

(** [_get_persona_system_prompt]: [cid] and [conversation] are what the
    conversation manager returns (the conversation as its [persona_id]),
    [default_name] is [selected_default_persona["name"]]. *)
Definition _get_persona_system_prompt
    (personas : list (string * option string)) (default_name : string)
    (cid : result (option string))
    (conversation : result (option (option string))) : string :=
  match cid with
  | Raise _ => ""
  | Ok None | Ok (Some EmptyString) =>
      _get_persona_prompt_by_name personas default_name
  | Ok (Some _) =>
      match conversation with
      | Raise _ => ""
      | Ok None => _get_persona_prompt_by_name personas default_name
      | Ok (Some None) | Ok (Some (Some EmptyString)) =>
          _get_persona_prompt_by_name personas default_name
      | Ok (Some (Some persona_id)) =>
          if String.eqb persona_id no_persona_marker then ""
          else _get_persona_prompt_by_name personas persona_id
      end
  end.

(** *** The message handler and the administrative commands *)

(** [v[:30]] succeeds on a string and on a list. *)
Definition sliceable (v : json) : bool :=
  match v with
  | JStr _ | JArr _ => true
  | _ => false
  end.

(** [on_group_message], for a message that arrives on date [today] and
    enters the silent wait at wall-clock time [now]. Every exception of the
    [try] block is caught and logged: the state is then what it was when the
    exception was raised. *)
Definition on_group_message (json_loads : string -> option json)
    (get_provider_by_id : string -> result (option Provider))
    (g : Gate) (p : Plugin) (c : Collab) (today : string) (now : Q)
    (ev : Event) (st : State) : State :=
  if negb (_should_process_message g ev) then st
  else
    match judge_with_tiny_model json_loads get_provider_by_id p c today ev st with
    | (None, st1) => st1
    | (Some judge_result, st1) =>
        if should_reply judge_result then _enter_silent_wait now ev st1
        else if sliceable (reasoning judge_result)
        then set_chat_states st1
               (_update_passive_state p today (unified_msg_origin ev)
                  (chat_states st1))
        else st1
    end.

(** [heartflow_reset]: the state change. *)
Definition heartflow_reset (chat_id : string) (st : State) : State :=
  set_chat_states st (delete chat_id (chat_states st)).

(** [heartflow_cache_clear]: the count it reports and the state change. *)
Definition heartflow_cache_clear (st : State) : nat * State :=
  (size (system_prompt_cache st), set_system_prompt_cache st ∅).

(** *** Vocabulary of the further statements *)

(** The counters of a chat state are consistent: no more replies than
    messages, and none negative. *)
Definition counters_ok (s : ChatState) : Prop :=
  (0 <= total_replies s /\ total_replies s <= total_messages s)%Z.

Definition all_counters_ok (cs : gmap string ChatState) : Prop :=
  forall k s, cs !! k = Some s -> counters_ok s.

(** Every cached entry was made from a persona text of at least 50
    characters. *)
Definition cache_long (cache : gmap string CacheEntry) : Prop :=
  forall k e, cache !! k = Some e ->
    (50 <= Str.py_len (Str.strip (ce_original e)))%nat.

(** An entry of a parsed history is an assistant turn with a text that is
    not blank. *)
Definition is_bot_reply (msg : json) (c : string) : Prop :=
  exists m, msg = JObj m /\ m !! "role" = Some (JStr "assistant") /\
            m !! "content" = Some (JStr c) /\ Str.strip c <> "".

(** The admissions of a burst: each message with its arrival time. *)
Definition admit_all (burst : list (Q * Event)) : list action :=
  map (fun '(now, ev) => Admit now ev) burst.

(** *** Inputs of the further examples *)

Module DemoHistory.

Definition turn (role content : string) : json :=
  JObj (<["role" := JStr role]> (<["content" := JStr content]> ∅)).

Definition history : list json :=
  [turn "user" "hi"; turn "assistant" "hello there"; turn "system" "note";
   turn "user" "ok"].

(** A decoder that reads every text as [history]. *)
Definition loads : string -> option json := fun _ => Some (JArr history).

Definition source : HistorySource :=
  mkHistorySource (Ok (Some "conv1")) (Ok (Some (Some "[...]"))).

(** A plugin whose context window is [n] messages. *)
Definition plugin_with_window (n : Z) : Plugin :=
  mkPlugin "judge" (6 # 10) (1 # 10) (2 # 100) n 6 true 3
           (mkWeights (25 # 100) (2 # 10) (2 # 10) (15 # 100) (2 # 10)).

Definition good_summary : string :=
  JsonFlat.object_text
    [JsonFlat.str_field "summarized_persona" "cheerful cat and tea lover"].

(** A persona whose text is cancelled by the user, as [persona_id]. *)
Definition cancelled_conversation : Collab :=
  mkCollab (Ok (Some "conv1")) (Ok (Some (Some "[%None]"))) "" []
           (fun _ _ => "judge_prompt").

Definition personas : list (string * option string) :=
  [("cat", Some "You are a cat."); ("dog", None); ("cat", Some "Second cat.")].

(** A response that parses but scores with a word. *)
Definition word_score : string :=
  JsonFlat.object_text [JsonFlat.int_field "relevance" 9;
                        JsonFlat.str_field "social" "high"].

End DemoHistory.

(** The five dimension fields of a judge response. *)
Definition score_fields : list string :=
  ["relevance"; "willingness"; "social"; "timing"; "continuity"].

(** A parsed response that cannot be scored: it is not an object, or one of
    its dimension fields holds something that is not a number. *)
Definition unusable (d : json) : Prop :=
  match d with
  | JObj m =>
      exists k v, k ∈ score_fields /\ m !! k = Some v /\
                  as_number v = Raise TypeError
  | _ => True
  end.


(** The unit that merges a whole burst, carried by its first message. *)
Definition burst_unit (first : Event) (burst : list (Q * Event)) : Event :=
  mkEvent (unified_msg_origin first) (sender_id first) (sender_name first)
          (Str.join Str.nl (map (fun x => message_str x.2) burst)) true.

(** The key [k] has an open burst: its entry holds the messages [acc], was
    last re-armed at [since], and its timer is the last task created, which
    is neither cancelled nor done. *)
Definition burst_open (st : State) (k : string) (acc : list message_info)
    (since : Q) : Prop :=
  exists ws tid,
    user_wait_states st !! k = Some ws /\
    accumulated_messages ws = acc /\
    timer_task ws = Some tid /\
    waiting_since ws = since /\
    S tid = length (tasks st) /\
    tasks st !! tid = Some (mkTask k since false false).
(** * Properties *)

(** ** Numbers *)

#[local] Open Scope Q_scope.

Lemma Qlt_bool_true a b : Qlt_bool a b = true <-> a < b.
Proof.
  unfold Qlt_bool. rewrite Bool.negb_true_iff.
  split.
  - intros H. apply Qnot_le_lt. intros Hle.
    apply Qle_bool_iff in Hle. congruence.
  - intros H. destruct (Qle_bool b a) eqn:E; [|reflexivity].
    apply Qle_bool_iff in E. lra.
Qed.

Lemma Qlt_bool_false a b : Qlt_bool a b = false <-> b <= a.
Proof.
  unfold Qlt_bool. rewrite Bool.negb_false_iff. apply Qle_bool_iff.
Qed.

Lemma py_min_spec a b :
  (b < a /\ py_min a b = b) \/ (a <= b /\ py_min a b = a).
Proof.
  unfold py_min. destruct (Qlt_bool b a) eqn:E.
  - left. split; [now apply Qlt_bool_true | reflexivity].
  - right. split; [now apply Qlt_bool_false | reflexivity].
Qed.

Lemma py_max_spec a b :
  (a < b /\ py_max a b = b) \/ (b <= a /\ py_max a b = a).
Proof.
  unfold py_max. destruct (Qlt_bool a b) eqn:E.
  - left. split; [now apply Qlt_bool_true | reflexivity].
  - right. split; [now apply Qlt_bool_false | reflexivity].
Qed.

(** ** ScoreWeights *)

Lemma divide_weights_ok w s :
  ~ s == 0 ->
  divide_weights w s =
    Ok (mkWeights (w_relevance w / s) (w_willingness w / s) (w_social w / s)
                  (w_timing w / s) (w_continuity w / s)).
Proof.
  intros Hs. unfold divide_weights, py_div.
  destruct (Qeq_bool s 0) eqn:E; [|reflexivity].
  apply Qeq_bool_iff in E. contradiction.
Qed.

Lemma divide_weights_zero w s : s == 0 -> divide_weights w s = Raise ZeroDivisionError.
Proof.
  intros Hs. unfold divide_weights, py_div.
  apply Qeq_bool_iff in Hs. now rewrite Hs.
Qed.

Lemma weight_sum_divided w :
  ~ weight_sum w == 0 ->
  weight_sum (mkWeights (w_relevance w / weight_sum w)
                (w_willingness w / weight_sum w) (w_social w / weight_sum w)
                (w_timing w / weight_sum w) (w_continuity w / weight_sum w))
  == 1.
Proof.
  intros Hs. unfold weight_sum in *. simpl. field.
  intros H0. apply Hs. lra.
Qed.

(** Construction on a weight vector whose sum is not zero: the weights are
    kept when the sum is within [1e-6] of 1, divided by the sum otherwise,
    and the stored weights sum to 1 within [1e-6]. *)
Lemma init_normalizes (c : Config) :
  ~ weight_sum (raw_weights c) == 0 ->
  exists p, (init c = Ok p) /\
    (judge_max_retries p = Z.max 0 (cfg_judge_max_retries c)) /\
    (Qabs (weight_sum (weights p) - 1) <= weight_epsilon) /\
    (Qabs (weight_sum (raw_weights c) - 1) <= weight_epsilon ->
     weights p = raw_weights c) /\
    (weight_epsilon < Qabs (weight_sum (raw_weights c) - 1) ->
     (weights p =
       mkWeights (cfg_judge_relevance c / weight_sum (raw_weights c))
                 (cfg_judge_willingness c / weight_sum (raw_weights c))
                 (cfg_judge_social c / weight_sum (raw_weights c))
                 (cfg_judge_timing c / weight_sum (raw_weights c))
                 (cfg_judge_continuity c / weight_sum (raw_weights c))) /\
     weight_sum (weights p) == 1).
Proof.
  intros Hs. unfold init, normalize_weights.
  destruct (Qlt_bool weight_epsilon (Qabs (weight_sum (raw_weights c) - 1)))
    eqn:E.
  - apply Qlt_bool_true in E.
    rewrite (divide_weights_ok _ _ Hs).
    eexists. split; [reflexivity|]. cbn [judge_max_retries weights].
    pose proof (weight_sum_divided (raw_weights c) Hs) as H1.
    split; [reflexivity|]. split; [|split].
    + rewrite H1. unfold weight_epsilon. cbn. discriminate.
    + intros Hle. lra.
    + intros _. split; [reflexivity | exact H1].
  - apply Qlt_bool_false in E.
    eexists. split; [reflexivity|]. cbn [judge_max_retries weights].
    split; [reflexivity|]. split; [exact E|]. split.
    + reflexivity.
    + intros Hlt. lra.
Qed.

(** C2, at the failing input: with the five configured weights all zero the
    sum is 0, it deviates from 1 by more than [1e-6], and the division of
    the first weight by the sum raises [ZeroDivisionError] out of
    [__init__]: no plugin is constructed. *)
Theorem C2_all_zero_weights_raise :
  weights_nonneg (raw_weights Demo.zero_weights_config) /\
  weight_sum (raw_weights Demo.zero_weights_config) == 0 /\
  init Demo.zero_weights_config = Raise ZeroDivisionError.
Proof.
  split; [|split].
  - unfold weights_nonneg. cbn. repeat split; discriminate.
  - reflexivity.
  - reflexivity.
Qed.

(** What construction guarantees about the stored weights, for
    non-negative configured weights. *)
Lemma init_ok_weights (c : Config) (p : Plugin) :
  weights_nonneg (raw_weights c) ->
  init c = Ok p ->
  weights_nonneg (weights p) /\
  weight_sum (weights p) <= 1 + weight_epsilon.
Proof.
  intros Hnn Hinit.
  assert (Hs : ~ weight_sum (raw_weights c) == 0).
  { intros H0. unfold init, normalize_weights in Hinit.
    assert (E : Qlt_bool weight_epsilon
                  (Qabs (weight_sum (raw_weights c) - 1)) = true).
    { apply Qlt_bool_true. rewrite H0. reflexivity. }
    rewrite E, (divide_weights_zero _ _ H0) in Hinit. discriminate. }
  destruct (init_normalizes c Hs) as (p' & Hp' & _ & Hsum & Hkept & Hdiv).
  rewrite Hinit in Hp'. injection Hp' as <-.
  assert (Hpos : 0 < weight_sum (raw_weights c)).
  { unfold weights_nonneg, weight_sum in *. lra. }
  split.
  - destruct (Qlt_le_dec weight_epsilon
                (Qabs (weight_sum (raw_weights c) - 1))) as [Hlt|Hle].
    + destruct (Hdiv Hlt) as [-> _].
      unfold weights_nonneg in *. cbn.
      destruct Hnn as (H1 & H2 & H3 & H4 & H5). cbn in H1, H2, H3, H4, H5.
      repeat split; (apply Qle_shift_div_l; [exact Hpos | lra]).
    + rewrite (Hkept Hle). exact Hnn.
  - apply Qabs_Qle_condition in Hsum. lra.
Qed.

Lemma field_value_get (m : gmap string json) (k : string) :
  score_field_ok m k ->
  exists v, dict_get (JObj m) k (JNum 0) = Ok v /\
            as_number v = Ok (field_value m k) /\
            0 <= field_value m k /\ field_value m k <= 10.
Proof.
  unfold score_field_ok, field_value, dict_get.
  destruct (m !! k) as [[| | q | | |]|]; try contradiction.
  - intros [H0 H10]. eexists. split; [reflexivity|]. cbn. auto.
  - intros _. eexists. split; [reflexivity|]. cbn.
    split; [reflexivity|]. split; discriminate.
Qed.

(** The scoring of a parsed response whose dimension fields are missing or
    within [0,10], for weights that are non-negative. *)
Lemma score_response_ok (p : Plugin) (m : gmap string json) :
  weights_nonneg (weights p) ->
  scores_ok m ->
  exists r, score_response p (JObj m) = Ok r /\
    relevance r = field_value m "relevance" /\
    willingness r = field_value m "willingness" /\
    social r = field_value m "social" /\
    timing r = field_value m "timing" /\
    continuity r = field_value m "continuity" /\
    overall_score r = weighted_score (weights p) r /\
    0 <= overall_score r /\
    overall_score r <= weight_sum (weights p) /\
    should_reply r = Qle_bool (reply_threshold p) (overall_score r) /\
    confidence r = overall_score r.
Proof.
  intros Hw (H1 & H2 & H3 & H4 & H5).
  destruct (field_value_get m _ H1) as (v1 & G1 & N1 & L1 & U1).
  destruct (field_value_get m _ H2) as (v2 & G2 & N2 & L2 & U2).
  destruct (field_value_get m _ H3) as (v3 & G3 & N3 & L3 & U3).
  destruct (field_value_get m _ H4) as (v4 & G4 & N4 & L4 & U4).
  destruct (field_value_get m _ H5) as (v5 & G5 & N5 & L5 & U5).
  unfold score_response.
  rewrite G1, G2, G3, G4, G5, N1, N2, N3, N4, N5.
  assert (Hr : exists rsn,
    (if judge_include_reasoning p
     then dict_get (JObj m) "reasoning" (JStr "")
     else Ok (JStr "")) = Ok rsn).
  { destruct (judge_include_reasoning p); cbn; eauto. }
  destruct Hr as [rsn ->].
  eexists. split; [reflexivity|]. cbn.
  repeat (split; [reflexivity|]).
  destruct Hw as (W1 & W2 & W3 & W4 & W5).
  unfold weight_sum.
  set (a := field_value m "relevance") in *.
  set (b := field_value m "willingness") in *.
  set (c := field_value m "social") in *.
  set (d := field_value m "timing") in *.
  set (e := field_value m "continuity") in *.
  assert (0 <= a * w_relevance (weights p) <= 10 * w_relevance (weights p))
    by (split; nra).
  assert (0 <= b * w_willingness (weights p) <= 10 * w_willingness (weights p))
    by (split; nra).
  assert (0 <= c * w_social (weights p) <= 10 * w_social (weights p))
    by (split; nra).
  assert (0 <= d * w_timing (weights p) <= 10 * w_timing (weights p))
    by (split; nra).
  assert (0 <= e * w_continuity (weights p) <= 10 * w_continuity (weights p))
    by (split; nra).
  split; [|split; [|split; reflexivity]].
  - apply Qle_shift_div_l; [reflexivity|]. lra.
  - apply Qle_shift_div_r; [reflexivity|]. lra.
Qed.

(** ** The retry loop, one iteration at a time *)

Section LoopFacts.

Import Str Txt.

Variable json_loads : string -> option json.
Variable p : Plugin.
Variable prov : Provider.
Variable contexts : list (string * string).

Lemma judge_loop_raises n attempt prompt st e :
  prov (length (provider_log st)) prompt contexts = CallRaises e ->
  judge_loop json_loads p prov contexts (S n) attempt prompt st =
    (Some (JudgeResult_failure (reason_exception e)), logged st prompt).
Proof. intros H. cbn. unfold text_chat. now rewrite H. Qed.

Lemma judge_loop_parsed n attempt prompt st text judge_data :
  prov (length (provider_log st)) prompt contexts = Completion text ->
  json_loads (strip_fences (strip text)) = Some judge_data ->
  judge_loop json_loads p prov contexts (S n) attempt prompt st =
    (Some (match score_response p judge_data with
           | Ok r => r
           | Raise e => JudgeResult_failure (reason_exception e)
           end), logged st prompt).
Proof.
  intros H1 H2. cbn. unfold text_chat. rewrite H1, H2.
  now destruct (score_response p judge_data).
Qed.

Lemma judge_loop_malformed_last n attempt prompt st text :
  prov (length (provider_log st)) prompt contexts = Completion text ->
  json_loads (strip_fences (strip text)) = None ->
  attempt = (total_attempts p - 1)%Z ->
  judge_loop json_loads p prov contexts (S n) attempt prompt st =
    (Some (JudgeResult_failure
             (reason_retries_exhausted (judge_max_retries p))),
     logged st prompt).
Proof.
  intros H1 H2 ->. cbn. unfold text_chat. rewrite H1, H2.
  now rewrite Z.eqb_refl.
Qed.

Lemma judge_loop_malformed_retry n attempt prompt st text :
  prov (length (provider_log st)) prompt contexts = Completion text ->
  json_loads (strip_fences (strip text)) = None ->
  attempt <> (total_attempts p - 1)%Z ->
  judge_loop json_loads p prov contexts (S n) attempt prompt st =
    judge_loop json_loads p prov contexts n (attempt + 1)%Z
      (replace prompt json_reminder (retry_reminder (Z.to_nat (attempt + 2))))
      (logged st prompt).
Proof.
  intros H1 H2 Hne. cbn. unfold text_chat. rewrite H1, H2.
  apply Z.eqb_neq in Hne. now rewrite Hne.
Qed.

(** The loop only appends to the provider log. *)
Lemma judge_loop_frame n : forall attempt prompt st,
  let st' := snd (judge_loop json_loads p prov contexts n attempt prompt st) in
  chat_states st' = chat_states st /\
  user_wait_states st' = user_wait_states st /\
  system_prompt_cache st' = system_prompt_cache st /\
  tasks st' = tasks st /\ event_queue st' = event_queue st /\
  (length (provider_log st) <= length (provider_log st') <=
     length (provider_log st) + n)%nat.
Proof.
  induction n as [|n IH]; intros attempt prompt st; cbn -[replace].
  - repeat split; lia.
  - unfold text_chat.
    destruct (prov (length (provider_log st)) prompt contexts) as [text|e];
      cbn -[replace].
    2:{ repeat split; rewrite ?length_app; cbn; lia. }
    destruct (json_loads (strip_fences (strip text))) as [d|]; cbn -[replace].
    { destruct (score_response p d); cbn;
        repeat split; rewrite ?length_app; cbn; lia. }
    destruct (attempt =? total_attempts p - 1)%Z; cbn -[replace].
    { repeat split; rewrite ?length_app; cbn; lia. }
    specialize (IH (attempt + 1)%Z
      (replace prompt json_reminder (retry_reminder (Z.to_nat (attempt + 2))))
      (set_provider_log st (provider_log st ++ [prompt])%list)).
    cbn -[replace] in IH. destruct IH as (? & ? & ? & ? & ? & Hlen).
    rewrite length_app in Hlen. cbn [length] in Hlen.
    repeat split; try assumption; lia.
Qed.

End LoopFacts.

(** ** Scoring of a parsed response *)

(** An attempt of the loop whose answer parses to an object with dimension
    fields missing or within [0,10] returns the scored result. *)
Lemma judge_loop_scores
    (json_loads : string -> option json) (c : Config) (p : Plugin)
    (prov : Provider) (contexts : list (string * string)) (n : nat)
    (attempt : Z) (prompt : string) (st : State) (text : string)
    (m : gmap string json) :
  weights_nonneg (raw_weights c) ->
  init c = Ok p ->
  prov (length (provider_log st)) prompt contexts = Completion text ->
  json_loads (strip_fences (Str.strip text)) = Some (JObj m) ->
  scores_ok m ->
  exists r,
    fst (judge_loop json_loads p prov contexts (S n) attempt prompt st)
      = Some r /\
    relevance r = field_value m "relevance" /\
    willingness r = field_value m "willingness" /\
    social r = field_value m "social" /\
    timing r = field_value m "timing" /\
    continuity r = field_value m "continuity" /\
    overall_score r = weighted_score (weights p) r /\
    0 <= overall_score r /\
    overall_score r <= 1 + weight_epsilon /\
    (weight_sum (weights p) <= 1 -> overall_score r <= 1) /\
    (should_reply r = true <-> reply_threshold p <= overall_score r) /\
    confidence r = overall_score r.
Proof.
  intros Hnn Hinit Hprov Hparse Hscores.
  destruct (init_ok_weights c p Hnn Hinit) as [Hw Hsum].
  destruct (score_response_ok p m Hw Hscores)
    as (r & Hr & R1 & R2 & R3 & R4 & R5 & Ho & Hlo & Hhi & Hsr & Hc).
  exists r.
  rewrite (judge_loop_parsed json_loads p prov contexts n attempt prompt st
             text (JObj m) Hprov Hparse), Hr.
  split; [reflexivity|].
  repeat (split; [assumption|]).
  split; [lra|]. split; [intros; lra|].
  split; [|assumption].
  rewrite Hsr. apply Qle_bool_iff.
Qed.

(** ** The energy tracker *)

Lemma all_in_range_insert (cs : gmap string ChatState) k s :
  all_in_range cs -> energy_in_range s -> all_in_range (<[k := s]> cs).
Proof.
  intros Hcs Hs k' s' Hl.
  destruct (decide (k = k')) as [->|Hne].
  - rewrite lookup_insert_eq in Hl. now injection Hl as <-.
  - rewrite lookup_insert_ne in Hl by assumption. eauto.
Qed.

Lemma get_chat_state_in_range today chat_id (cs : gmap string ChatState) :
  all_in_range cs ->
  energy_in_range (fst (_get_chat_state today chat_id cs)) /\
  all_in_range (snd (_get_chat_state today chat_id cs)).
Proof.
  intros Hcs. unfold _get_chat_state. cbn [fst snd].
  set (state := match cs !! chat_id with Some s => s | None => _ end).
  assert (Hstate : energy_in_range state).
  { subst state. destruct (cs !! chat_id) as [s|] eqn:E; [eauto|].
    unfold energy_in_range. cbn. split; discriminate. }
  assert (Hnew : energy_in_range
    (if decide (last_reset_date state = today) then state
     else mkChatState (py_min 1 (energy state + (2 # 10)))
            (last_reply_time state) today (total_messages state)
            (total_replies state))).
  { destruct (decide (last_reset_date state = today)); [assumption|].
    unfold energy_in_range in *. cbn.
    destruct (py_min_spec 1 (energy state + (2 # 10))) as [[? ->]|[? ->]]; lra. }
  split; [assumption|]. now apply all_in_range_insert.
Qed.

Lemma update_active_state_in_range p today now chat_id
    (cs : gmap string ChatState) :
  0 <= energy_decay_rate p ->
  all_in_range cs ->
  all_in_range (_update_active_state p today now chat_id cs).
Proof.
  intros Hd Hcs. unfold _update_active_state.
  destruct (get_chat_state_in_range today chat_id cs Hcs) as [Hst Hmap].
  destruct (_get_chat_state today chat_id cs) as [st cs'].
  cbn [fst snd] in *. apply all_in_range_insert; [assumption|].
  unfold energy_in_range in *. cbn.
  destruct (py_max_spec (1 # 10) (energy st - energy_decay_rate p))
    as [[? ->]|[? ->]]; lra.
Qed.

Lemma update_passive_state_in_range p today chat_id
    (cs : gmap string ChatState) :
  0 <= energy_recovery_rate p ->
  all_in_range cs ->
  all_in_range (_update_passive_state p today chat_id cs).
Proof.
  intros Hd Hcs. unfold _update_passive_state.
  destruct (get_chat_state_in_range today chat_id cs Hcs) as [Hst Hmap].
  destruct (_get_chat_state today chat_id cs) as [st cs'].
  cbn [fst snd] in *. apply all_in_range_insert; [assumption|].
  unfold energy_in_range in *. cbn.
  destruct (py_min_spec 1 (energy st + energy_recovery_rate p))
    as [[? ->]|[? ->]]; lra.
Qed.

Lemma run_call_in_range p (cs : gmap string ChatState) c :
  0 <= energy_decay_rate p -> 0 <= energy_recovery_rate p ->
  all_in_range cs -> all_in_range (run_call p cs c).
Proof.
  intros Hd Hr Hcs. destruct c; cbn.
  - now apply get_chat_state_in_range.
  - now apply update_active_state_in_range.
  - now apply update_passive_state_in_range.
Qed.

(** C5: with non-negative decay and recovery rates, from chat states whose
    energy is in [0.1, 1.0] (as a freshly created one is), any finite
    sequence of [_get_chat_state], [_update_active_state] and
    [_update_passive_state] calls leaves every energy in [0.1, 1.0];
    [_update_active_state] stores [max(0.1, energy - decay)],
    [_update_passive_state] stores [min(1.0, energy + recovery)], and the
    daily reset of [_get_chat_state] stores [min(1.0, energy + 0.2)]. *)
Theorem C5_energy_stays_in_range (p : Plugin)
    (cs : gmap string ChatState) (calls : list tracker_call) :
  0 <= energy_decay_rate p ->
  0 <= energy_recovery_rate p ->
  all_in_range cs ->
  all_in_range (run_calls p cs calls) /\
  energy_in_range ChatState_default /\
  (forall today now chat_id,
     energy <$> (_update_active_state p today now chat_id cs !! chat_id) =
     Some (py_max (1 # 10)
             (energy (fst (_get_chat_state today chat_id cs))
              - energy_decay_rate p))) /\
  (forall today chat_id,
     energy <$> (_update_passive_state p today chat_id cs !! chat_id) =
     Some (py_min 1
             (energy (fst (_get_chat_state today chat_id cs))
              + energy_recovery_rate p))) /\
  (forall today chat_id s,
     cs !! chat_id = Some s -> last_reset_date s <> today ->
     energy (fst (_get_chat_state today chat_id cs)) =
     py_min 1 (energy s + (2 # 10))).
Proof.
  intros Hd Hr Hcs. split; [|split; [|split; [|split]]].
  - unfold run_calls. revert cs Hcs.
    induction calls as [|c calls IH]; intros cs Hcs; cbn; [assumption|].
    apply IH. now apply run_call_in_range.
  - unfold energy_in_range. cbn. split; discriminate.
  - intros today now chat_id. unfold _update_active_state.
    destruct (_get_chat_state today chat_id cs) as [st cs'].
    now rewrite lookup_insert_eq.
  - intros today chat_id. unfold _update_passive_state.
    destruct (_get_chat_state today chat_id cs) as [st cs'].
    now rewrite lookup_insert_eq.
  - intros today chat_id s Hs Hne. unfold _get_chat_state. rewrite Hs.
    cbn [fst]. now destruct (decide (last_reset_date s = today)).
Qed.

Lemma C5_energy_stays_in_range_witness :
  all_in_range
    (run_calls (Demo.plugin 3 (2 # 10)) ∅
       [CallActive Demo.today 10 Demo.chat;
        CallActive Demo.today 20 Demo.chat;
        CallPassive "2025-06-02" Demo.chat]).
Proof.
  apply (C5_energy_stays_in_range (Demo.plugin 3 (2 # 10)) ∅
           [CallActive Demo.today 10 Demo.chat;
            CallActive Demo.today 20 Demo.chat;
            CallPassive "2025-06-02" Demo.chat]).
  - vm_compute. discriminate.
  - vm_compute. discriminate.
  - intros k s H. rewrite lookup_empty in H. discriminate.
Defined.

(** ** The retry bound *)

Section RetryFacts.

Import Str Txt.

Variable json_loads : string -> option json.
Variable p : Plugin.
Variable prov : Provider.
Variable contexts : list (string * string).

(** The loop makes at least one call when it has an iteration to run. *)
Lemma judge_loop_at_least_one n attempt prompt st :
  (length (provider_log st) + 1 <=
   length (provider_log
             (snd (judge_loop json_loads p prov contexts (S n) attempt
                     prompt st))))%nat.
Proof.
  cbn -[replace]. unfold text_chat.
  destruct (prov (length (provider_log st)) prompt contexts) as [text|e];
    cbn -[replace].
  2:{ rewrite length_app. cbn. lia. }
  destruct (json_loads (strip_fences (strip text))) as [d|]; cbn -[replace].
  { destruct (score_response p d); cbn; rewrite length_app; cbn; lia. }
  destruct (attempt =? total_attempts p - 1)%Z; cbn -[replace].
  { rewrite length_app. cbn. lia. }
  match goal with
  | |- context [judge_loop _ _ _ _ ?n' ?a ?pr ?s] =>
      pose proof (judge_loop_frame json_loads p prov contexts n' a pr s) as H
  end.
  cbn -[replace judge_loop] in H. destruct H as (_ & _ & _ & _ & _ & H).
  rewrite length_app in H. cbn [length] in H. lia.
Qed.

(** With as many iterations left as the bound allows, the loop returns a
    result: it never runs out without a [return]. *)
Lemma judge_loop_returns n : forall attempt prompt st,
  (attempt + Z.of_nat (S n) = total_attempts p)%Z ->
  is_Some (fst (judge_loop json_loads p prov contexts (S n) attempt prompt st)).
Proof.
  induction n as [|n IH]; intros attempt prompt st Hn;
    destruct (prov (length (provider_log st)) prompt contexts)
      as [text|e] eqn:Hp;
    try (rewrite (judge_loop_raises json_loads p prov contexts _ attempt
                    prompt st e Hp); eexists; reflexivity);
    destruct (json_loads (strip_fences (strip text))) as [d|] eqn:Hj;
    try (rewrite (judge_loop_parsed json_loads p prov contexts _ attempt
                    prompt st text d Hp Hj); eexists; reflexivity).
  - rewrite (judge_loop_malformed_last json_loads p prov contexts _ attempt
               prompt st text Hp Hj) by lia.
    eexists; reflexivity.
  - rewrite (judge_loop_malformed_retry json_loads p prov contexts _ attempt
               prompt st text Hp Hj) by lia.
    apply IH. lia.
Qed.

(** Every answer malformed: the loop uses all its iterations and reports
    that the retries are exhausted. *)
Lemma judge_loop_all_malformed n : forall attempt prompt st,
  (forall i, malformed_at json_loads prov contexts i) ->
  (attempt + Z.of_nat (S n) = total_attempts p)%Z ->
  let out := judge_loop json_loads p prov contexts (S n) attempt prompt st in
  fst out = Some (JudgeResult_failure
                    (reason_retries_exhausted (judge_max_retries p))) /\
  length (provider_log (snd out)) = (length (provider_log st) + S n)%nat.
Proof.
  induction n as [|n IH]; intros attempt prompt st Hbad Hn out; subst out.
  - destruct (Hbad (length (provider_log st)) prompt) as (text & H1 & H2).
    rewrite (judge_loop_malformed_last json_loads p prov contexts 0 attempt
               prompt st text H1 H2) by lia.
    cbn. rewrite length_app. cbn. split; [reflexivity | lia].
  - destruct (Hbad (length (provider_log st)) prompt) as (text & H1 & H2).
    rewrite (judge_loop_malformed_retry json_loads p prov contexts (S n)
               attempt prompt st text H1 H2) by lia.
    destruct (IH (attempt + 1)%Z
                (replace prompt json_reminder
                   (retry_reminder (Z.to_nat (attempt + 2))))
                (logged st prompt) Hbad ltac:(lia)) as [Hr Hl].
    split; [exact Hr|]. rewrite Hl. unfold logged. cbn.
    rewrite length_app. cbn. lia.
Qed.


End RetryFacts.

Lemma init_retries (c : Config) (p : Plugin) :
  init c = Ok p ->
  judge_max_retries p = Z.max 0 (cfg_judge_max_retries c) /\
  total_attempts p = (Z.max 0 (cfg_judge_max_retries c) + 1)%Z.
Proof.
  unfold init. destruct (normalize_weights (raw_weights c)); [|discriminate].
  intros [= <-]. unfold total_attempts. cbn. split; [reflexivity|].
  destruct (Z.max 0 (cfg_judge_max_retries c) =? 0)%Z eqn:E; [|reflexivity].
  apply Z.eqb_eq in E. now rewrite E.
Qed.

(** With a configured provider that resolves, [judge_with_tiny_model] is
    the retry loop started from what [judge_prepare] returns. *)
Lemma judge_with_tiny_model_resolved json_loads get_provider_by_id
    (p : Plugin) (c : Collab) today ev st prov :
  judge_provider_name p <> "" ->
  get_provider_by_id (judge_provider_name p) = Ok (Some prov) ->
  judge_with_tiny_model json_loads get_provider_by_id p c today ev st =
    judge_loop json_loads p prov (recent_contexts c)
      (Z.to_nat (total_attempts p)) 0%Z
      (fst (judge_prepare json_loads get_provider_by_id p c today ev st))
      (snd (judge_prepare json_loads get_provider_by_id p c today ev st)).
Proof.
  intros Hname Hprov. unfold judge_with_tiny_model.
  destruct (decide (judge_provider_name p = "")); [contradiction|].
  rewrite Hprov.
  now destruct (judge_prepare json_loads get_provider_by_id p c today ev st).
Qed.




(** C10: construction stores [max(0, configured max-retries)]; with a
    configured provider that resolves, [judge_with_tiny_model] returns a
    result after at least one judge attempt, and after exactly
    [max(0, configured) + 1] attempts, reporting exhausted retries, when
    every attempt's answer is malformed. *)
Theorem C10_max_retries_clamped
    (json_loads : string -> option json)
    (get_provider_by_id : string -> result (option Provider))
    (c : Config) (p : Plugin) (collab : Collab) (today : string)
    (ev : Event) (st : State) (prov : Provider) :
  init c = Ok p ->
  judge_provider_name p <> "" ->
  get_provider_by_id (judge_provider_name p) = Ok (Some prov) ->
  let start :=
    snd (judge_prepare json_loads get_provider_by_id p collab today ev st) in
  let out :=
    judge_with_tiny_model json_loads get_provider_by_id p collab today ev st in
  judge_max_retries p = Z.max 0 (cfg_judge_max_retries c) /\
  is_Some (fst out) /\
  (length (provider_log start) + 1 <= length (provider_log (snd out)))%nat /\
  ((forall i, malformed_at json_loads prov (recent_contexts collab) i) ->
   length (provider_log (snd out)) =
     (length (provider_log start)
      + Z.to_nat (Z.max 0 (cfg_judge_max_retries c) + 1))%nat /\
   fst out = Some (JudgeResult_failure
                     (Txt.reason_retries_exhausted
                        (Z.max 0 (cfg_judge_max_retries c))))).
Proof.
  intros Hinit Hname Hprov start out.
  destruct (init_retries c p Hinit) as [Hmax Htotal].
  subst out.
  rewrite (judge_with_tiny_model_resolved json_loads get_provider_by_id p
             collab today ev st prov Hname Hprov).
  fold start.
  assert (Hn : exists n, Z.to_nat (total_attempts p) = S n /\
                         (0 + Z.of_nat (S n) = total_attempts p)%Z).
  { exists (Z.to_nat (Z.max 0 (cfg_judge_max_retries c))).
    rewrite Htotal. split; lia. }
  destruct Hn as (n & Hn & Hsum). rewrite Hn.
  split; [exact Hmax|]. split; [|split].
  - now apply judge_loop_returns.
  - apply judge_loop_at_least_one.
  - intros Hbad.
    destruct (judge_loop_all_malformed json_loads p prov
                (recent_contexts collab) n 0%Z
                (fst (judge_prepare json_loads get_provider_by_id p collab
                        today ev st)) start Hbad Hsum) as [Hr Hl].
    rewrite Hr, Hl, Hmax. split; [|reflexivity].
    rewrite <- Htotal, <- Hn. reflexivity.
Qed.

Lemma always_not_json_malformed i :
  malformed_at JsonFlat.json_loads_flat (Demo.always "not json") [] i.
Proof.
  intros prompt. exists "not json". split.
  - unfold Demo.always, Demo.scripted. now destruct i.
  - vm_compute. reflexivity.
Qed.

Lemma C10_max_retries_clamped_witness :
  let p := Demo.plugin (-2) (2 # 10) in
  let prov := Demo.always "not json" in
  let start :=
    snd (judge_prepare JsonFlat.json_loads_flat (Demo.resolve prov) p
           Demo.no_conversation Demo.today
           (Demo.message Demo.chat "u1" "hello") initial_state) in
  let out :=
    judge_with_tiny_model JsonFlat.json_loads_flat (Demo.resolve prov) p
      Demo.no_conversation Demo.today (Demo.message Demo.chat "u1" "hello")
      initial_state in
  init (Demo.config (-2) (2 # 10)) = Ok p /\
  judge_max_retries p = 0%Z /\
  is_Some (fst out) /\
  length (provider_log (snd out)) = (length (provider_log start) + 1)%nat /\
  fst out = Some (JudgeResult_failure (Txt.reason_retries_exhausted 0)).
Proof.
  cbv zeta.
  destruct (C10_max_retries_clamped JsonFlat.json_loads_flat
              (Demo.resolve (Demo.always "not json"))
              (Demo.config (-2) (2 # 10)) (Demo.plugin (-2) (2 # 10))
              Demo.no_conversation Demo.today
              (Demo.message Demo.chat "u1" "hello") initial_state
              (Demo.always "not json"))
    as (H1 & H2 & H3 & H4).
  - reflexivity.
  - vm_compute. discriminate.
  - reflexivity.
  - destruct (H4 always_not_json_malformed) as [H5 H6].
    split; [reflexivity|]. split; [exact H1|]. split; [exact H2|].
    split; [exact H5 | exact H6].
Defined.

(** [replace] leaves a text alone when the searched text does not occur in
    it: once the original reminder is gone from the prompt, the retry
    branch no longer changes the prompt. *)
Lemma replace_from_absent old new s :
  Str.contains s old = false -> Str.replace_from old new 0 s = s.
Proof.
  induction s as [|c s IH]; [reflexivity|].
  cbn [Str.contains Str.replace_from]. intros H.
  apply Bool.orb_false_iff in H as [Hp Hc].
  rewrite Hp. now rewrite (IH Hc).
Qed.

Lemma replace_absent s old new :
  old <> "" -> Str.contains s old = false -> Str.replace s old new = s.
Proof.
  intros Hne H. unfold Str.replace.
  destruct old as [|c old]; [contradiction|].
  now apply replace_from_absent.
Qed.

(** C4, at the failing input: with max-retries 2 and a provider whose every
    answer is malformed, the call makes three attempts and reports
    exhausted retries; the second prompt carries the reminder numbered 2,
    but the third prompt is the second one unchanged: the [replace] of the
    retry branch looks for the original reminder, which the first
    replacement removed, so the third attempt is still announced as the
    second and no reminder numbered 3 is ever sent. *)
Theorem C4_retry_reminder_not_renumbered :
  let p := Demo.plugin 2 (2 # 10) in
  let out :=
    judge_with_tiny_model JsonFlat.json_loads_flat
      (Demo.resolve (Demo.always "not json")) p Demo.no_conversation
      Demo.today (Demo.message Demo.chat "u1" "hello") initial_state in
  total_attempts p = 3%Z /\
  fst out = Some (JudgeResult_failure (Txt.reason_retries_exhausted 2)) /\
  exists p1 p2 p3,
    provider_log (snd out) = [p1; p2; p3] /\
    Str.contains p1 Txt.json_reminder = true /\
    p2 = Str.replace p1 Txt.json_reminder (Txt.retry_reminder 2) /\
    Str.contains p2 (Txt.retry_reminder 2) = true /\
    Str.contains p2 Txt.json_reminder = false /\
    p3 = p2 /\
    Str.contains p3 (Txt.retry_reminder 3) = false.
Proof.
  cbv zeta. split; [reflexivity|]. split; [vm_compute; reflexivity|].
  eexists. eexists. eexists.
  split; [vm_compute; reflexivity|].
  repeat split; vm_compute; reflexivity.
Qed.

(** ** Failures that are not retried *)

Lemma get_chat_state_idem today chat_id (cs : gmap string ChatState) :
  _get_chat_state today chat_id (snd (_get_chat_state today chat_id cs)) =
  _get_chat_state today chat_id cs.
Proof.
  unfold _get_chat_state. cbn [snd]. rewrite lookup_insert_eq.
  set (state := match cs !! chat_id with Some s => s | None => _ end).
  destruct (decide (last_reset_date state = today)) as [E|E].
  - rewrite decide_True by assumption. now rewrite insert_insert_eq.
  - cbn [last_reset_date]. rewrite decide_True by reflexivity.
    now rewrite insert_insert_eq.
Qed.

Section PrepareFacts.

Variable json_loads : string -> option json.
Variable get_provider_by_id : string -> result (option Provider).
Variable p : Plugin.

Lemma summarize_frame original st :
  let st' := snd (_summarize_system_prompt json_loads get_provider_by_id p
                    original st) in
  same_chat_side st' st /\ system_prompt_cache st' = system_prompt_cache st.
Proof.
  unfold _summarize_system_prompt, same_chat_side, text_chat.
  destruct (decide (judge_provider_name p = "")); [now cbn|].
  destruct (get_provider_by_id (judge_provider_name p)) as [[prov|]|];
    [|now cbn|now cbn].
  destruct (prov _ _ _) as [text|e]; [|now cbn].
  destruct (json_loads _) as [d|]; [|now cbn].
  destruct (dict_get d "summarized_persona" (JStr "")) as [[| | | s | |]|];
    try now cbn.
  now destruct (negb (String.eqb s "") && _).
Qed.

Lemma get_or_create_frame c original st :
  same_chat_side
    (snd (_get_or_create_summarized_system_prompt json_loads
            get_provider_by_id p c original st)) st.
Proof.
  unfold _get_or_create_summarized_system_prompt.
  assert (R : same_chat_side st st) by (unfold same_chat_side; auto).
  destruct (curr_cid c) as [[[|a cid]|]|]; try exact R.
  destruct (conversation_persona c) as [conv|]; try exact R.
  destruct (match system_prompt_cache st !! _ with Some _ => _ | None => _ end);
    try exact R.
  destruct (String.eqb original "" || _); try exact R.
  pose proof (summarize_frame original st) as H.
  destruct (_summarize_system_prompt json_loads get_provider_by_id p
              original st) as [s st'].
  cbn in *. exact (proj1 H).
Qed.

(** Before the loop, the chat states see one [_get_chat_state] and nothing
    else; wait states, tasks and the queue are untouched. *)
Lemma judge_prepare_frame c today ev st :
  let st' := snd (judge_prepare json_loads get_provider_by_id p c today ev st) in
  chat_states st' =
    snd (_get_chat_state today (unified_msg_origin ev) (chat_states st)) /\
  user_wait_states st' = user_wait_states st /\
  tasks st' = tasks st /\ event_queue st' = event_queue st.
Proof.
  unfold judge_prepare.
  destruct (_get_chat_state today (unified_msg_origin ev) (chat_states st))
    as [s1 cs1] eqn:E1.
  pose proof (get_or_create_frame c (original_persona_prompt c)
                (set_chat_states st cs1)) as (F1 & F2 & F3 & F4).
  destruct (_get_or_create_summarized_system_prompt json_loads
              get_provider_by_id p c (original_persona_prompt c)
              (set_chat_states st cs1)) as [persona st2].
  cbn [snd] in F1, F2, F3, F4. cbn in F1, F2, F3, F4.
  pose proof (get_chat_state_idem today (unified_msg_origin ev)
                (chat_states st)) as I1.
  rewrite E1 in I1. cbn [snd] in I1.
  rewrite F1, I1.
  pose proof (get_chat_state_idem today (unified_msg_origin ev) cs1) as I2.
  rewrite I1 in I2. cbn [snd] in I2. rewrite I2.
  cbn. auto.
Qed.

End PrepareFacts.




(** ** Persona summarization *)

Lemma py_len_empty_strip : Str.py_len (Str.strip "") = 0%nat.
Proof. reflexivity. Qed.

(** [_summarize_system_prompt] makes one call and returns the accepted
    summary, or the original text when there is none. *)
Lemma summarize_result json_loads get_provider_by_id (p : Plugin)
    original st prov text :
  judge_provider_name p <> "" ->
  get_provider_by_id (judge_provider_name p) = Ok (Some prov) ->
  prov (length (provider_log st)) (Txt.summarize_prompt original) []
    = Completion text ->
  _summarize_system_prompt json_loads get_provider_by_id p original st =
    (default original (summary_of json_loads text),
     logged st (Txt.summarize_prompt original)).
Proof.
  intros Hname Hprov Hcall. unfold _summarize_system_prompt, summary_of.
  rewrite decide_False by assumption. rewrite Hprov.
  unfold text_chat. rewrite Hcall. fold (logged st (Txt.summarize_prompt original)).
  destruct (json_loads (strip_fences (Str.strip text))) as [d|]; [|reflexivity].
  destruct d as [| | | | |m]; try reflexivity.
  unfold dict_get.
  destruct (m !! "summarized_persona") as [[| | | s | |]|]; try reflexivity.
  destruct (10 <? Str.py_len (Str.strip s))%nat eqn:E.
  - destruct (String.eqb s "") eqn:Es; [|reflexivity].
    apply String.eqb_eq in Es. subst s.
    rewrite py_len_empty_strip in E. discriminate.
  - now rewrite Bool.andb_false_r.
Qed.

(** C9 (amended): on a cache miss for a persona text of at least 50
    characters, the summarization makes exactly one provider call; when the
    answer does not parse, or its summary has at most 10 characters,
    [_summarize_system_prompt] returns the original text, and
    [_get_or_create_summarized_system_prompt] returns it too; a cache entry
    [{original, summarized}] is written whether or not the summarization
    succeeded (on failure its [summarized] is the original text); the
    judgment request is then built from the returned text. *)
Theorem C9_summarization_fallback
    (json_loads : string -> option json)
    (get_provider_by_id : string -> result (option Provider))
    (p : Plugin) (c : Collab) (st : State) (prov : Provider)
    (cid text : string) (conversation : option (option string)) :
  let original := original_persona_prompt c in
  let key := cache_key cid (persona_id_of conversation) in
  let summarized := default original (summary_of json_loads text) in
  let st' := logged st (Txt.summarize_prompt original) in
  judge_provider_name p <> "" ->
  get_provider_by_id (judge_provider_name p) = Ok (Some prov) ->
  curr_cid c = Ok (Some cid) -> cid <> "" ->
  conversation_persona c = Ok conversation ->
  match system_prompt_cache st !! key with
  | Some cached => ce_original cached <> original
  | None => True
  end ->
  (50 <= Str.py_len (Str.strip original))%nat ->
  prov (length (provider_log st)) (Txt.summarize_prompt original) []
    = Completion text ->
  _summarize_system_prompt json_loads get_provider_by_id p original st
    = (summarized, st') /\
  _get_or_create_summarized_system_prompt json_loads get_provider_by_id p c
    original st
    = (summarized,
       set_system_prompt_cache st'
         (<[key := mkCacheEntry original summarized
                     (persona_id_of conversation)]>
            (system_prompt_cache st))) /\
  (json_loads (strip_fences (Str.strip text)) = None ->
   summarized = original) /\
  (forall m s, json_loads (strip_fences (Str.strip text)) = Some (JObj m) ->
     m !! "summarized_persona" = Some (JStr s) ->
     (Str.py_len (Str.strip s) <= 10)%nat ->
     summarized = original) /\
  (forall today ev,
     fst (judge_prepare json_loads get_provider_by_id p c today ev st) =
     complete_judge_prompt summarized
       (render_judge_prompt c summarized
          (fst (_get_chat_state today (unified_msg_origin ev)
                  (chat_states st))))).
Proof.
  intros original key summarized st' Hname Hprov Hcid Hne Hconv Hmiss Hlen
         Hcall.
  pose proof (summarize_result json_loads get_provider_by_id p original st
                prov text Hname Hprov Hcall) as Hsum.
  fold summarized in Hsum. fold st' in Hsum.
  assert (Hnonempty : String.eqb original "" = false).
  { destruct (String.eqb original "") eqn:E; [|reflexivity].
    apply String.eqb_eq in E. rewrite E in Hlen.
    rewrite py_len_empty_strip in Hlen. lia. }
  assert (Hgoc : forall st0,
    system_prompt_cache st0 = system_prompt_cache st ->
    provider_log st0 = provider_log st ->
    _get_or_create_summarized_system_prompt json_loads get_provider_by_id p c
      original st0
    = (summarized,
       set_system_prompt_cache (logged st0 (Txt.summarize_prompt original))
         (<[key := mkCacheEntry original summarized
                     (persona_id_of conversation)]>
            (system_prompt_cache st)))).
  { intros st0 Hc0 Hl0.
    unfold _get_or_create_summarized_system_prompt.
    rewrite Hcid. destruct cid as [|a cid']; [contradiction|].
    rewrite Hconv. fold (persona_id_of conversation). fold key.
    rewrite Hc0.
    assert (Hhit : match system_prompt_cache st !! key with
                   | Some cached =>
                       if String.eqb (ce_original cached) original
                       then Some (ce_summarized cached) else None
                   | None => None
                   end = None).
    { destruct (system_prompt_cache st !! key) as [cached|]; [|reflexivity].
      destruct (String.eqb (ce_original cached) original) eqn:E; [|reflexivity].
      apply String.eqb_eq in E. contradiction. }
    rewrite Hhit, Hnonempty.
    assert (Hlt : (Str.py_len (Str.strip original) <? 50)%nat = false)
      by (apply Nat.ltb_ge; exact Hlen).
    rewrite Hlt. cbn [orb].
    assert (Hcall0 : prov (length (provider_log st0))
                       (Txt.summarize_prompt original) [] = Completion text)
      by (now rewrite Hl0).
    rewrite (summarize_result json_loads get_provider_by_id p original st0
               prov text Hname Hprov Hcall0).
    fold summarized. cbn. now rewrite Hc0. }
  split; [exact Hsum|]. split; [now apply Hgoc|].
  split; [|split].
  - intros Hnone. subst summarized. unfold summary_of. now rewrite Hnone.
  - intros m s Hm Hs Hshort. subst summarized. unfold summary_of.
    rewrite Hm, Hs.
    assert (E : (10 <? Str.py_len (Str.strip s))%nat = false)
      by (apply Nat.ltb_ge; exact Hshort).
    now rewrite E.
  - intros today ev. unfold judge_prepare.
    destruct (_get_chat_state today (unified_msg_origin ev) (chat_states st))
      as [s1 cs1] eqn:E1.
    fold original.
    rewrite (Hgoc (set_chat_states st cs1) eq_refl eq_refl).
    cbn [chat_states set_system_prompt_cache logged set_provider_log
         set_chat_states].
    pose proof (get_chat_state_idem today (unified_msg_origin ev)
                  (chat_states st)) as I1.
    rewrite E1 in I1. cbn [snd] in I1. rewrite I1.
    pose proof (get_chat_state_idem today (unified_msg_origin ev) cs1) as I2.
    rewrite I1 in I2. cbn [snd] in I2. rewrite I2.
    reflexivity.
Qed.

Lemma C9_summarization_fallback_witness :
  let original := Demo.long_persona in
  _summarize_system_prompt JsonFlat.json_loads_flat
    (Demo.resolve (Demo.always "not json")) (Demo.plugin 3 (2 # 10))
    original initial_state
  = (default original (summary_of JsonFlat.json_loads_flat "not json"),
     logged initial_state (Txt.summarize_prompt original)).
Proof.
  cbv zeta.
  apply (C9_summarization_fallback JsonFlat.json_loads_flat
           (Demo.resolve (Demo.always "not json")) (Demo.plugin 3 (2 # 10))
           Demo.persona_conversation initial_state (Demo.always "not json")
           "conv1" "not json" (Some (Some "p1"))).
  - vm_compute. discriminate.
  - reflexivity.
  - reflexivity.
  - discriminate.
  - reflexivity.
  - vm_compute. exact I.
  - vm_compute. lia.
  - reflexivity.
Defined.

(** C9 as stated fails on the cache clause: the provider's answer to the
    summarization request does not parse, the original persona text is
    returned after one call, and yet the cache now holds an entry for the
    key, with the original text as its summary; the same request made again
    is answered from that entry, without calling the provider. *)
Lemma C9_failed_summary_is_cached :
  let run :=
    _get_or_create_summarized_system_prompt JsonFlat.json_loads_flat
      (Demo.resolve (Demo.always "not json")) (Demo.plugin 3 (2 # 10))
      Demo.persona_conversation Demo.long_persona in
  let out := run initial_state in
  JsonFlat.json_loads_flat (strip_fences (Str.strip "not json")) = None /\
  system_prompt_cache initial_state !! "conv1_p1" = None /\
  fst out = Demo.long_persona /\
  length (provider_log (snd out)) = 1%nat /\
  system_prompt_cache (snd out) !! "conv1_p1" =
    Some (mkCacheEntry Demo.long_persona Demo.long_persona (Some "p1")) /\
  run (snd out) = (Demo.long_persona, snd out).
Proof.
  cbv zeta. repeat split; vm_compute; reflexivity.
Qed.

(** ** The debounce coordinator *)

(** *** Tasks *)

Lemma length_cancel_task ts tid : length (cancel_task ts tid) = length ts.
Proof.
  unfold cancel_task. destruct (ts !! tid); [apply length_insert | reflexivity].
Qed.

Lemma length_finish_task ts tid : length (finish_task ts tid) = length ts.
Proof.
  unfold finish_task. destruct (ts !! tid); [apply length_insert | reflexivity].
Qed.

(** A task that is live after [cancel()] on [tid] is another task, and was
    live before. *)
Lemma lookup_cancel_task_live ts tid tid' t' :
  cancel_task ts tid !! tid' = Some t' -> live t' ->
  tid' <> tid /\ ts !! tid' = Some t'.
Proof.
  unfold cancel_task. intros H [Hd Hc].
  destruct (ts !! tid) as [t|] eqn:E.
  - destruct (decide (tid = tid')) as [->|Hne].
    + rewrite list_lookup_insert_eq in H by (eapply lookup_lt_Some; eauto).
      injection H as <-. cbn in Hc. discriminate.
    + rewrite list_lookup_insert_ne in H by assumption. auto.
  - split; [|assumption]. intros ->. congruence.
Qed.

(** A task that is live after [tid] has finished is another task, and was
    live before. *)
Lemma lookup_finish_task_live ts tid tid' t' :
  finish_task ts tid !! tid' = Some t' -> live t' ->
  (ts !! tid = None \/ tid' <> tid) /\ ts !! tid' = Some t'.
Proof.
  unfold finish_task. intros H [Hd Hc].
  destruct (ts !! tid) as [t|] eqn:E.
  - destruct (decide (tid = tid')) as [->|Hne].
    + rewrite list_lookup_insert_eq in H by (eapply lookup_lt_Some; eauto).
      injection H as <-. cbn in Hd. discriminate.
    + rewrite list_lookup_insert_ne in H by assumption. auto.
  - auto.
Qed.

Lemma is_done_live ts tid t :
  ts !! tid = Some t -> live t -> is_done ts tid = false.
Proof. intros H [Hd _]. unfold is_done. now rewrite H. Qed.

(** *** What the carrier of a merge is *)

Lemma combine_key acc u :
  _combine_user_messages acc = Some u ->
  exists first rest, acc = first :: rest /\
    unified_msg_origin u = unified_msg_origin (event first) /\
    sender_id u = sender_id (event first) /\
    message_str u = Str.join Str.nl (map content acc).
Proof.
  unfold _combine_user_messages. destruct acc as [|first rest]; [discriminate|].
  intros [= <-]. exists first, rest. cbn. auto.
Qed.

Lemma store_carrier_keys acc carrier k :
  (forall m, m ∈ acc -> event_key (event m) = k) ->
  (forall first rest, acc = first :: rest -> event_key carrier = k) ->
  forall m, m ∈ store_carrier acc carrier -> event_key (event m) = k.
Proof.
  intros Hacc Hc m Hm. destruct acc as [|first rest]; cbn in Hm.
  - now apply elem_of_nil in Hm.
  - apply elem_of_cons in Hm as [->|Hm].
    + cbn. eapply Hc. reflexivity.
    + apply Hacc. now apply elem_of_cons; right.
Qed.

(** *** The two flows, case by case *)

Section WakeCases.

Variable p : Plugin.

(** The [try] block either changes nothing, or merges the accumulated
    messages of the key's entry. *)
Lemma body_cases now today k put_ok st :
  let st1 := wait_and_reply_body p now today k put_ok st in
  st1 = st \/
  exists ws combined,
    user_wait_states st !! k = Some ws /\
    Qlt_bool (now - waiting_since ws) (silent_wait_duration p - (1 # 10))
      = false /\
    _combine_user_messages (accumulated_messages ws) = Some combined /\
    tasks st1 = tasks st /\
    let unit := mkEvent (unified_msg_origin combined) (sender_id combined)
                  (sender_name combined) (message_str combined) true in
    (put_ok = true /\
     event_queue st1 = (event_queue st ++ [unit])%list /\
     user_wait_states st1 =
       <[k := mkUserWaitState (user_id ws) (start_time ws) []
                (timer_task ws) (waiting_since ws)]> (user_wait_states st))
    \/
    (put_ok = false /\
     event_queue st1 = event_queue st /\
     user_wait_states st1 =
       <[k := mkUserWaitState (user_id ws) (start_time ws)
                (store_carrier (accumulated_messages ws) unit)
                (timer_task ws) (waiting_since ws)]> (user_wait_states st)).
Proof.
  unfold wait_and_reply_body.
  destruct (user_wait_states st !! k) as [ws|] eqn:Hws; [|now left].
  destruct (Qlt_bool _ _) eqn:Hq; [now left|].
  destruct (_combine_user_messages (accumulated_messages ws))
    as [combined|] eqn:Hc; [|now left].
  right. exists ws, combined.
  split; [reflexivity|]. split; [exact Hq|]. split; [exact Hc|].
  destruct put_ok; cbn.
  - split; [reflexivity|]. left. auto.
  - split; [reflexivity|]. right. auto.
Qed.

Lemma finally_cases k st :
  let st2 := wait_and_reply_finally k st in
  tasks st2 = tasks st /\ event_queue st2 = event_queue st /\
  (user_wait_states st2 = user_wait_states st \/
   exists ws tid,
     user_wait_states st !! k = Some ws /\ timer_task ws = Some tid /\
     is_done (tasks st) tid = true /\
     user_wait_states st2 = delete k (user_wait_states st)).
Proof.
  unfold wait_and_reply_finally.
  destruct (user_wait_states st !! k) as [ws|] eqn:Hws; [|now auto].
  destruct (timer_task ws) as [tid|] eqn:Ht; [|now auto].
  destruct (is_done (tasks st) tid) eqn:Hd; [|now auto].
  cbn. split; [reflexivity|]. split; [reflexivity|].
  right. exists ws, tid. auto.
Qed.

(** [inv_keys] holds whatever the event loop does. *)
Lemma enter_silent_wait_keys now ev st :
  inv_keys st -> inv_keys (_enter_silent_wait now ev st).
Proof.
  intros Hinv k ws m Hk Hm. unfold _enter_silent_wait in Hk.
  destruct (user_wait_states st !! event_key ev) as [ws0|] eqn:E;
    cbn in Hk.
  - destruct (decide (event_key ev = k)) as [<-|Hne].
    + rewrite lookup_insert_eq in Hk. injection Hk as <-. cbn in Hm.
      apply elem_of_app in Hm as [Hm|Hm].
      * eapply Hinv; eauto.
      * apply list_elem_of_singleton in Hm. now subst m.
    + rewrite lookup_insert_ne in Hk by assumption. eapply Hinv; eauto.
  - destruct (decide (event_key ev = k)) as [<-|Hne].
    + rewrite lookup_insert_eq in Hk. injection Hk as <-. cbn in Hm.
      apply list_elem_of_singleton in Hm. now subst m.
    + rewrite lookup_insert_ne in Hk by assumption. eapply Hinv; eauto.
Qed.

Lemma body_keys now today k put_ok st :
  inv_keys st -> inv_keys (wait_and_reply_body p now today k put_ok st).
Proof.
  intros Hinv.
  destruct (body_cases now today k put_ok st)
    as [->|(ws & combined & Hws & _ & Hc & _ & Hcase)]; [assumption|].
  intros k' ws' m Hk Hm.
  destruct (combine_key _ _ Hc) as (first & rest & Hacc & Ho & Hs & _).
  destruct Hcase as [(_ & _ & Hu)|(_ & _ & Hu)]; rewrite Hu in Hk;
    (destruct (decide (k = k')) as [<-|Hne];
     [rewrite lookup_insert_eq in Hk; injection Hk as <-; cbn in Hm
     |rewrite lookup_insert_ne in Hk by assumption; eapply Hinv; eauto]).
  - now apply elem_of_nil in Hm.
  - revert m Hm. apply store_carrier_keys.
    + intros m Hm. eapply Hinv; eauto.
    + intros f r Hfr. unfold event_key. cbn. rewrite Ho, Hs.
      apply (Hinv k ws first Hws). rewrite Hacc. apply list_elem_of_here.
Qed.

Lemma finally_keys k st :
  inv_keys st -> inv_keys (wait_and_reply_finally k st).
Proof.
  intros Hinv k' ws m Hk Hm.
  destruct (finally_cases k st) as (_ & _ & [Hu|(ws0 & tid & _ & _ & _ & Hu)]);
    rewrite Hu in Hk.
  - eapply Hinv; eauto.
  - apply lookup_delete_Some in Hk as [_ Hk]. eapply Hinv; eauto.
Qed.

Lemma step_keys st a : inv_keys st -> inv_keys (step p st a).
Proof.
  intros Hinv. destruct a as [now ev|now today tid put_ok]; cbn.
  - now apply enter_silent_wait_keys.
  - unfold _wait_and_reply.
    destruct (tasks st !! tid) as [t|]; [|assumption].
    destruct (task_done t); [assumption|].
    assert (H : inv_keys
      (wait_and_reply_finally (task_key t)
         (if task_cancel_requested t then st
          else wait_and_reply_body p now today (task_key t) put_ok st))).
    { apply finally_keys.
      destruct (task_cancel_requested t); [assumption|now apply body_keys]. }
    exact H.
Qed.

Lemma run_keys l : forall st, inv_keys st -> inv_keys (run p st l).
Proof.
  induction l as [|a l IH]; intros st Hinv; cbn; [assumption|].
  apply IH. now apply step_keys.
Qed.

End WakeCases.

Lemma initial_keys : inv_keys initial_state.
Proof. intros k ws m H. cbn in H. rewrite lookup_empty in H. discriminate. Qed.

(** *** Traces *)

Lemma armed_snoc key tr o :
  armed key (tr ++ [o]) = armed_step key (armed key tr) o.
Proof. unfold armed. now rewrite fold_left_app. Qed.

Lemma armed_snoc_other key tr o :
  obs_key o <> key -> armed key (tr ++ [o]) = armed key tr.
Proof.
  intros Hne. rewrite armed_snoc. unfold armed_step.
  destruct (String.eqb (obs_key o) key) eqn:E; [|reflexivity].
  apply String.eqb_eq in E. contradiction.
Qed.

Lemma armed_snoc_admit now ev tr :
  armed (event_key ev) (tr ++ [ObsAdmit now ev]) = true.
Proof. rewrite armed_snoc. unfold armed_step. cbn. now rewrite String.eqb_refl. Qed.

Lemma armed_snoc_emit now u tr :
  armed (event_key u) (tr ++ [ObsEmit now u]) = false.
Proof. rewrite armed_snoc. unfold armed_step. cbn. now rewrite String.eqb_refl. Qed.

(** A burst that is open after an emission was opened by a later
    admission. *)
Lemma armed_after_emit key now u mid : forall tr1,
  event_key u = key ->
  armed key (tr1 ++ ObsEmit now u :: mid) = true ->
  exists t0 ev, ObsAdmit t0 ev ∈ mid /\ event_key ev = key.
Proof.
  induction mid as [|o mid IH] using rev_ind; intros tr1 Hk Harm.
  - subst key. rewrite armed_snoc_emit in Harm. discriminate.
  - replace (tr1 ++ ObsEmit now u :: mid ++ [o])%list
      with ((tr1 ++ ObsEmit now u :: mid) ++ [o])%list in Harm
      by (now rewrite <- app_assoc).
    rewrite armed_snoc in Harm. unfold armed_step in Harm.
    destruct (String.eqb (obs_key o) key) eqn:E.
    + destruct o as [t0 ev|t0 u']; [|discriminate].
      apply String.eqb_eq in E. exists t0, ev. split; [|exact E].
      apply elem_of_app. right. apply list_elem_of_here.
    + destruct (IH tr1 Hk Harm) as (t0 & ev & Hin & Hev).
      exists t0, ev. split; [|exact Hev]. apply elem_of_app. now left.
Qed.

(** *** One step of a schedule *)

Section StepFacts.

Variable p : Plugin.

(** What resuming a task that is not done does to the tasks, the timers of
    the entries and the queue. *)
Lemma wake_shape now today tid put_ok st t :
  tasks st !! tid = Some t -> task_done t = false ->
  let st' := _wait_and_reply p now today tid put_ok st in
  tasks st' = finish_task (tasks st) tid /\
  (forall k ws0, user_wait_states st !! k = Some ws0 ->
     (exists ws', user_wait_states st' !! k = Some ws' /\
                  timer_task ws' = timer_task ws0) \/
     (k = task_key t /\ exists tid0, timer_task ws0 = Some tid0 /\
                                     is_done (tasks st) tid0 = true)) /\
  (event_queue st' = event_queue st \/
   task_cancel_requested t = false /\
   exists ws combined,
     user_wait_states st !! task_key t = Some ws /\
     _combine_user_messages (accumulated_messages ws) = Some combined /\
     event_queue st' =
       (event_queue st ++
        [mkEvent (unified_msg_origin combined) (sender_id combined)
           (sender_name combined) (message_str combined) true])%list).
Proof.
  intros Ht Hnd. unfold _wait_and_reply. rewrite Ht, Hnd.
  set (st1 := if task_cancel_requested t then st
              else wait_and_reply_body p now today (task_key t) put_ok st).
  assert (H1 : tasks st1 = tasks st /\
    (forall k ws0, user_wait_states st !! k = Some ws0 ->
       exists ws1, user_wait_states st1 !! k = Some ws1 /\
                   timer_task ws1 = timer_task ws0) /\
    (event_queue st1 = event_queue st \/
     task_cancel_requested t = false /\
     exists ws combined,
       user_wait_states st !! task_key t = Some ws /\
       _combine_user_messages (accumulated_messages ws) = Some combined /\
       event_queue st1 =
         (event_queue st ++
          [mkEvent (unified_msg_origin combined) (sender_id combined)
             (sender_name combined) (message_str combined) true])%list)).
  { subst st1. destruct (task_cancel_requested t) eqn:Hc.
    { split; [reflexivity|]. split; [eauto|now left]. }
    destruct (body_cases p now today (task_key t) put_ok st)
      as [->|(ws & combined & Hws & _ & Hcomb & Hts & Hcase)].
    { split; [reflexivity|]. split; [eauto|now left]. }
    split; [exact Hts|].
    destruct Hcase as [(_ & Hq & Hu)|(_ & Hq & Hu)]; rewrite Hu, Hq.
    - split.
      + intros k ws0 Hk. destruct (decide (task_key t = k)) as [<-|Hne].
        * rewrite lookup_insert_eq. eexists. split; [reflexivity|].
          cbn. congruence.
        * rewrite lookup_insert_ne by assumption. eauto.
      + right. split; [reflexivity|]. exists ws, combined. auto.
    - split.
      + intros k ws0 Hk. destruct (decide (task_key t = k)) as [<-|Hne].
        * rewrite lookup_insert_eq. eexists. split; [reflexivity|].
          cbn. congruence.
        * rewrite lookup_insert_ne by assumption. eauto.
      + now left. }
  clearbody st1. destruct H1 as (Hts1 & Htim1 & Hq1).
  destruct (finally_cases (task_key t) st1) as (Hts2 & Hq2 & Hu2).
  cbn [tasks set_tasks user_wait_states event_queue].
  rewrite Hts2, Hts1, Hq2. split; [reflexivity|]. split; [|exact Hq1].
  intros k ws0 Hk. destruct (Htim1 k ws0 Hk) as (ws1 & Hk1 & Ht1).
  destruct Hu2 as [->|(ws2 & tid0 & Hk2 & Ht2 & Hd2 & ->)].
  - left. eauto.
  - destruct (decide (task_key t = k)) as [<-|Hne].
    + right. split; [reflexivity|]. exists tid0.
      rewrite Hk1 in Hk2. injection Hk2 as <-.
      rewrite <- Ht1, Ht2, <- Hts1. auto.
    + left. exists ws1. rewrite lookup_delete_ne by assumption. auto.
Qed.

End StepFacts.

Section AdmitFacts.

(** What admitting a message does: the key's entry gets a new timer, the
    last task created; a task that is still live afterwards is either that
    one, or was live before and was not the key's timer. *)
Lemma admit_shape now ev st :
  let st' := _enter_silent_wait now ev st in
  let k := event_key ev in
  (exists ws', user_wait_states st' = <[k := ws']> (user_wait_states st) /\
               timer_task ws' = Some (length (tasks st))) /\
  tasks st' !! length (tasks st) = Some (mkTask k now false false) /\
  (forall tid t, tasks st' !! tid = Some t -> live t ->
     tid <> length (tasks st) ->
     tasks st !! tid = Some t /\
     forall ws, user_wait_states st !! k = Some ws ->
                timer_task ws <> Some tid) /\
  event_queue st' = event_queue st.
Proof.
  unfold _enter_silent_wait.
  destruct (user_wait_states st !! event_key ev) as [ws|] eqn:Hws.
  - set (ts1 := match timer_task ws with
                | Some tid =>
                    if negb (is_done (tasks st) tid)
                    then cancel_task (tasks st) tid else tasks st
                | None => tasks st
                end).
    assert (Hlen : length ts1 = length (tasks st)).
    { subst ts1. destruct (timer_task ws) as [tid0|]; [|reflexivity].
      destruct (negb (is_done (tasks st) tid0)); [|reflexivity].
      apply length_cancel_task. }
    cbn. rewrite Hlen. split; [eexists; split; reflexivity|].
    split.
    { rewrite lookup_app_r by lia. now rewrite Hlen, Nat.sub_diag. }
    split; [|reflexivity].
    intros tid t Ht Hlive Hne.
    assert (Hlt : (tid < length ts1)%nat).
    { apply lookup_lt_Some in Ht. rewrite length_app in Ht. cbn in Ht. lia. }
    rewrite lookup_app_l in Ht by assumption.
    subst ts1. destruct (timer_task ws) as [tid0|] eqn:Htimer.
    + destruct (is_done (tasks st) tid0) eqn:Hdone; cbn [negb] in Ht.
      * split; [assumption|]. intros ws' [= <-] Heq.
        rewrite Htimer in Heq. injection Heq as ->.
        rewrite (is_done_live _ _ _ Ht Hlive) in Hdone. discriminate.
      * destruct (lookup_cancel_task_live _ _ _ _ Ht Hlive) as [Hneq Hold].
        split; [assumption|]. intros ws' [= <-] Heq.
        rewrite Htimer in Heq. now injection Heq as ->.
    + split; [assumption|]. intros ws' [= <-]. now rewrite Htimer.
  - cbn. split; [eexists; split; reflexivity|].
    split.
    { rewrite lookup_app_r by lia. now rewrite Nat.sub_diag. }
    split; [|reflexivity].
    intros tid t Ht Hlive Hne.
    assert (Hlt : (tid < length (tasks st))%nat).
    { apply lookup_lt_Some in Ht. rewrite length_app in Ht. cbn in Ht. lia. }
    rewrite lookup_app_l in Ht by assumption.
    split; [assumption|]. intros ws. discriminate.
Qed.

End AdmitFacts.

Section Invariant.

Variable p : Plugin.

Lemma unit_key st k ws combined :
  inv_keys st ->
  user_wait_states st !! k = Some ws ->
  _combine_user_messages (accumulated_messages ws) = Some combined ->
  event_key (mkEvent (unified_msg_origin combined) (sender_id combined)
               (sender_name combined) (message_str combined) true) = k.
Proof.
  intros Hkeys Hws Hc.
  destruct (combine_key _ _ Hc) as (first & rest & Hacc & Ho & Hs & _).
  unfold event_key. cbn. rewrite Ho, Hs.
  apply (Hkeys k ws first Hws). rewrite Hacc. apply list_elem_of_here.
Qed.

(** One enabled step keeps the invariants, and if it emits a unit, it emits
    one, for a key whose burst is open, the quiet duration after every
    admission of that key. *)
Lemma step_inv clock tr st a :
  inv_keys st -> inv_timer st -> inv_hist clock tr st ->
  (clock <= action_time a)%Q -> enabled p st a ->
  inv_timer (step p st a) /\
  inv_hist (action_time a) (tr ++ observe p st a) (step p st a) /\
  (forall now u, ObsEmit now u ∈ observe p st a ->
     armed (event_key u) tr = true /\
     forall t0 ev, ObsAdmit t0 ev ∈ tr -> event_key ev = event_key u ->
                   (t0 + silent_wait_duration p <= now)%Q).
Proof.
  intros Hkeys Htimer [Hlive Hclock] Hle Hen.
  destruct a as [now ev|now today tid put_ok]; cbn [action_time step] in *.
  - (* a message is admitted *)
    destruct (admit_shape now ev st)
      as ((ws' & Hu & Hws') & Hnew & Hold & _).
    cbn [observe].
    assert (Hother : forall tid t,
      tasks (_enter_silent_wait now ev st) !! tid = Some t -> live t ->
      tid <> length (tasks st) ->
      tasks st !! tid = Some t /\ task_key t <> event_key ev).
    { intros tid t Ht Hl Hne. destruct (Hold tid t Ht Hl Hne) as [Ht0 Hnot].
      split; [assumption|]. intros E.
      destruct (Htimer tid t Ht0 Hl) as (ws0 & Hk0 & Ht0').
      rewrite E in Hk0. exact (Hnot ws0 Hk0 Ht0'). }
    split; [|split].
    + intros tid t Ht Hl.
      destruct (decide (tid = length (tasks st))) as [->|Hne].
      * rewrite Hnew in Ht. injection Ht as <-. cbn [task_key].
        exists ws'. rewrite Hu, lookup_insert_eq. auto.
      * destruct (Hother tid t Ht Hl Hne) as [Ht0 Hk].
        destruct (Htimer tid t Ht0 Hl) as (ws0 & Hk0 & Ht0').
        exists ws0. rewrite Hu, lookup_insert_ne by congruence. auto.
    + split.
      * intros tid t Ht Hl.
        destruct (decide (tid = length (tasks st))) as [->|Hne].
        -- rewrite Hnew in Ht. injection Ht as <-. cbn [task_key task_created].
           split; [apply armed_snoc_admit|].
           intros t0 ev' Hin _. apply elem_of_app in Hin as [Hin|Hin].
           ++ specialize (Hclock _ Hin). cbn in Hclock. lra.
           ++ apply list_elem_of_singleton in Hin. injection Hin as -> _. lra.
        -- destruct (Hother tid t Ht Hl Hne) as [Ht0 Hk].
           destruct (Hlive tid t Ht0 Hl) as [Harm Hadm].
           split.
           ++ rewrite armed_snoc_other; [assumption|]. cbn. congruence.
           ++ intros t0 ev' Hin Hev. apply elem_of_app in Hin as [Hin|Hin].
              ** eauto.
              ** apply list_elem_of_singleton in Hin. injection Hin as -> ->.
                 congruence.
      * intros o Hin. apply elem_of_app in Hin as [Hin|Hin].
        -- specialize (Hclock _ Hin). lra.
        -- apply list_elem_of_singleton in Hin. subst o. cbn. lra.
    + intros now' u Hin. apply list_elem_of_singleton in Hin. discriminate.
  - (* a task is resumed *)
    cbn [enabled] in Hen. unfold can_wake in Hen.
    destruct (tasks st !! tid) as [t|] eqn:Ht; [|contradiction].
    destruct Hen as [Hnd Hwhen].
    destruct (wake_shape p now today tid put_ok st t Ht Hnd)
      as (Hts & Htim & Hq).
    assert (Hbefore : forall tid' t',
      tasks (_wait_and_reply p now today tid put_ok st) !! tid' = Some t' ->
      live t' -> tid' <> tid /\ tasks st !! tid' = Some t').
    { intros tid' t' Ht' Hl'. rewrite Hts in Ht'.
      destruct (lookup_finish_task_live _ _ _ _ Ht' Hl') as [[Hn|Hn] Hold];
        [congruence|auto]. }
    split.
    { intros tid' t' Ht' Hl'. destruct (Hbefore tid' t' Ht' Hl') as [Hne Hold].
      destruct (Htimer tid' t' Hold Hl') as (ws0 & Hk0 & Ht0).
      destruct (Htim _ _ Hk0) as [(ws1 & Hk1 & Ht1)|(_ & tid0 & Ht00 & Hd)].
      - exists ws1. split; [assumption|congruence].
      - rewrite Ht0 in Ht00. injection Ht00 as <-.
        rewrite (is_done_live _ _ _ Hold Hl') in Hd. discriminate. }
    cbn [observe]. unfold emitted. cbn [step].
    destruct Hq as [Hq|(Hc & ws & combined & Hws & Hcomb & Hq)]; rewrite Hq.
    + rewrite drop_all. cbn [map]. rewrite app_nil_r. split.
      * split.
        -- intros tid' t' Ht' Hl'.
           destruct (Hbefore tid' t' Ht' Hl') as [_ Hold]. eauto.
        -- intros o Hin. specialize (Hclock _ Hin). lra.
      * intros now' u Hin. now apply elem_of_nil in Hin.
    + rewrite drop_app_length. cbn [map].
      set (unit := mkEvent (unified_msg_origin combined) (sender_id combined)
                     (sender_name combined) (message_str combined) true).
      assert (Hukey : event_key unit = task_key t)
        by (eapply unit_key; eauto).
      assert (Hl : live t) by (split; assumption).
      destruct (Hlive tid t Ht Hl) as [Harm Hadm].
      split.
      * split.
        -- intros tid' t' Ht' Hl'.
           destruct (Hbefore tid' t' Ht' Hl') as [Hne Hold].
           assert (Hk : task_key t' <> task_key t).
           { intros E. destruct (Htimer tid' t' Hold Hl') as (w1 & Hw1 & Ht1).
             destruct (Htimer tid t Ht Hl) as (w2 & Hw2 & Ht2).
             rewrite E, Hw2 in Hw1. injection Hw1 as <-. congruence. }
           destruct (Hlive tid' t' Hold Hl') as [Harm' Hadm'].
           split.
           ++ rewrite armed_snoc_other; [assumption|]. cbn. congruence.
           ++ intros t0 ev' Hin Hev. apply elem_of_app in Hin as [Hin|Hin].
              ** eauto.
              ** apply list_elem_of_singleton in Hin. discriminate.
        -- intros o Hin. apply elem_of_app in Hin as [Hin|Hin].
           ++ specialize (Hclock _ Hin). lra.
           ++ apply list_elem_of_singleton in Hin. subst o. cbn. lra.
      * intros now' u Hin. apply list_elem_of_singleton in Hin.
        injection Hin as -> ->. rewrite Hukey. split; [assumption|].
        intros t0 ev' Hin Hev. specialize (Hadm t0 ev' Hin Hev).
        destruct Hwhen as [Hcc|Hwhen]; [congruence|]. lra.
Qed.

End Invariant.

Section Schedules.

Variable p : Plugin.

(** A step hands at most one unit to the queue. *)
Lemma observe_cases st a :
  observe p st a = [] \/ exists o, observe p st a = [o].
Proof.
  destruct a as [now ev|now today tid put_ok]; cbn [observe].
  - right. eauto.
  - unfold emitted. cbn [step].
    destruct (tasks st !! tid) as [t|] eqn:Ht.
    + destruct (task_done t) eqn:Hd.
      * unfold _wait_and_reply. rewrite Ht, Hd, drop_all. now left.
      * destruct (wake_shape p now today tid put_ok st t Ht Hd)
          as (_ & _ & [Hq|(_ & ws & combined & _ & _ & Hq)]); rewrite Hq.
        -- rewrite drop_all. now left.
        -- rewrite drop_app_length. right. cbn. eauto.
    + unfold _wait_and_reply. rewrite Ht, drop_all. now left.
Qed.

Lemma emissions_ok_snoc tr o :
  emissions_ok p tr ->
  (forall now u, o = ObsEmit now u ->
     armed (event_key u) tr = true /\
     forall t0 ev, ObsAdmit t0 ev ∈ tr -> event_key ev = event_key u ->
                   (t0 + silent_wait_duration p <= now)%Q) ->
  emissions_ok p (tr ++ [o]).
Proof.
  intros Hok Ho tr1 now u tr2 Heq.
  destruct tr2 as [|o' tr2 _] using rev_ind.
  - apply app_inj_tail in Heq as [-> ->]. now apply Ho.
  - replace (tr1 ++ ObsEmit now u :: tr2 ++ [o'])%list
      with ((tr1 ++ ObsEmit now u :: tr2) ++ [o'])%list in Heq
      by (now rewrite <- app_assoc).
    apply app_inj_tail in Heq as [-> _]. eapply Hok. reflexivity.
Qed.

(** Along a schedule the invariants hold and every emission is in order. *)
Lemma schedule_emissions l : forall clock tr st,
  inv_keys st -> inv_timer st -> inv_hist clock tr st ->
  emissions_ok p tr ->
  schedule_ok p clock st l ->
  emissions_ok p (tr ++ trace p st l).
Proof.
  induction l as [|a l IH]; intros clock tr st Hk Ht Hh Hok Hs; cbn [trace].
  - now rewrite app_nil_r.
  - destruct Hs as (Hle & Hen & Hs).
    destruct (step_inv p clock tr st a Hk Ht Hh Hle Hen) as (Ht' & Hh' & He).
    rewrite app_assoc.
    apply (IH (action_time a)); try assumption.
    + now apply step_keys.
    + destruct (observe_cases st a) as [E|[o E]]; rewrite E in *.
      * now rewrite app_nil_r.
      * apply emissions_ok_snoc; [assumption|].
        intros now u ->. apply He. apply list_elem_of_here.
Qed.

End Schedules.

Lemma armed_true_admit key tr :
  armed key tr = true ->
  exists t0 ev, ObsAdmit t0 ev ∈ tr /\ event_key ev = key.
Proof.
  induction tr as [|o tr IH] using rev_ind; [discriminate|].
  rewrite armed_snoc. unfold armed_step.
  destruct (String.eqb (obs_key o) key) eqn:E.
  - destruct o as [t0 ev|t0 u]; [|discriminate]. intros _.
    apply String.eqb_eq in E. exists t0, ev. split; [|exact E].
    apply elem_of_app. right. apply list_elem_of_here.
  - intros H. destruct (IH H) as (t0 & ev & Hin & Hev).
    exists t0, ev. split; [|exact Hev]. apply elem_of_app. now left.
Qed.

Lemma initial_timer : inv_timer initial_state.
Proof. intros tid t H. cbn in H. discriminate. Qed.

Lemma initial_hist clock : inv_hist clock [] initial_state.
Proof.
  split.
  - intros tid t H. cbn in H. discriminate.
  - intros o H. now apply elem_of_nil in H.
Qed.

Lemma emissions_ok_nil p : emissions_ok p [].
Proof. intros tr1 now u tr2 H. now destruct tr1. Qed.

Lemma init_duration (c : Config) (p : Plugin) :
  init c = Ok p -> silent_wait_duration p = 6%Q.
Proof.
  unfold init. destruct (normalize_weights (raw_weights c)); [|discriminate].
  now intros [= <-].
Qed.

(** *** The coalescing scenario, step by step *)

Section Scenario.

Variable p : Plugin.
Variables m1 m2 : Event.
Hypothesis same_key : event_key m1 = event_key m2.
Hypothesis quiet_six : silent_wait_duration p = 6%Q.

Let key := event_key m1.
Let task (created : Q) (cancelled done : bool) : Task :=
  mkTask key created cancelled done.

Lemma admit_first :
  _enter_silent_wait 0 m1 initial_state =
  mkState ∅ {[ key := entry_of m1 [info_of 0 m1] 0 0 ]} ∅
          [task 0 false false] [] [].
Proof.
  unfold _enter_silent_wait. cbn. rewrite lookup_empty. reflexivity.
Qed.

Lemma admit_second :
  _enter_silent_wait 3 m2
    (mkState ∅ {[ key := entry_of m1 [info_of 0 m1] 0 0 ]} ∅
             [task 0 false false] [] []) =
  mkState ∅ {[ key := entry_of m1 [info_of 0 m1; info_of 3 m2] 1 3 ]} ∅
          [task 0 true false; task 3 false false] [] [].
Proof.
  unfold _enter_silent_wait. cbn [user_wait_states]. rewrite <- same_key.
  fold key. rewrite lookup_singleton_eq. cbn.
  rewrite insert_singleton_eq. reflexivity.
Qed.

Lemma wake_first now today put_ok :
  _wait_and_reply p now today 0 put_ok
    (mkState ∅ {[ key := entry_of m1 [info_of 0 m1; info_of 3 m2] 1 3 ]} ∅
             [task 0 true false; task 3 false false] [] []) =
  mkState ∅ {[ key := entry_of m1 [info_of 0 m1; info_of 3 m2] 1 3 ]} ∅
          [task 0 true true; task 3 false false] [] [].
Proof.
  unfold _wait_and_reply. cbn. unfold wait_and_reply_finally. cbn.
  rewrite lookup_singleton_eq. cbn. reflexivity.
Qed.

Lemma quiet_elapsed : Qlt_bool (9 - 3) (6 - (1 # 10)) = false.
Proof. reflexivity. Qed.

Lemma wake_second today :
  _wait_and_reply p 9 today 1 true
    (mkState ∅ {[ key := entry_of m1 [info_of 0 m1; info_of 3 m2] 1 3 ]} ∅
             [task 0 true true; task 3 false false] [] []) =
  mkState (_update_active_state p today 9 (unified_msg_origin m1) ∅)
          {[ key := entry_of m1 [] 1 3 ]} ∅
          [task 0 true true; task 3 false true] [merged_unit m1 m2] [].
Proof.
  unfold _wait_and_reply. cbn -[_update_active_state].
  unfold wait_and_reply_body. cbn [user_wait_states].
  rewrite lookup_singleton_eq. rewrite quiet_six.
  cbn -[_update_active_state Qlt_bool]. rewrite quiet_elapsed.
  unfold wait_and_reply_finally. cbn -[_update_active_state].
  rewrite insert_singleton_eq.
  rewrite lookup_singleton_eq. cbn -[_update_active_state]. reflexivity.
Qed.

(** M1 at 0, M2 at 3 from the same key, the first timer resumed with its
    cancellation at 3 and the second timer resumed at 9. *)
Lemma scenario today1 today2 :
  let l := [Admit 0 m1; Admit 3 m2; Wake 3 today1 0 true;
            Wake 9 today2 1 true] in
  let armed2 := run p initial_state [Admit 0 m1; Admit 3 m2] in
  schedule_ok p 0 initial_state l /\
  trace p initial_state l =
    [ObsAdmit 0 m1; ObsAdmit 3 m2; ObsEmit 9 (merged_unit m1 m2)] /\
  event_queue (run p initial_state l) = [merged_unit m1 m2] /\
  (forall now today put_ok,
     emitted p armed2 (Wake now today 0 put_ok) = []) /\
  (forall now, can_wake p armed2 now 1 -> (9 <= now)%Q).
Proof.
  cbv zeta. unfold run. cbn [fold_left step].
  split; [|split; [|split; [|split]]].
  - cbn [schedule_ok action_time step enabled].
    rewrite admit_first, admit_second, wake_first.
    unfold can_wake. cbn. rewrite quiet_six.
    repeat split; try discriminate; auto.
    right. discriminate.
  - cbn [trace observe step]. unfold emitted. cbn [step].
    rewrite admit_first, admit_second, wake_first, wake_second.
    reflexivity.
  - rewrite admit_first, admit_second, wake_first, wake_second. reflexivity.
  - intros now today put_ok. unfold emitted. cbn [step].
    rewrite admit_first, admit_second, wake_first. reflexivity.
  - intros now. rewrite admit_first, admit_second.
    unfold can_wake. cbn. rewrite quiet_six.
    intros [_ [H|H]]; [discriminate|]. lra.
Qed.

End Scenario.

(** C3: for a constructed plugin (quiet duration 6).  The scenario: M1
    admitted at 0 and M2 at 3 under the same key, the first timer resumed
    (cancelled) and the second resumed at 9; exactly one composite unit
    reaches the queue, it joins both messages on the first one's carrier,
    the timer armed for M1 emits nothing whenever it is resumed, and the
    second timer cannot be resumed before 9.  In general, along every
    schedule of the event loop, a unit is emitted only for a key with an
    admitted message, no sooner than the quiet duration after every earlier
    admission for that key, and between two units for the same key a
    message of that key was admitted: at most one unit per burst. *)
Theorem C3_debounce_coalescing (c : Config) (p : Plugin) :
  init c = Ok p ->
  (forall (m1 m2 : Event) (today1 today2 : string),
     event_key m1 = event_key m2 ->
     let l := [Admit 0 m1; Admit 3 m2; Wake 3 today1 0 true;
               Wake 9 today2 1 true] in
     let armed2 := run p initial_state [Admit 0 m1; Admit 3 m2] in
     schedule_ok p 0 initial_state l /\
     trace p initial_state l =
       [ObsAdmit 0 m1; ObsAdmit 3 m2; ObsEmit 9 (merged_unit m1 m2)] /\
     event_queue (run p initial_state l) = [merged_unit m1 m2] /\
     (forall now today put_ok,
        emitted p armed2 (Wake now today 0 put_ok) = []) /\
     (forall now, can_wake p armed2 now 1 -> 9 <= now)) /\
  (forall (l : list action) (clock : Q),
     schedule_ok p clock initial_state l ->
     forall tr1 now u tr2,
       trace p initial_state l = (tr1 ++ ObsEmit now u :: tr2)%list ->
       (exists t0 ev, ObsAdmit t0 ev ∈ tr1 /\ event_key ev = event_key u) /\
       (forall t0 ev, ObsAdmit t0 ev ∈ tr1 -> event_key ev = event_key u ->
                      t0 + 6 <= now) /\
       (forall tr0 now' u' mid,
          tr1 = (tr0 ++ ObsEmit now' u' :: mid)%list ->
          event_key u' = event_key u ->
          exists t0 ev, ObsAdmit t0 ev ∈ mid /\ event_key ev = event_key u)).
Proof.
  intros Hinit. pose proof (init_duration c p Hinit) as Hd. split.
  - intros m1 m2 today1 today2 Hk. now apply scenario.
  - intros l clock Hs tr1 now u tr2 Htr.
    pose proof (schedule_emissions p l clock [] initial_state initial_keys
                  initial_timer (initial_hist clock) (emissions_ok_nil p) Hs)
      as Hok.
    cbn [app] in Hok. destruct (Hok tr1 now u tr2 Htr) as [Harm Hadm].
    split; [now apply armed_true_admit|]. split.
    + intros t0 ev Hin Hev. rewrite <- Hd. eauto.
    + intros tr0 now' u' mid -> Hk'. eapply armed_after_emit; eauto.
Qed.

Lemma C3_debounce_coalescing_witness :
  let p := Demo.plugin 3 (2 # 10) in
  let m1 := Demo.message Demo.chat "u1" "hello" in
  let m2 := Demo.message Demo.chat "u1" "world" in
  let l := [Admit 0 m1; Admit 3 m2; Wake 3 Demo.today 0 true;
            Wake 9 Demo.today 1 true] in
  init (Demo.config 3 (2 # 10)) = Ok p /\
  schedule_ok p 0 initial_state l /\
  trace p initial_state l =
    [ObsAdmit 0 m1; ObsAdmit 3 m2; ObsEmit 9 (merged_unit m1 m2)] /\
  event_queue (run p initial_state l) = [merged_unit m1 m2].
Proof.
  cbv zeta.
  destruct (C3_debounce_coalescing (Demo.config 3 (2 # 10))
              (Demo.plugin 3 (2 # 10)) eq_refl) as [H _].
  destruct (H (Demo.message Demo.chat "u1" "hello")
              (Demo.message Demo.chat "u1" "world") Demo.today Demo.today
              eq_refl) as (H1 & H2 & H3 & _).
  split; [reflexivity|]. split; [exact H1|]. split; [exact H2 | exact H3].
Defined.

(** Resuming a live task never removes its key's entry: the entry's timer
    is the task itself, which is not done while its [finally] block runs. *)
Lemma live_wake_keeps_entry p now today tid put_ok st t :
  inv_timer st ->
  tasks st !! tid = Some t -> live t ->
  is_Some (user_wait_states (_wait_and_reply p now today tid put_ok st)
             !! task_key t).
Proof.
  intros Htimer Ht Hl.
  destruct (wake_shape p now today tid put_ok st t Ht (proj1 Hl))
    as (_ & Htim & _).
  destruct (Htimer tid t Ht Hl) as (ws0 & Hk0 & Ht0).
  destruct (Htim _ _ Hk0) as [(ws1 & Hk1 & _)|(_ & tid0 & Ht00 & Hd)].
  - eauto.
  - rewrite Ht0 in Ht00. injection Ht00 as <-.
    rewrite (is_done_live _ _ _ Ht Hl) in Hd. discriminate.
Qed.

(** C6, at the failing input: one admitted message, and its timer resumed
    at 6 without having been re-armed.  The unit is handed to the queue and
    the task finishes, but the key's entry is still in the wait-state map,
    with an empty accumulated-messages list: in its own [finally] block the
    task is not yet done, so the test [timer_task.done()] fails and the
    [del] is skipped. *)
Theorem C6_entry_survives_handoff :
  let p := Demo.plugin 3 (2 # 10) in
  let m1 := Demo.message Demo.chat "u1" "hello" in
  let st1 := step p initial_state (Admit 0 m1) in
  let st2 := step p st1 (Wake 6 Demo.today 0 true) in
  schedule_ok p 0 initial_state [Admit 0 m1; Wake 6 Demo.today 0 true] /\
  user_wait_states st1 !! event_key m1 =
    Some (mkUserWaitState "u1" 0 [info_of 0 m1] (Some 0%nat) 0) /\
  tasks st1 = [mkTask (event_key m1) 0 false false] /\
  event_queue st2 =
    [mkEvent Demo.chat "u1" "u1" "hello" true] /\
  tasks st2 = [mkTask (event_key m1) 0 false true] /\
  user_wait_states st2 !! event_key m1 =
    Some (mkUserWaitState "u1" 0 [] (Some 0%nat) 0).
Proof.
  cbv zeta. split.
  - cbn [schedule_ok action_time enabled]. unfold can_wake.
    vm_compute. repeat split; try discriminate; auto.
    right. discriminate.
  - repeat split; vm_compute; reflexivity.
Qed.

(** *** Isolation *)

Lemma append_inj_r (s a b : string) : (s ++ a = s ++ b)%string -> a = b.
Proof.
  induction s as [|c s IH]; cbn; [auto|]. intros [= H]. auto.
Qed.

Lemma user_key_same_chat chat u1 u2 :
  user_key chat u1 = user_key chat u2 -> u1 = u2.
Proof.
  unfold user_key. intros H. apply append_inj_r in H.
  now apply append_inj_r in H.
Qed.

(** A unit handed to the queue is the merge of the accumulated messages of
    one entry. *)
Lemma emitted_from_entry p st a u :
  inv_keys st -> u ∈ emitted p st a ->
  exists k ws,
    user_wait_states st !! k = Some ws /\
    message_str u = Str.join Str.nl (map content (accumulated_messages ws)) /\
    event_key u = k.
Proof.
  intros Hkeys Hin. unfold emitted in Hin.
  destruct a as [now ev|now today tid put_ok]; cbn [step] in Hin.
  - destruct (admit_shape now ev st) as (_ & _ & _ & Hq).
    rewrite Hq, drop_all in Hin. now apply elem_of_nil in Hin.
  - destruct (tasks st !! tid) as [t|] eqn:Ht.
    + destruct (task_done t) eqn:Hd.
      * unfold _wait_and_reply in Hin. rewrite Ht, Hd, drop_all in Hin.
        now apply elem_of_nil in Hin.
      * destruct (wake_shape p now today tid put_ok st t Ht Hd)
          as (_ & _ & [Hq|(_ & ws & combined & Hws & Hc & Hq)]);
          rewrite Hq in Hin.
        -- rewrite drop_all in Hin. now apply elem_of_nil in Hin.
        -- rewrite drop_app_length in Hin.
           apply list_elem_of_singleton in Hin. subst u.
           exists (task_key t), ws. split; [assumption|]. split.
           ++ destruct (combine_key _ _ Hc) as (f & r & _ & _ & _ & Hm).
              exact Hm.
           ++ eapply unit_key; eauto.
    + unfold _wait_and_reply in Hin. rewrite Ht, drop_all in Hin.
      now apply elem_of_nil in Hin.
Qed.

(** C7 (amended): whatever the event loop does, the messages accumulated
    under a wait-state entry all come from a (chat, sender) pair whose key
    [chat_id + "_" + sender_id] is the entry's key, and every unit handed
    to the queue merges the accumulated messages of one entry; messages of
    pairs with different keys are therefore never accumulated together nor
    merged, and two senders of the same chat always have different keys. *)
Theorem C7_debounce_isolation (p : Plugin) (l : list action) :
  let st := run p initial_state l in
  (forall k ws m,
     user_wait_states st !! k = Some ws ->
     m ∈ accumulated_messages ws ->
     user_key (unified_msg_origin (event m)) (sender_id (event m)) = k) /\
  (forall a u, u ∈ emitted p st a ->
     exists k ws,
       user_wait_states st !! k = Some ws /\
       message_str u
         = Str.join Str.nl (map content (accumulated_messages ws)) /\
       event_key u = k /\
       forall m, m ∈ accumulated_messages ws -> event_key (event m) = k) /\
  (forall chat u1 u2, u1 <> u2 -> user_key chat u1 <> user_key chat u2).
Proof.
  cbv zeta.
  pose proof (run_keys p l initial_state initial_keys) as Hkeys.
  split; [|split].
  - intros k ws m Hk Hm. exact (Hkeys k ws m Hk Hm).
  - intros a u Hin.
    destruct (emitted_from_entry p _ a u Hkeys Hin) as (k & ws & Hws & Hm & Hu).
    exists k, ws. repeat split; try assumption.
    intros m Hmem. exact (Hkeys k ws m Hws Hmem).
  - intros chat u1 u2 Hne H. apply Hne. eapply user_key_same_chat; eauto.
Qed.

(** C7 as stated fails: the pairs (chat [..:100_7], sender [9]) and (chat
    [..:100], sender [7_9]) differ in chat and in sender, but both have the
    key [..:100_7_9]; their messages are accumulated under one entry and
    merged into one unit. *)
Lemma C7_colliding_keys_merge :
  let p := Demo.plugin 3 (2 # 10) in
  let l := [Admit 0 Demo.message_a; Admit 3 Demo.message_b;
            Wake 3 Demo.today 0 true; Wake 9 Demo.today 1 true] in
  unified_msg_origin Demo.message_a <> unified_msg_origin Demo.message_b /\
  sender_id Demo.message_a <> sender_id Demo.message_b /\
  event_key Demo.message_a = event_key Demo.message_b /\
  (exists ws,
     user_wait_states
       (run p initial_state [Admit 0 Demo.message_a; Admit 3 Demo.message_b])
       !! event_key Demo.message_a = Some ws /\
     map event (accumulated_messages ws) = [Demo.message_a; Demo.message_b]) /\
  schedule_ok p 0 initial_state l /\
  event_queue (run p initial_state l) =
    [merged_unit Demo.message_a Demo.message_b].
Proof.
  cbv zeta. split; [discriminate|]. split; [discriminate|].
  split; [reflexivity|]. split; [|split].
  - eexists. split; vm_compute; reflexivity.
  - pose proof (scenario (Demo.plugin 3 (2 # 10)) Demo.message_a
                  Demo.message_b eq_refl eq_refl Demo.today Demo.today) as H.
    cbv zeta in H. exact (proj1 H).
  - pose proof (scenario (Demo.plugin 3 (2 # 10)) Demo.message_a
                  Demo.message_b eq_refl eq_refl Demo.today Demo.today) as H.
    cbv zeta in H. exact (proj1 (proj2 (proj2 H))).
Qed.

(** * Further properties of the code *)

(** ** The admission gate and the message handler *)

Lemma gate_rejects_marked (g : Gate) (ev : Event) :
  is_at_or_wake_command ev = true -> _should_process_message g ev = false.
Proof.
  intros H. unfold _should_process_message. rewrite H.
  now destruct (enable_heartflow g).
Qed.

Lemma emitted_marked p st a u :
  u ∈ emitted p st a -> is_at_or_wake_command u = true.
Proof.
  intros Hin. unfold emitted in Hin.
  destruct a as [now ev|now today tid put_ok]; cbn [step] in Hin.
  - destruct (admit_shape now ev st) as (_ & _ & _ & Hq).
    rewrite Hq, drop_all in Hin. now apply elem_of_nil in Hin.
  - destruct (tasks st !! tid) as [t|] eqn:Ht.
    + destruct (task_done t) eqn:Hd.
      * unfold _wait_and_reply in Hin. rewrite Ht, Hd, drop_all in Hin.
        now apply elem_of_nil in Hin.
      * destruct (wake_shape p now today tid put_ok st t Ht Hd)
          as (_ & _ & [Hq|(_ & ws & combined & Hws & Hc & Hq)]);
          rewrite Hq in Hin.
        -- rewrite drop_all in Hin. now apply elem_of_nil in Hin.
        -- rewrite drop_app_length in Hin.
           apply list_elem_of_singleton in Hin. now subst u.
    + unfold _wait_and_reply in Hin. rewrite Ht, drop_all in Hin.
      now apply elem_of_nil in Hin.
Qed.

(** X1: a composite unit that the coordinator hands to the event queue
    carries the wake flag; when it comes back to [on_group_message], the
    gate rejects it and the handler changes nothing: the plugin never judges
    or queues its own units again. *)
Theorem X1_own_units_not_reprocessed
    (json_loads : string -> option json)
    (get_provider_by_id : string -> result (option Provider))
    (g : Gate) (p : Plugin) (c : Collab) (today : string) (now : Q)
    (st : State) (a : action) (u : Event) (st' : State) :
  u ∈ emitted p st a ->
  is_at_or_wake_command u = true /\
  _should_process_message g u = false /\
  on_group_message json_loads get_provider_by_id g p c today now u st' = st'.
Proof.
  intros Hin. pose proof (emitted_marked p st a u Hin) as Hflag.
  pose proof (gate_rejects_marked g u Hflag) as Hgate.
  split; [assumption|]. split; [assumption|].
  unfold on_group_message. now rewrite Hgate.
Qed.

Lemma X1_own_units_not_reprocessed_witness :
  let p := Demo.plugin 3 (2 # 10) in
  let m1 := Demo.message Demo.chat "u1" "hello" in
  let u := mkEvent Demo.chat "u1" "u1" "hello" true in
  let g := mkGate true false [] "bot" in
  u ∈ emitted p (step p initial_state (Admit 0 m1)) (Wake 6 Demo.today 0 true)
  /\ _should_process_message g u = false.
Proof.
  cbv zeta.
  assert (H : mkEvent Demo.chat "u1" "u1" "hello" true
              ∈ emitted (Demo.plugin 3 (2 # 10))
                  (step (Demo.plugin 3 (2 # 10)) initial_state
                     (Admit 0 (Demo.message Demo.chat "u1" "hello")))
                  (Wake 6 Demo.today 0 true)).
  { vm_compute. apply list_elem_of_here. }
  split; [exact H|].
  apply (X1_own_units_not_reprocessed JsonFlat.json_loads_flat
           (Demo.resolve (Demo.always "not json")) (mkGate true false [] "bot")
           (Demo.plugin 3 (2 # 10)) Demo.no_conversation Demo.today 0
           _ _ _ initial_state H).
Defined.

Lemma str_in_nil x : str_in x [] = false.
Proof. reflexivity. Qed.

(** X2: a message stops at the gate, and [on_group_message] leaves the
    whole state as it is (no judge call, no counter, no timer), when the
    plugin is not enabled, or the event is already marked as a wake
    command, or the whitelist is on and does not list the chat (an empty
    whitelist lists none), or the sender is the bot itself, or the message
    is empty or blank. *)
Theorem X2_gate_stops_message
    (json_loads : string -> option json)
    (get_provider_by_id : string -> result (option Provider))
    (g : Gate) (p : Plugin) (c : Collab) (today : string) (now : Q)
    (ev : Event) (st : State) :
  enable_heartflow g = false \/
  is_at_or_wake_command ev = true \/
  (whitelist_enabled g = true /\
   str_in (unified_msg_origin ev) (chat_whitelist g) = false) \/
  sender_id ev = self_id g \/
  Str.strip (message_str ev) = "" ->
  _should_process_message g ev = false /\
  on_group_message json_loads get_provider_by_id g p c today now ev st = st.
Proof.
  intros H.
  assert (Hgate : _should_process_message g ev = false).
  { unfold _should_process_message.
    destruct (enable_heartflow g) eqn:He; cbn [negb]; [|reflexivity].
    destruct (is_at_or_wake_command ev) eqn:Hw; [reflexivity|].
    destruct (whitelist_enabled g) eqn:Hwl; cbn [andb].
    - destruct (chat_whitelist g) as [|x l] eqn:Hl; [reflexivity|].
      destruct (str_in (unified_msg_origin ev) (x :: l)) eqn:Hin;
        cbn [negb]; [|reflexivity].
      destruct H as [H|[H|[[_ H]|[H|H]]]]; try discriminate.
      + rewrite H, String.eqb_refl. reflexivity.
      + rewrite H. cbn. rewrite Bool.orb_true_r.
        now destruct (String.eqb (sender_id ev) (self_id g)).
    - destruct H as [H|[H|[[H _]|[H|H]]]]; try discriminate.
      + rewrite H, String.eqb_refl. reflexivity.
      + rewrite H. cbn. rewrite Bool.orb_true_r.
        now destruct (String.eqb (sender_id ev) (self_id g)). }
  split; [assumption|]. unfold on_group_message. now rewrite Hgate.
Qed.

Lemma X2_gate_stops_message_witness :
  let g := mkGate true true [] "bot" in
  let ev := Demo.message Demo.chat "u1" "hello" in
  _should_process_message g ev = false /\
  on_group_message JsonFlat.json_loads_flat
    (Demo.resolve (Demo.always Demo.all_tens)) g (Demo.plugin 3 (2 # 10))
    Demo.no_conversation Demo.today 0 ev initial_state = initial_state.
Proof.
  cbv zeta.
  apply (X2_gate_stops_message JsonFlat.json_loads_flat
           (Demo.resolve (Demo.always Demo.all_tens))
           (mkGate true true [] "bot") (Demo.plugin 3 (2 # 10))
           Demo.no_conversation Demo.today 0
           (Demo.message Demo.chat "u1" "hello") initial_state).
  right. right. left. split; reflexivity.
Defined.

(** ** The chat state: dates, minutes, counters *)

Lemma get_chat_state_date today k (cs : gmap string ChatState) :
  last_reset_date (fst (_get_chat_state today k cs)) = today.
Proof.
  unfold _get_chat_state. cbn [fst].
  now destruct (decide (last_reset_date _ = today)).
Qed.

Lemma get_chat_state_lookup today k (cs : gmap string ChatState) :
  snd (_get_chat_state today k cs) !! k = Some (fst (_get_chat_state today k cs)).
Proof. unfold _get_chat_state. cbn [fst snd]. apply lookup_insert_eq. Qed.

Lemma get_chat_state_other today k k' (cs : gmap string ChatState) :
  k <> k' -> snd (_get_chat_state today k cs) !! k' = cs !! k'.
Proof.
  intros Hne. unfold _get_chat_state. cbn [snd].
  now apply lookup_insert_ne.
Qed.

(** A state that already saw today's reset is returned as it is. *)
Lemma get_chat_state_same_day today k (cs : gmap string ChatState) s :
  cs !! k = Some s -> last_reset_date s = today ->
  _get_chat_state today k cs = (s, cs).
Proof.
  intros Hs Hd. unfold _get_chat_state. rewrite Hs.
  rewrite decide_True by assumption. now rewrite insert_id.
Qed.

Lemma py_int_floor (x : Q) :
  0 <= x ->
  (0 <= py_int x)%Z /\ inject_Z (py_int x) <= x /\ x < inject_Z (py_int x) + 1.
Proof.
  intros Hx. destruct x as [n d]. unfold py_int. cbn [Qnum Qden].
  assert (Hn : (0 <= n)%Z).
  { unfold Qle in Hx. cbn in Hx. lia. }
  rewrite Z.quot_div_nonneg by lia.
  pose proof (Z.div_pos n (Zpos d) Hn ltac:(lia)) as Hq.
  pose proof (Z.mul_div_le n (Zpos d) ltac:(lia)) as Hlo.
  pose proof (Z.mul_succ_div_gt n (Zpos d) ltac:(lia)) as Hhi.
  split; [assumption|]. unfold Qle, Qlt, inject_Z, Qplus. cbn. split; nia.
Qed.

(** X3: after an active reply recorded at time [t] (not the epoch itself),
    [_get_minutes_since_last_reply] asked at [now >= t] on the same date
    returns the whole minutes elapsed since [t], changes no state, and
    passive updates in between do not change its answer; for a chat with no
    state yet it returns 999. *)
Theorem X3_minutes_since_reply (p : Plugin) (today : string) (t now : Q)
    (chat_id : string) (cs : gmap string ChatState) :
  ~ t == 0 -> t <= now ->
  let cs1 := _update_active_state p today t chat_id cs in
  let m := fst (_get_minutes_since_last_reply today now chat_id cs1) in
  snd (_get_minutes_since_last_reply today now chat_id cs1) = cs1 /\
  (0 <= m)%Z /\
  inject_Z m * 60 <= now - t /\ now - t < (inject_Z m + 1) * 60 /\
  fst (_get_minutes_since_last_reply today now chat_id
         (_update_passive_state p today chat_id cs1)) = m /\
  (forall other, cs !! other = None ->
     fst (_get_minutes_since_last_reply today now other cs) = 999%Z).
Proof.
  intros Ht Hle cs1 m.
  assert (Hcs1 : exists s1, cs1 !! chat_id = Some s1 /\
                            last_reset_date s1 = today /\
                            last_reply_time s1 = t).
  { subst cs1. unfold _update_active_state.
    pose proof (get_chat_state_date today chat_id cs) as Hd.
    destruct (_get_chat_state today chat_id cs) as [st cs'].
    eexists. rewrite lookup_insert_eq. split; [reflexivity|]. cbn. auto. }
  destruct Hcs1 as (s1 & Hs1 & Hd1 & Ht1).
  assert (Hnz : Qeq_bool t 0 = false).
  { destruct (Qeq_bool t 0) eqn:E; [|reflexivity].
    apply Qeq_bool_iff in E. contradiction. }
  assert (Hm : m = py_int ((now - t) / 60)).
  { subst m. unfold _get_minutes_since_last_reply.
    rewrite (get_chat_state_same_day today chat_id cs1 s1 Hs1 Hd1).
    cbn [fst]. now rewrite Ht1, Hnz. }
  assert (Hx : 0 <= (now - t) / 60).
  { apply Qle_shift_div_l; [reflexivity|]. lra. }
  destruct (py_int_floor _ Hx) as (H0 & Hlo & Hhi).
  split; [|split; [|split; [|split; [|split]]]].
  - unfold _get_minutes_since_last_reply.
    now rewrite (get_chat_state_same_day today chat_id cs1 s1 Hs1 Hd1).
  - now rewrite Hm.
  - rewrite Hm.
    assert (E : now - t == ((now - t) / 60) * 60) by (field).
    rewrite E at 2. apply Qmult_le_compat_r; [exact Hlo|discriminate].
  - rewrite Hm.
    assert (E : now - t == ((now - t) / 60) * 60) by (field).
    rewrite E at 1. apply Qmult_lt_compat_r; [reflexivity|exact Hhi].
  - rewrite Hm. unfold _update_passive_state.
    rewrite (get_chat_state_same_day today chat_id cs1 s1 Hs1 Hd1).
    unfold _get_minutes_since_last_reply.
    erewrite get_chat_state_same_day;
      [|apply lookup_insert_eq|cbn; exact Hd1].
    cbn [fst last_reply_time]. now rewrite Ht1, Hnz.
  - intros other Hnone. unfold _get_minutes_since_last_reply, _get_chat_state.
    rewrite Hnone. cbn.
    now destruct (decide ("" = today)).
Qed.

Lemma X3_minutes_since_reply_witness :
  let cs1 :=
    _update_active_state (Demo.plugin 3 (2 # 10)) Demo.today 1000 Demo.chat ∅ in
  let m := fst (_get_minutes_since_last_reply Demo.today 1150 Demo.chat cs1) in
  m = 2%Z /\
  snd (_get_minutes_since_last_reply Demo.today 1150 Demo.chat cs1) = cs1 /\
  inject_Z m * 60 <= 1150 - 1000 /\ 1150 - 1000 < (inject_Z m + 1) * 60.
Proof.
  cbv zeta.
  destruct (X3_minutes_since_reply (Demo.plugin 3 (2 # 10)) Demo.today
              1000 1150 Demo.chat ∅) as (H1 & _ & H3 & H4 & _).
  - discriminate.
  - discriminate.
  - split; [vm_compute; reflexivity|]. split; [exact H1|].
    split; [exact H3 | exact H4].
Defined.

(** X4: after [heartflow_reset] the chat starts afresh: its next
    [_get_chat_state] is a new state with energy 1.0, no reply time and
    zero counters, and the minutes since its last reply read 999; the
    states of other chats, the wait states with their pending timers, and
    the prompt cache are left as they are. *)
Theorem X4_reset_starts_afresh (today : string) (now : Q) (chat_id : string)
    (st : State) :
  let st' := heartflow_reset chat_id st in
  fst (_get_chat_state today chat_id (chat_states st'))
    = mkChatState 1 0 today 0 0 /\
  fst (_get_minutes_since_last_reply today now chat_id (chat_states st'))
    = 999%Z /\
  (forall other, other <> chat_id ->
     chat_states st' !! other = chat_states st !! other) /\
  user_wait_states st' = user_wait_states st /\
  tasks st' = tasks st /\
  event_queue st' = event_queue st /\
  system_prompt_cache st' = system_prompt_cache st.
Proof.
  cbv zeta. unfold heartflow_reset. cbn [chat_states set_chat_states
    user_wait_states tasks event_queue system_prompt_cache].
  assert (Hget : fst (_get_chat_state today chat_id
                        (delete chat_id (chat_states st)))
                 = mkChatState 1 0 today 0 0).
  { unfold _get_chat_state. rewrite lookup_delete_eq. cbn.
    destruct (decide ("" = today)) as [<-|Hne]; reflexivity. }
  split; [exact Hget|]. split; [|split; [|auto]].
  - unfold _get_minutes_since_last_reply.
    destruct (_get_chat_state today chat_id
                (delete chat_id (chat_states st))) as [s cs'].
    cbn [fst] in *. now rewrite Hget.
  - intros other Hne. now apply lookup_delete_ne.
Qed.

Lemma get_chat_state_counters today k (cs : gmap string ChatState) :
  all_counters_ok cs ->
  counters_ok (fst (_get_chat_state today k cs)) /\
  all_counters_ok (snd (_get_chat_state today k cs)).
Proof.
  intros Hcs. unfold _get_chat_state. cbn [fst snd].
  set (state := match cs !! k with Some s => s | None => _ end).
  assert (Hstate : counters_ok state).
  { subst state. destruct (cs !! k) as [s|] eqn:E; [eauto|].
    unfold counters_ok. cbn. lia. }
  assert (Hnew : counters_ok
    (if decide (last_reset_date state = today) then state
     else mkChatState (py_min 1 (energy state + (2 # 10)))
            (last_reply_time state) today (total_messages state)
            (total_replies state))).
  { destruct (decide (last_reset_date state = today)); assumption. }
  split; [assumption|].
  intros k' s' Hl. destruct (decide (k = k')) as [->|Hne].
  - rewrite lookup_insert_eq in Hl. now injection Hl as <-.
  - rewrite lookup_insert_ne in Hl by assumption. eauto.
Qed.

Lemma update_active_counters p today now k (cs : gmap string ChatState) :
  all_counters_ok cs -> all_counters_ok (_update_active_state p today now k cs).
Proof.
  intros Hcs. unfold _update_active_state.
  destruct (get_chat_state_counters today k cs Hcs) as [Hst Hmap].
  destruct (_get_chat_state today k cs) as [st cs']. cbn [fst snd] in *.
  intros k' s' Hl. destruct (decide (k = k')) as [->|Hne].
  - rewrite lookup_insert_eq in Hl. injection Hl as <-.
    unfold counters_ok in *. cbn. lia.
  - rewrite lookup_insert_ne in Hl by assumption. eauto.
Qed.

Lemma update_passive_counters p today k (cs : gmap string ChatState) :
  all_counters_ok cs -> all_counters_ok (_update_passive_state p today k cs).
Proof.
  intros Hcs. unfold _update_passive_state.
  destruct (get_chat_state_counters today k cs Hcs) as [Hst Hmap].
  destruct (_get_chat_state today k cs) as [st cs']. cbn [fst snd] in *.
  intros k' s' Hl. destruct (decide (k = k')) as [->|Hne].
  - rewrite lookup_insert_eq in Hl. injection Hl as <-.
    unfold counters_ok in *. cbn. lia.
  - rewrite lookup_insert_ne in Hl by assumption. eauto.
Qed.

(** The chat states after the [try] block of a timer: untouched, or one
    active update. *)
Lemma body_chat_states p now today k put_ok st :
  chat_states (wait_and_reply_body p now today k put_ok st) = chat_states st \/
  exists chat_id,
    chat_states (wait_and_reply_body p now today k put_ok st)
    = _update_active_state p today now chat_id (chat_states st).
Proof.
  unfold wait_and_reply_body.
  destruct (user_wait_states st !! k) as [ws|]; [|now left].
  destruct (Qlt_bool _ _); [now left|].
  destruct (_combine_user_messages (accumulated_messages ws)) as [u|];
    [|now left].
  right. exists (unified_msg_origin u). now destruct put_ok.
Qed.

Lemma step_chat_states p st a :
  chat_states (step p st a) = chat_states st \/
  exists today now chat_id,
    chat_states (step p st a)
    = _update_active_state p today now chat_id (chat_states st).
Proof.
  destruct a as [now ev|now today tid put_ok]; cbn [step].
  - left. unfold _enter_silent_wait.
    now destruct (user_wait_states st !! event_key ev).
  - unfold _wait_and_reply.
    destruct (tasks st !! tid) as [t|]; [|now left].
    destruct (task_done t); [now left|].
    cbn [chat_states set_tasks].
    set (st1 := if task_cancel_requested t then st
                else wait_and_reply_body p now today (task_key t) put_ok st).
    assert (H1 : chat_states st1 = chat_states st \/
                 exists chat_id, chat_states st1
                   = _update_active_state p today now chat_id (chat_states st)).
    { subst st1. destruct (task_cancel_requested t); [now left|].
      apply body_chat_states. }
    assert (H2 : chat_states (wait_and_reply_finally (task_key t) st1)
                 = chat_states st1).
    { unfold wait_and_reply_finally.
      destruct (user_wait_states st1 !! task_key t) as [ws|]; [|reflexivity].
      destruct (timer_task ws) as [tid0|]; [|reflexivity].
      now destruct (is_done (tasks st1) tid0). }
    rewrite H2. destruct H1 as [H1|[chat_id H1]]; [now left|].
    right. exists today, now, chat_id. exact H1.
Qed.

(** The chat states after a judgment: untouched, or one [_get_chat_state]. *)
Lemma judge_chat_states json_loads get_provider_by_id p c today ev st :
  let st' := snd (judge_with_tiny_model json_loads get_provider_by_id p c
                    today ev st) in
  chat_states st' = chat_states st \/
  chat_states st'
    = snd (_get_chat_state today (unified_msg_origin ev) (chat_states st)).
Proof.
  cbv zeta. unfold judge_with_tiny_model.
  destruct (decide (judge_provider_name p = "")); [now left|].
  destruct (get_provider_by_id (judge_provider_name p)) as [[prov|]|] eqn:E;
    [|now left|now left].
  right.
  pose proof (judge_prepare_frame json_loads get_provider_by_id p c today
                ev st) as (P1 & _).
  destruct (judge_prepare json_loads get_provider_by_id p c today ev st)
    as [prompt st3].
  cbn [snd] in P1.
  pose proof (judge_loop_frame json_loads p prov (recent_contexts c)
                (Z.to_nat (total_attempts p)) 0%Z prompt st3) as (L1 & _).
  now rewrite L1.
Qed.

(** X5: the counters stay consistent: if every chat has
    [0 <= total_replies <= total_messages], this still holds after any
    sequence of tracker calls, after any run of the debounce coordinator,
    and after [on_group_message]. *)
Theorem X5_counters_consistent (p : Plugin) :
  (forall cs calls,
     all_counters_ok cs -> all_counters_ok (run_calls p cs calls)) /\
  (forall st l,
     all_counters_ok (chat_states st) ->
     all_counters_ok (chat_states (run p st l))) /\
  (forall json_loads get_provider_by_id g c today now ev st,
     all_counters_ok (chat_states st) ->
     all_counters_ok
       (chat_states (on_group_message json_loads get_provider_by_id g p c
                       today now ev st))).
Proof.
  split; [|split].
  - intros cs calls. revert cs. unfold run_calls.
    induction calls as [|c calls IH]; intros cs Hcs; cbn; [assumption|].
    apply IH. destruct c; cbn.
    + now apply get_chat_state_counters.
    + now apply update_active_counters.
    + now apply update_passive_counters.
  - intros st l. revert st. unfold run.
    induction l as [|a l IH]; intros st Hst; cbn; [assumption|].
    apply IH.
    destruct (step_chat_states p st a) as [->|(today & now & k & ->)];
      [assumption|now apply update_active_counters].
  - intros json_loads get_provider_by_id g c today now ev st Hst.
    unfold on_group_message.
    destruct (_should_process_message g ev); cbn [negb]; [|assumption].
    pose proof (judge_chat_states json_loads get_provider_by_id p c today
                  ev st) as Hj.
    destruct (judge_with_tiny_model json_loads get_provider_by_id p c today
                ev st) as [[r|] st1]; cbn [snd] in Hj.
    + assert (H1 : all_counters_ok (chat_states st1)).
      { destruct Hj as [->| ->]; [assumption|].
        now apply get_chat_state_counters. }
      destruct (should_reply r).
      * unfold _enter_silent_wait.
        now destruct (user_wait_states st1 !! event_key ev).
      * destruct (sliceable (reasoning r)); [|assumption].
        cbn. now apply update_passive_counters.
    + destruct Hj as [->| ->]; [assumption|].
      now apply get_chat_state_counters.
Qed.

(** ** Energy over repeated updates *)







(** ** The conversation history readers *)

Lemma elem_of_drop_list {A : Type} (x : A) (k : nat) (l : list A) :
  x ∈ drop k l -> x ∈ l.
Proof.
  revert l. induction k as [|k IH]; intros l; [now rewrite drop_0|].
  destruct l as [|y l]; cbn; [auto|].
  intros H. apply elem_of_cons. right. now apply IH.
Qed.

Lemma recent_window_elem {A : Type} (n : Z) (l : list A) (x : A) :
  x ∈ recent_window n l -> x ∈ l.
Proof.
  unfold recent_window, slice_from.
  destruct (n <? Z.of_nat (length l))%Z; [|auto].
  destruct (- n <? 0)%Z; apply elem_of_drop_list.
Qed.

Lemma recent_window_length {A : Type} (n : Z) (l : list A) :
  (0 < n)%Z -> (length (recent_window n l) <= Z.to_nat n)%nat.
Proof.
  intros Hn. unfold recent_window, slice_from.
  destruct (n <? Z.of_nat (length l))%Z eqn:E.
  - apply Z.ltb_lt in E.
    assert (E2 : (- n <? 0)%Z = true) by (apply Z.ltb_lt; lia).
    rewrite E2, length_drop. lia.
  - apply Z.ltb_ge in E. lia.
Qed.

Lemma recent_window_nonpositive {A : Type} (n : Z) (l : list A) :
  (n <= 0)%Z -> recent_window n l = drop (Z.to_nat (- n)) l.
Proof.
  intros Hn. unfold recent_window, slice_from.
  destruct (n <? Z.of_nat (length l))%Z eqn:E.
  - assert (E2 : (- n <? 0)%Z = false) by (apply Z.ltb_ge; lia).
    now rewrite E2.
  - apply Z.ltb_ge in E.
    assert (length l = 0)%nat as Hl by lia.
    destruct l; [|discriminate]. now rewrite drop_nil.
Qed.

Lemma is_chat_role_spec role :
  is_chat_role role = true ->
  role = JStr "user" \/ role = JStr "assistant".
Proof.
  destruct role as [| | | r | |]; cbn; try discriminate.
  intros H. apply Bool.orb_true_iff in H as [H|H];
    apply String.eqb_eq in H; subst; auto.
Qed.

Lemma dict_role_lookup (m : gmap string json) r :
  match m !! "role" with Some v => v | None => JStr "" end = JStr r ->
  is_chat_role (JStr r) = true -> m !! "role" = Some (JStr r).
Proof.
  destruct (m !! "role") as [v|]; [now intros ->|].
  intros [= <-]. discriminate.
Qed.

Lemma dict_content_lookup (m : gmap string json) c :
  match m !! "content" with Some v => v | None => JStr "" end = JStr c ->
  c <> "" -> m !! "content" = Some (JStr c).
Proof.
  destruct (m !! "content") as [v|]; [now intros ->|].
  intros [= <-]. contradiction.
Qed.

Lemma filter_contexts_spec recent : forall out,
  filter_contexts recent = Some out ->
  (length out <= length recent)%nat /\
  forall r c, (r, c) ∈ out ->
    (r = "user" \/ r = "assistant") /\ c <> "" /\
    exists m, JObj m ∈ recent /\ m !! "role" = Some (JStr r) /\
              m !! "content" = Some (JStr c).
Proof.
  induction recent as [|msg rest IH]; intros out H; cbn in H.
  - injection H as <-. split; [cbn; lia|].
    intros r c Hin. now apply elem_of_nil in Hin.
  - destruct msg as [| | | | |m]; cbn in H; try discriminate.
    destruct (filter_contexts rest) as [tail|]; [|discriminate].
    destruct (IH tail eq_refl) as [Hlen Hall].
    assert (Hrest : forall r c, (r, c) ∈ tail ->
      (r = "user" \/ r = "assistant") /\ c <> "" /\
      exists m', JObj m' ∈ JObj m :: rest /\ m' !! "role" = Some (JStr r) /\
                 m' !! "content" = Some (JStr c)).
    { intros r c Hin. destruct (Hall r c Hin) as (H1 & H2 & m' & H3 & H4).
      split; [assumption|]. split; [assumption|].
      exists m'. split; [|assumption]. apply elem_of_cons. now right. }
    remember (match m !! "role" with Some v => v | None => JStr "" end)
      as role eqn:Hrole.
    remember (match m !! "content" with Some v => v | None => JStr "" end)
      as content eqn:Hcontent.
    symmetry in Hrole, Hcontent.
    assert (Hskip : out = tail -> (length out <= length (JObj m :: rest))%nat /\
      forall r c, (r, c) ∈ out ->
      (r = "user" \/ r = "assistant") /\ c <> "" /\
      exists m', JObj m' ∈ JObj m :: rest /\ m' !! "role" = Some (JStr r) /\
                 m' !! "content" = Some (JStr c)).
    { intros ->. split; [cbn; lia | exact Hrest]. }
    destruct role as [| | | r | |]; try (apply Hskip; congruence).
    destruct content as [| | | c | |]; try (apply Hskip; congruence).
    destruct (is_chat_role (JStr r) && negb (String.eqb c "")) eqn:E;
      [|apply Hskip; congruence].
    injection H as <-.
    apply Bool.andb_true_iff in E as [E1 E2].
    assert (Hc : c <> "").
    { intros ->. discriminate. }
    split; [cbn; lia|].
    intros r' c' Hin. apply elem_of_cons in Hin as [Hin|Hin];
      [|now apply Hrest].
    injection Hin as -> ->.
    split.
    { destruct (is_chat_role_spec _ E1) as [Hr|Hr]; injection Hr as ->; auto. }
    split; [assumption|].
    exists m. split; [apply list_elem_of_here|].
    split; [now apply dict_role_lookup | now apply dict_content_lookup].
Qed.

(** X7: every turn [_get_recent_contexts] passes to the judge model has
    the role [user] or [assistant] and a non-empty text, and is such a turn
    of the parsed history; with a positive [context_messages_count] there
    are at most that many. *)
Theorem X7_recent_contexts_clean (json_loads : string -> option json)
    (p : Plugin) (h : HistorySource) :
  (forall r c, (r, c) ∈ _get_recent_contexts json_loads p h ->
     (r = "user" \/ r = "assistant") /\ c <> "" /\
     exists context m,
       load_history json_loads h = Some context /\ JObj m ∈ context /\
       m !! "role" = Some (JStr r) /\ m !! "content" = Some (JStr c)) /\
  ((0 < context_messages_count p)%Z ->
   (length (_get_recent_contexts json_loads p h)
    <= Z.to_nat (context_messages_count p))%nat).
Proof.
  unfold _get_recent_contexts.
  destruct (load_history json_loads h) as [context|];
    [|split; [intros r c H; now apply elem_of_nil in H | cbn; lia]].
  destruct (filter_contexts
              (recent_window (context_messages_count p) context))
    as [out|] eqn:E;
    [|split; [intros r c H; now apply elem_of_nil in H | cbn; lia]].
  destruct (filter_contexts_spec _ _ E) as [Hlen Hall]. split.
  - intros r c Hin. destruct (Hall r c Hin) as (H1 & H2 & m & H3 & H4).
    split; [assumption|]. split; [assumption|].
    exists context, m. split; [reflexivity|]. split; [|assumption].
    eapply recent_window_elem; eauto.
  - intros Hn.
    pose proof (recent_window_length (context_messages_count p) context Hn).
    lia.
Qed.

(** X8: with [context_messages_count] zero or negative the slice
    [context[-n:]] does not shorten the history to its end: for 0 the whole
    history is the window, for [-k] everything after the first [k] turns;
    [_get_recent_contexts] then filters that window. *)
Theorem X8_nonpositive_window (json_loads : string -> option json)
    (p : Plugin) (h : HistorySource) (context : list json) :
  (context_messages_count p <= 0)%Z ->
  load_history json_loads h = Some context ->
  recent_window (context_messages_count p) context
    = drop (Z.to_nat (- context_messages_count p)) context /\
  _get_recent_contexts json_loads p h
    = default [] (filter_contexts
                    (drop (Z.to_nat (- context_messages_count p)) context)) /\
  (context_messages_count p = 0%Z ->
   _get_recent_contexts json_loads p h
     = default [] (filter_contexts context)).
Proof.
  intros Hn Hload.
  pose proof (recent_window_nonpositive (context_messages_count p) context Hn)
    as Hw.
  split; [exact Hw|].
  assert (H : _get_recent_contexts json_loads p h
              = default [] (filter_contexts
                  (drop (Z.to_nat (- context_messages_count p)) context))).
  { unfold _get_recent_contexts. rewrite Hload, Hw.
    now destruct (filter_contexts _). }
  split; [exact H|].
  intros H0. rewrite H, H0. cbn. now rewrite drop_0.
Qed.

Lemma scan_last_reply_sound rl : forall c,
  scan_last_reply rl = Some (Some c) ->
  exists a msg b, rl = (a ++ msg :: b)%list /\ is_bot_reply msg c /\
    forall m' c', m' ∈ a -> ~ is_bot_reply m' c'.
Proof.
  induction rl as [|msg rest IH]; intros c H; cbn in H; [discriminate|].
  destruct msg as [| | | | |m]; cbn in H; try discriminate.
  remember (match m !! "role" with Some v => v | None => JStr "unknown" end)
    as role eqn:Hrole.
  remember (match m !! "content" with Some v => v | None => JStr "" end)
    as content eqn:Hcontent.
  assert (Hnext : scan_last_reply rest = Some (Some c) ->
                  (forall c', ~ is_bot_reply (JObj m) c') ->
                  exists a msg b, (JObj m :: rest = a ++ msg :: b)%list /\
                    is_bot_reply msg c /\
                    forall m' c', m' ∈ a -> ~ is_bot_reply m' c').
  { intros Hs Hno. destruct (IH c Hs) as (a & msg & b & -> & Hb & Ha).
    exists (JObj m :: a), msg, b. split; [reflexivity|]. split; [assumption|].
    intros m' c' Hin. apply elem_of_cons in Hin as [->|Hin]; eauto. }
  destruct (is_assistant role) eqn:Hass.
  - destruct content as [| | | c0 | |]; try discriminate.
    destruct (String.eqb (Str.strip c0) "") eqn:Hblank.
    + apply Hnext; [assumption|].
      intros c' (m0 & [= <-] & _ & Hc' & Hnb).
      rewrite Hc' in Hcontent. injection Hcontent as ->.
      apply String.eqb_eq in Hblank. contradiction.
    + injection H as <-.
      exists [], (JObj m), rest. split; [reflexivity|]. split.
      * exists m. split; [reflexivity|].
        assert (Hnb : Str.strip c0 <> "").
        { intros E. rewrite E in Hblank. discriminate. }
        split; [|split; [|assumption]].
        -- destruct (m !! "role") as [v|]; subst role; [|discriminate].
           destruct v as [| | | r | |]; try discriminate.
           cbn in Hass. apply String.eqb_eq in Hass. now subst r.
        -- destruct (m !! "content") as [v|]; [now subst v|].
           injection Hcontent as ->. now contradiction Hnb.
      * intros m' c' Hin. now apply elem_of_nil in Hin.
  - apply Hnext; [assumption|].
    intros c' (m0 & [= <-] & Hr & _).
    rewrite Hr in Hrole. subst role. discriminate.
Qed.

(** X9: when [_get_last_bot_reply] returns a text, that text is not blank
    and is the content of an assistant turn of the parsed history, and no
    later turn of the history is an assistant turn with a text that is not
    blank: it is the bot's last reply. *)
Theorem X9_last_bot_reply (json_loads : string -> option json)
    (h : HistorySource) (c : string) :
  _get_last_bot_reply json_loads h = Some c ->
  Str.strip c <> "" /\
  exists context pre msg post,
    load_history json_loads h = Some context /\
    context = (pre ++ msg :: post)%list /\
    is_bot_reply msg c /\
    forall m' c', m' ∈ post -> ~ is_bot_reply m' c'.
Proof.
  unfold _get_last_bot_reply.
  destruct (load_history json_loads h) as [context|]; [|discriminate].
  destruct (scan_last_reply (rev context)) as [r|] eqn:E; [|discriminate].
  intros ->.
  destruct (scan_last_reply_sound _ _ E) as (a & msg & b & Hrev & Hb & Ha).
  split.
  - destruct Hb as (m & _ & _ & _ & Hnb). exact Hnb.
  - exists context, (rev b), msg, (rev a).
    split; [reflexivity|]. split; [|split; [assumption|]].
    + rewrite <- (rev_involutive context), Hrev, rev_app_distr. cbn.
      now rewrite <- app_assoc.
    + intros m' c' Hin. apply (Ha m' c').
      apply list_elem_of_In. apply in_rev. now apply list_elem_of_In.
Qed.

Lemma X8_nonpositive_window_witness :
  _get_recent_contexts DemoHistory.loads (DemoHistory.plugin_with_window 0)
    DemoHistory.source
  = [("user", "hi"); ("assistant", "hello there"); ("user", "ok")].
Proof.
  destruct (X8_nonpositive_window DemoHistory.loads
              (DemoHistory.plugin_with_window 0) DemoHistory.source
              DemoHistory.history) as (_ & _ & H).
  - cbn. lia.
  - reflexivity.
  - rewrite (H eq_refl). vm_compute. reflexivity.
Defined.

Lemma X9_last_bot_reply_witness :
  _get_last_bot_reply DemoHistory.loads DemoHistory.source
    = Some "hello there" /\
  Str.strip "hello there" <> "".
Proof.
  assert (H : _get_last_bot_reply DemoHistory.loads DemoHistory.source
              = Some "hello there") by (vm_compute; reflexivity).
  split; [exact H|].
  apply (X9_last_bot_reply DemoHistory.loads DemoHistory.source
           "hello there" H).
Defined.

(** ** The prompt cache *)

Section CacheFacts.

Variable json_loads : string -> option json.
Variable get_provider_by_id : string -> result (option Provider).
Variable p : Plugin.

(** A request whose key has an entry made from the same text is answered
    from the entry. *)
Lemma get_or_create_hit c original st cid conversation e :
  curr_cid c = Ok (Some cid) -> cid <> "" ->
  conversation_persona c = Ok conversation ->
  system_prompt_cache st !! cache_key cid (persona_id_of conversation)
    = Some e ->
  ce_original e = original ->
  _get_or_create_summarized_system_prompt json_loads get_provider_by_id p c
    original st = (ce_summarized e, st).
Proof.
  intros Hcid Hne Hconv He Ho.
  unfold _get_or_create_summarized_system_prompt.
  rewrite Hcid. destruct cid as [|a cid']; [contradiction|].
  rewrite Hconv. fold (persona_id_of conversation). rewrite He.
  rewrite Ho, String.eqb_refl. reflexivity.
Qed.

(** A request for a text of at least 50 characters whose key has no entry
    made from it calls the provider once and stores what
    [_summarize_system_prompt] returned. *)
Lemma get_or_create_miss c original st prov cid conversation text :
  judge_provider_name p <> "" ->
  get_provider_by_id (judge_provider_name p) = Ok (Some prov) ->
  curr_cid c = Ok (Some cid) -> cid <> "" ->
  conversation_persona c = Ok conversation ->
  match system_prompt_cache st !! cache_key cid (persona_id_of conversation)
  with
  | Some cached => ce_original cached <> original
  | None => True
  end ->
  (50 <= Str.py_len (Str.strip original))%nat ->
  prov (length (provider_log st)) (Txt.summarize_prompt original) []
    = Completion text ->
  _get_or_create_summarized_system_prompt json_loads get_provider_by_id p c
    original st
  = (default original (summary_of json_loads text),
     set_system_prompt_cache (logged st (Txt.summarize_prompt original))
       (<[cache_key cid (persona_id_of conversation)
          := mkCacheEntry original
               (default original (summary_of json_loads text))
               (persona_id_of conversation)]> (system_prompt_cache st))).
Proof.
  intros Hname Hprov Hcid Hne Hconv Hmiss Hlen Hcall.
  assert (Hnonempty : String.eqb original "" = false).
  { destruct (String.eqb original "") eqn:E; [|reflexivity].
    apply String.eqb_eq in E. rewrite E in Hlen.
    rewrite py_len_empty_strip in Hlen. lia. }
  unfold _get_or_create_summarized_system_prompt.
  rewrite Hcid. destruct cid as [|a cid']; [contradiction|].
  rewrite Hconv. fold (persona_id_of conversation).
  set (key := cache_key (String a cid') (persona_id_of conversation)) in *.
  assert (Hhit : match system_prompt_cache st !! key with
                 | Some cached =>
                     if String.eqb (ce_original cached) original
                     then Some (ce_summarized cached) else None
                 | None => None
                 end = None).
  { destruct (system_prompt_cache st !! key) as [cached|]; [|reflexivity].
    destruct (String.eqb (ce_original cached) original) eqn:E; [|reflexivity].
    apply String.eqb_eq in E. contradiction. }
  rewrite Hhit, Hnonempty.
  assert (Hlt : (Str.py_len (Str.strip original) <? 50)%nat = false)
    by (apply Nat.ltb_ge; exact Hlen).
  rewrite Hlt. cbn [orb].
  rewrite (summarize_result json_loads get_provider_by_id p original st
             prov text Hname Hprov Hcall).
  reflexivity.
Qed.

(** The cache only ever receives entries made from long texts. *)
Lemma get_or_create_cache_long c original st :
  cache_long (system_prompt_cache st) ->
  cache_long
    (system_prompt_cache
       (snd (_get_or_create_summarized_system_prompt json_loads
               get_provider_by_id p c original st))).
Proof.
  intros Hinv. unfold _get_or_create_summarized_system_prompt.
  destruct (curr_cid c) as [[[|a cid]|]|]; try exact Hinv.
  destruct (conversation_persona c) as [conv|]; try exact Hinv.
  destruct (match system_prompt_cache st !! _ with Some _ => _ | None => _ end);
    try exact Hinv.
  destruct (String.eqb original "") eqn:E1; cbn [orb]; try exact Hinv.
  destruct (Str.py_len (Str.strip original) <? 50)%nat eqn:E2;
    try exact Hinv.
  apply Nat.ltb_ge in E2.
  pose proof (summarize_frame json_loads get_provider_by_id p original st)
    as [_ Hc].
  destruct (_summarize_system_prompt json_loads get_provider_by_id p
              original st) as [s st'].
  cbn [snd] in *. cbn. rewrite Hc.
  intros k e Hk.
  match type of Hk with
  | <[?key := _]> _ !! _ = _ =>
      destruct (decide (key = k)) as [<-|Hne];
      [rewrite lookup_insert_eq in Hk; injection Hk as <-; exact E2
      |rewrite lookup_insert_ne in Hk by assumption; eauto]
  end.
Qed.

End CacheFacts.

(** X10: after a request that missed the cache (a persona text of at least
    50 characters, summarized with one provider call), the same request is
    answered from the cache: it returns the same text, makes no provider
    call and changes no state. *)
Theorem X10_cache_round_trip
    (json_loads : string -> option json)
    (get_provider_by_id : string -> result (option Provider))
    (p : Plugin) (c : Collab) (original : string) (st : State)
    (prov : Provider) (cid text : string)
    (conversation : option (option string)) :
  judge_provider_name p <> "" ->
  get_provider_by_id (judge_provider_name p) = Ok (Some prov) ->
  curr_cid c = Ok (Some cid) -> cid <> "" ->
  conversation_persona c = Ok conversation ->
  match system_prompt_cache st !! cache_key cid (persona_id_of conversation)
  with
  | Some cached => ce_original cached <> original
  | None => True
  end ->
  (50 <= Str.py_len (Str.strip original))%nat ->
  prov (length (provider_log st)) (Txt.summarize_prompt original) []
    = Completion text ->
  let first :=
    _get_or_create_summarized_system_prompt json_loads get_provider_by_id p c
      original st in
  length (provider_log (snd first)) = S (length (provider_log st)) /\
  _get_or_create_summarized_system_prompt json_loads get_provider_by_id p c
    original (snd first) = (fst first, snd first).
Proof.
  intros Hname Hprov Hcid Hne Hconv Hmiss Hlen Hcall first. subst first.
  rewrite (get_or_create_miss json_loads get_provider_by_id p c original st
             prov cid conversation text Hname Hprov Hcid Hne Hconv Hmiss
             Hlen Hcall).
  cbn [fst snd]. split.
  - cbn. rewrite length_app. cbn. lia.
  - apply (get_or_create_hit json_loads get_provider_by_id p c original _
             cid conversation
             (mkCacheEntry original
                (default original (summary_of json_loads text))
                (persona_id_of conversation)) Hcid Hne Hconv).
    + cbn. apply lookup_insert_eq.
    + reflexivity.
Qed.

Lemma X10_cache_round_trip_witness :
  let run :=
    _get_or_create_summarized_system_prompt JsonFlat.json_loads_flat
      (Demo.resolve (Demo.always DemoHistory.good_summary))
      (Demo.plugin 3 (2 # 10)) Demo.persona_conversation Demo.long_persona in
  fst (run initial_state) = "cheerful cat and tea lover" /\
  length (provider_log (snd (run initial_state))) = 1%nat /\
  run (snd (run initial_state))
    = (fst (run initial_state), snd (run initial_state)).
Proof.
  cbv zeta.
  destruct (X10_cache_round_trip JsonFlat.json_loads_flat
              (Demo.resolve (Demo.always DemoHistory.good_summary))
              (Demo.plugin 3 (2 # 10)) Demo.persona_conversation
              Demo.long_persona initial_state
              (Demo.always DemoHistory.good_summary) "conv1"
              DemoHistory.good_summary (Some (Some "p1")))
    as [H1 H2].
  - vm_compute. discriminate.
  - reflexivity.
  - reflexivity.
  - discriminate.
  - reflexivity.
  - vm_compute. exact I.
  - vm_compute. lia.
  - reflexivity.
  - split; [vm_compute; reflexivity|]. split; [exact H1 | exact H2].
Defined.

(** X11: every entry of the prompt cache was made from a persona text of
    at least 50 characters, and [_get_or_create_summarized_system_prompt]
    keeps it so; hence a persona text shorter than that is always returned
    unchanged, with no provider call and no change of state. *)
Theorem X11_short_persona_untouched
    (json_loads : string -> option json)
    (get_provider_by_id : string -> result (option Provider))
    (p : Plugin) (c : Collab) (original : string) (st : State) :
  cache_long (system_prompt_cache st) ->
  cache_long
    (system_prompt_cache
       (snd (_get_or_create_summarized_system_prompt json_loads
               get_provider_by_id p c original st))) /\
  ((Str.py_len (Str.strip original) < 50)%nat ->
   _get_or_create_summarized_system_prompt json_loads get_provider_by_id p c
     original st = (original, st)) /\
  cache_long (system_prompt_cache initial_state).
Proof.
  intros Hinv. split; [now apply get_or_create_cache_long|]. split.
  - intros Hshort. unfold _get_or_create_summarized_system_prompt.
    destruct (curr_cid c) as [[[|a cid]|]|]; try reflexivity.
    destruct (conversation_persona c) as [conv|]; try reflexivity.
    destruct (system_prompt_cache st !! _) as [cached|] eqn:E.
    + destruct (String.eqb (ce_original cached) original) eqn:Eo.
      * apply String.eqb_eq in Eo. pose proof (Hinv _ _ E) as Hl.
        rewrite Eo in Hl. lia.
      * apply Nat.ltb_lt in Hshort. rewrite Hshort.
        now rewrite Bool.orb_true_r.
    + apply Nat.ltb_lt in Hshort. rewrite Hshort.
      now rewrite Bool.orb_true_r.
  - intros k e H. cbn in H. rewrite lookup_empty in H. discriminate.
Qed.

Lemma X11_short_persona_untouched_witness :
  _get_or_create_summarized_system_prompt JsonFlat.json_loads_flat
    (Demo.resolve (Demo.always DemoHistory.good_summary))
    (Demo.plugin 3 (2 # 10)) Demo.persona_conversation "A terse bot."
    initial_state = ("A terse bot.", initial_state).
Proof.
  destruct (X11_short_persona_untouched JsonFlat.json_loads_flat
              (Demo.resolve (Demo.always DemoHistory.good_summary))
              (Demo.plugin 3 (2 # 10)) Demo.persona_conversation
              "A terse bot." initial_state) as (_ & H & _).
  - intros k e Hk. cbn in Hk. rewrite lookup_empty in Hk. discriminate.
  - apply H. vm_compute. lia.
Defined.

(** ** The personas *)

Lemma persona_first_match name prompt post : forall pre,
  (forall x, x ∈ pre -> x.1 <> name) ->
  _get_persona_prompt_by_name (pre ++ (name, prompt) :: post)%list name
  = default "" prompt.
Proof.
  induction pre as [|[n q] pre IH]; intros Hpre; cbn.
  - rewrite String.eqb_refl. now destruct prompt.
  - assert (Hn : n <> name) by (apply (Hpre (n, q)); apply list_elem_of_here).
    apply String.eqb_neq in Hn. rewrite Hn. apply IH.
    intros x Hx. apply Hpre. now apply list_elem_of_further.
Qed.

Lemma persona_unknown name : forall personas,
  (forall x, x ∈ personas -> x.1 <> name) ->
  _get_persona_prompt_by_name personas name = "".
Proof.
  induction personas as [|[n q] personas IH]; intros Hall; cbn.
  - reflexivity.
  - assert (Hn : n <> name) by (apply (Hall (n, q)); apply list_elem_of_here).
    apply String.eqb_neq in Hn. rewrite Hn. apply IH.
    intros x Hx. apply Hall. now apply list_elem_of_further.
Qed.

(** X12: a persona's prompt is looked up by name, the first persona of that
    name winning; a name that no persona has, and a persona without a
    prompt, give the empty text.  The persona text of a message is always
    empty or such a lookup, of the default persona's name or of the
    conversation's persona id, and it is empty when the lookups of the
    conversation raise or the persona id is the marker [[%None]]. *)
Theorem X12_persona_selection
    (personas : list (string * option string)) (default_name : string) :
  (forall name pre prompt post,
     personas = (pre ++ (name, prompt) :: post)%list ->
     (forall x, x ∈ pre -> x.1 <> name) ->
     _get_persona_prompt_by_name personas name = default "" prompt) /\
  (forall name,
     (forall x, x ∈ personas -> x.1 <> name) ->
     _get_persona_prompt_by_name personas name = "") /\
  (forall cid conversation,
     let text :=
       _get_persona_system_prompt personas default_name cid conversation in
     text = "" \/
     text = _get_persona_prompt_by_name personas default_name \/
     exists persona_id,
       conversation = Ok (Some (Some persona_id)) /\
       persona_id <> "" /\ persona_id <> no_persona_marker /\
       text = _get_persona_prompt_by_name personas persona_id) /\
  (forall cid conversation,
     (exists e, cid = Raise e) \/ (exists e, conversation = Raise e /\
        exists a s, cid = Ok (Some (String a s))) \/
     (conversation = Ok (Some (Some no_persona_marker)) /\
        exists a s, cid = Ok (Some (String a s))) ->
     _get_persona_system_prompt personas default_name cid conversation = "").
Proof.
  split; [|split; [|split]].
  - intros name pre prompt post -> Hpre. now apply persona_first_match.
  - intros name. apply persona_unknown.
  - intros cid conversation. cbv zeta. unfold _get_persona_system_prompt.
    destruct cid as [[[|a s]|]|]; auto.
    destruct conversation as [[[[|b t]|]|]|]; auto.
    destruct (String.eqb (String b t) no_persona_marker) eqn:E; auto.
    right. right. exists (String b t).
    apply String.eqb_neq in E. repeat split; auto; discriminate.
  - intros cid conversation [[e ->]|[(e & -> & a & s & ->)|(-> & a & s & ->)]];
      reflexivity.
Qed.

Section CancelledPersona.

Variable json_loads : string -> option json.
Variable get_provider_by_id : string -> result (option Provider).
Variable p : Plugin.

(** A text of fewer than 50 characters is returned as it is. *)
Lemma get_or_create_short c original st :
  cache_long (system_prompt_cache st) ->
  (Str.py_len (Str.strip original) < 50)%nat ->
  _get_or_create_summarized_system_prompt json_loads get_provider_by_id p c
    original st = (original, st).
Proof.
  intros Hinv Hshort. unfold _get_or_create_summarized_system_prompt.
  destruct (curr_cid c) as [[[|a cid]|]|]; try reflexivity.
  destruct (conversation_persona c) as [conv|]; try reflexivity.
  destruct (system_prompt_cache st !! _) as [cached|] eqn:E.
  - destruct (String.eqb (ce_original cached) original) eqn:Eo.
    + apply String.eqb_eq in Eo. pose proof (Hinv _ _ E) as Hl.
      rewrite Eo in Hl. lia.
    + apply Nat.ltb_lt in Hshort. rewrite Hshort.
      now rewrite Bool.orb_true_r.
  - apply Nat.ltb_lt in Hshort. rewrite Hshort.
    now rewrite Bool.orb_true_r.
Qed.

End CancelledPersona.

(** X13: when the user has cancelled the persona of the conversation (its
    persona id is [[%None]]), the judge request is built without a persona
    section: no summarization call is made, the prompt cache is left as it
    is, and the prompt is the system line, the JSON reminder and the judge
    prompt rendered for an empty persona. *)
Theorem X13_cancelled_persona
    (json_loads : string -> option json)
    (get_provider_by_id : string -> result (option Provider))
    (p : Plugin) (c : Collab) (today : string) (ev : Event) (st : State)
    (personas : list (string * option string)) (default_name : string)
    (cid : string) :
  curr_cid c = Ok (Some cid) -> cid <> "" ->
  conversation_persona c = Ok (Some (Some no_persona_marker)) ->
  original_persona_prompt c =
    _get_persona_system_prompt personas default_name (curr_cid c)
      (conversation_persona c) ->
  cache_long (system_prompt_cache st) ->
  let out := judge_prepare json_loads get_provider_by_id p c today ev st in
  provider_log (snd out) = provider_log st /\
  system_prompt_cache (snd out) = system_prompt_cache st /\
  exists chat_state,
    fst out =
      (Txt.judge_system_line ++ Str.nl ++ Str.nl ++ Txt.json_reminder
       ++ Str.nl ++ Str.nl ++ render_judge_prompt c "" chat_state).
Proof.
  intros Hcid Hne Hconv Horig Hinv out. subst out.
  assert (Hempty : original_persona_prompt c = "").
  { rewrite Horig, Hcid, Hconv. destruct cid; [contradiction|reflexivity]. }
  unfold judge_prepare. rewrite Hempty.
  destruct (_get_chat_state today (unified_msg_origin ev) (chat_states st))
    as [s1 cs1].
  rewrite (get_or_create_short json_loads get_provider_by_id p c ""
             (set_chat_states st cs1)).
  - cbn [chat_states set_chat_states].
    destruct (_get_chat_state today (unified_msg_origin ev) cs1) as [s2 cs2].
    destruct (_get_chat_state today (unified_msg_origin ev) cs2) as [s3 cs3].
    cbn [fst snd provider_log system_prompt_cache set_chat_states].
    split; [reflexivity|]. split; [reflexivity|].
    exists s3. unfold complete_judge_prompt. cbn [String.eqb].
    reflexivity.
  - exact Hinv.
  - rewrite py_len_empty_strip. lia.
Qed.

Lemma X13_cancelled_persona_witness :
  provider_log
    (snd (judge_prepare JsonFlat.json_loads_flat
            (Demo.resolve (Demo.always DemoHistory.good_summary))
            (Demo.plugin 3 (2 # 10)) DemoHistory.cancelled_conversation
            Demo.today (Demo.message Demo.chat "u1" "hello") initial_state))
  = [].
Proof.
  destruct (X13_cancelled_persona JsonFlat.json_loads_flat
              (Demo.resolve (Demo.always DemoHistory.good_summary))
              (Demo.plugin 3 (2 # 10)) DemoHistory.cancelled_conversation
              Demo.today (Demo.message Demo.chat "u1" "hello") initial_state
              DemoHistory.personas "cat" "conv1") as (H & _).
  - reflexivity.
  - discriminate.
  - reflexivity.
  - reflexivity.
  - intros k e Hk. cbn in Hk. rewrite lookup_empty in Hk. discriminate.
  - exact H.
Defined.

(** ** Responses that parse but cannot be scored *)

Lemma score_response_unusable (p : Plugin) (d : json) :
  unusable d -> exists e, score_response p d = Raise e.
Proof.
  destruct d as [| b | q | s | l | m]; cbn [unusable];
    try (intros _; eexists; reflexivity).
  intros (k & v & Hk & Hv & Hnum).
  unfold score_response. cbn [dict_get].
  assert (Hcase : k = "relevance" \/ k = "willingness" \/ k = "social" \/
                  k = "timing" \/ k = "continuity").
  { unfold score_fields in Hk.
    repeat (apply elem_of_cons in Hk as [Hk|Hk]; [auto 6|]).
    now apply elem_of_nil in Hk. }
  destruct (as_number (match m !! "relevance" with Some v0 => v0 | None => JNum 0 end))
    as [r|e1] eqn:E1; [|eauto].
  destruct (as_number (match m !! "willingness" with Some v0 => v0 | None => JNum 0 end))
    as [w|e2] eqn:E2; [|eauto].
  destruct (as_number (match m !! "social" with Some v0 => v0 | None => JNum 0 end))
    as [s|e3] eqn:E3; [|eauto].
  destruct (as_number (match m !! "timing" with Some v0 => v0 | None => JNum 0 end))
    as [t|e4] eqn:E4; [|eauto].
  destruct (as_number (match m !! "continuity" with Some v0 => v0 | None => JNum 0 end))
    as [c|e5] eqn:E5; [|eauto].
  exfalso.
  destruct Hcase as [->|[->|[->|[->| ->]]]]; rewrite Hv in *; congruence.
Qed.

Lemma score_response_usable (p : Plugin) (d : json) r :
  score_response p d = Ok r -> ~ unusable d.
Proof.
  intros Hok Hbad. destruct (score_response_unusable p d Hbad) as [e He].
  congruence.
Qed.

(** X14: a response that parses as JSON but cannot be scored (it is not an
    object, or a dimension field holds something that is not a number) is
    not retried: whatever the number of retries left,
    [judge_with_tiny_model] returns after that one call with
    [should_reply = false] and the exception as its reason.  Only a
    response that does not parse is tried again. *)
Theorem X14_unscorable_not_retried
    (json_loads : string -> option json)
    (get_provider_by_id : string -> result (option Provider))
    (p : Plugin) (c : Collab) (today : string) (ev : Event) (st : State)
    (prov : Provider) (text : string) (d : json) :
  (0 <= judge_max_retries p)%Z ->
  judge_provider_name p <> "" ->
  get_provider_by_id (judge_provider_name p) = Ok (Some prov) ->
  let start := judge_prepare json_loads get_provider_by_id p c today ev st in
  prov (length (provider_log (snd start))) (fst start) (recent_contexts c)
    = Completion text ->
  json_loads (strip_fences (Str.strip text)) = Some d ->
  unusable d ->
  let out :=
    judge_with_tiny_model json_loads get_provider_by_id p c today ev st in
  (exists e, fst out = Some (JudgeResult_failure (Txt.reason_exception e))) /\
  (forall r, fst out = Some r -> should_reply r = false) /\
  snd out = logged (snd start) (fst start) /\
  calls_between (snd start) (snd out) = 1%nat.
Proof.
  intros Hretries Hname Hprov start Hcall Hparse Hbad out. subst out.
  rewrite (judge_with_tiny_model_resolved json_loads get_provider_by_id p c
             today ev st prov Hname Hprov).
  fold start.
  assert (Hn : exists n, Z.to_nat (total_attempts p) = S n).
  { unfold total_attempts.
    destruct (judge_max_retries p =? 0)%Z.
    - exists 0%nat. reflexivity.
    - exists (Z.to_nat (judge_max_retries p)). lia. }
  destruct Hn as [n ->].
  rewrite (judge_loop_parsed json_loads p prov (recent_contexts c) n 0%Z
             (fst start) (snd start) text d Hcall Hparse).
  destruct (score_response_unusable p d Hbad) as [e He]. rewrite He.
  cbn [fst snd]. split; [eauto|]. split; [|split].
  - intros r [= <-]. reflexivity.
  - reflexivity.
  - unfold calls_between, logged. cbn. rewrite length_app. cbn. lia.
Qed.

Lemma X14_unscorable_not_retried_witness :
  let out :=
    judge_with_tiny_model JsonFlat.json_loads_flat
      (Demo.resolve (Demo.always DemoHistory.word_score))
      (Demo.plugin 3 (2 # 10)) Demo.no_conversation Demo.today
      (Demo.message Demo.chat "u1" "hello") initial_state in
  length (provider_log (snd out)) = 1%nat /\
  forall r, fst out = Some r -> should_reply r = false.
Proof.
  cbv zeta.
  destruct (X14_unscorable_not_retried JsonFlat.json_loads_flat
              (Demo.resolve (Demo.always DemoHistory.word_score))
              (Demo.plugin 3 (2 # 10)) Demo.no_conversation Demo.today
              (Demo.message Demo.chat "u1" "hello") initial_state
              (Demo.always DemoHistory.word_score) DemoHistory.word_score
              (JObj (<["relevance" := JNum 9]>
                       (<["social" := JStr "high"]> ∅))))
    as (_ & Hno & Hst & _).
  - vm_compute. discriminate.
  - vm_compute. discriminate.
  - reflexivity.
  - reflexivity.
  - vm_compute. reflexivity.
  - exists "social", (JStr "high"). split; [|split].
    + unfold score_fields. set_solver.
    + reflexivity.
    + reflexivity.
  - split; [|exact Hno]. rewrite Hst. reflexivity.
Defined.

(** ** What the message handler does to the state *)

(** A judgment leaves wait states, tasks and the queue as they are. *)
Lemma judge_frame json_loads get_provider_by_id p c today ev st :
  let st' := snd (judge_with_tiny_model json_loads get_provider_by_id p c
                    today ev st) in
  user_wait_states st' = user_wait_states st /\
  tasks st' = tasks st /\ event_queue st' = event_queue st.
Proof.
  cbv zeta. unfold judge_with_tiny_model.
  destruct (decide (judge_provider_name p = "")); [now cbn|].
  destruct (get_provider_by_id (judge_provider_name p)) as [[prov|]|] eqn:E;
    [|now cbn|now cbn].
  pose proof (judge_prepare_frame json_loads get_provider_by_id p c today
                ev st) as (_ & P2 & P3 & P4).
  destruct (judge_prepare json_loads get_provider_by_id p c today ev st)
    as [prompt st3].
  cbn [snd] in P2, P3, P4.
  pose proof (judge_loop_frame json_loads p prov (recent_contexts c)
                (Z.to_nat (total_attempts p)) 0%Z prompt st3)
    as (_ & L2 & _ & L4 & L5 & _).
  cbv zeta in L2, L4, L5. rewrite L2, L4, L5. auto.
Qed.

Lemma update_passive_other p today k k' (cs : gmap string ChatState) :
  k <> k' -> _update_passive_state p today k cs !! k' = cs !! k'.
Proof.
  intros Hne. unfold _update_passive_state, _get_chat_state.
  rewrite lookup_insert_ne by assumption.
  now rewrite lookup_insert_ne by assumption.
Qed.

Lemma enter_silent_wait_other now ev st k :
  k <> event_key ev ->
  user_wait_states (_enter_silent_wait now ev st) !! k
  = user_wait_states st !! k.
Proof.
  intros Hne. unfold _enter_silent_wait.
  destruct (user_wait_states st !! event_key ev) as [ws|]; cbn;
    now rewrite lookup_insert_ne by auto.
Qed.

Lemma enter_silent_wait_tasks now ev st :
  length (tasks (_enter_silent_wait now ev st)) = S (length (tasks st)) /\
  chat_states (_enter_silent_wait now ev st) = chat_states st /\
  event_queue (_enter_silent_wait now ev st) = event_queue st.
Proof.
  unfold _enter_silent_wait.
  destruct (user_wait_states st !! event_key ev) as [ws|]; cbn.
  - rewrite length_app. cbn.
    destruct (timer_task ws) as [tid|]; [|split; [lia|auto]].
    destruct (negb (is_done (tasks st) tid));
      rewrite ?length_cancel_task; split; auto; lia.
  - rewrite length_app. cbn. split; [lia|auto].
Qed.

(** X15: [on_group_message] never puts anything on the downstream queue
    itself; it changes no wait-state entry but the one of the message's own
    chat and sender, no chat state but the one of the message's chat, and
    it either leaves wait states and tasks as they are or arms exactly one
    new timer, by [_enter_silent_wait] for this message. *)
Theorem X15_handler_effects
    (json_loads : string -> option json)
    (get_provider_by_id : string -> result (option Provider))
    (g : Gate) (p : Plugin) (c : Collab) (today : string) (now : Q)
    (ev : Event) (st : State) :
  let st' :=
    on_group_message json_loads get_provider_by_id g p c today now ev st in
  event_queue st' = event_queue st /\
  (forall k, k <> event_key ev ->
     user_wait_states st' !! k = user_wait_states st !! k) /\
  (forall k, k <> unified_msg_origin ev ->
     chat_states st' !! k = chat_states st !! k) /\
  ((user_wait_states st' = user_wait_states st /\ tasks st' = tasks st) \/
   (exists st1,
      st' = _enter_silent_wait now ev st1 /\
      user_wait_states st1 = user_wait_states st /\ tasks st1 = tasks st /\
      length (tasks st') = S (length (tasks st)))).
Proof.
  cbv zeta. unfold on_group_message.
  destruct (negb (_should_process_message g ev));
    [split; [|split; [|split]]; auto|].
  pose proof (judge_frame json_loads get_provider_by_id p c today ev st)
    as (F1 & F2 & F3).
  pose proof (judge_chat_states json_loads get_provider_by_id p c today ev st)
    as Hcs.
  destruct (judge_with_tiny_model json_loads get_provider_by_id p c today
              ev st) as [[r|] st1]; cbn [snd] in *.
  2:{ rewrite F1, F2, F3. repeat split; auto.
      intros k Hk. destruct Hcs as [->| ->]; [reflexivity|].
      now apply get_chat_state_other. }
  assert (Hother : forall k, k <> unified_msg_origin ev ->
                     chat_states st1 !! k = chat_states st !! k).
  { intros k Hk. destruct Hcs as [->| ->]; [reflexivity|].
    now apply get_chat_state_other. }
  destruct (should_reply r).
  - destruct (enter_silent_wait_tasks now ev st1) as (T1 & T2 & T3).
    rewrite T3, F3. split; [reflexivity|]. split; [|split].
    + intros k Hk. rewrite enter_silent_wait_other by assumption.
      now rewrite F1.
    + intros k Hk. rewrite T2. now apply Hother.
    + right. exists st1. rewrite T1, F2. auto.
  - destruct (sliceable (reasoning r));
      cbn [event_queue user_wait_states tasks chat_states set_chat_states].
    + rewrite F1, F2, F3. repeat split; auto.
      intros k Hk. rewrite update_passive_other by auto. now apply Hother.
    + rewrite F1, F2, F3. repeat split; auto.
Qed.

(** X16: when no judge provider is configured, or the configured one
    cannot be resolved, every message that passes the gate is counted as a
    passive one (one more message, energy recovering) and nothing else
    happens: no model call, no timer, no wait state. *)
Theorem X16_unconfigured_counts_passively
    (json_loads : string -> option json)
    (get_provider_by_id : string -> result (option Provider))
    (g : Gate) (p : Plugin) (c : Collab) (today : string) (now : Q)
    (ev : Event) (st : State) :
  judge_provider_name p = "" \/
  get_provider_by_id (judge_provider_name p) = Ok None \/
  (exists e, get_provider_by_id (judge_provider_name p) = Raise e) ->
  _should_process_message g ev = true ->
  on_group_message json_loads get_provider_by_id g p c today now ev st
  = set_chat_states st
      (_update_passive_state p today (unified_msg_origin ev)
         (chat_states st)).
Proof.
  intros Hcfg Hgate. unfold on_group_message, judge_with_tiny_model.
  rewrite Hgate. cbn [negb].
  destruct (decide (judge_provider_name p = "")) as [|Hname]; [reflexivity|].
  destruct Hcfg as [?|[-> |[e ->]]]; [contradiction| |]; reflexivity.
Qed.

Lemma X16_unconfigured_counts_passively_witness :
  let st' :=
    on_group_message JsonFlat.json_loads_flat (fun _ => Ok None)
      (mkGate true false [] "bot") (Demo.plugin 3 (2 # 10))
      Demo.no_conversation Demo.today 0
      (Demo.message Demo.chat "u1" "hello") initial_state in
  tasks st' = [] /\ provider_log st' = [] /\
  total_messages <$> (chat_states st' !! Demo.chat) = Some 1%Z.
Proof.
  cbv zeta.
  rewrite (X16_unconfigured_counts_passively JsonFlat.json_loads_flat
             (fun _ => Ok None) (mkGate true false [] "bot")
             (Demo.plugin 3 (2 # 10)) Demo.no_conversation Demo.today 0
             (Demo.message Demo.chat "u1" "hello") initial_state).
  - split; [reflexivity|]. split; [reflexivity|].
    unfold _update_passive_state, _get_chat_state. cbn -[Demo.plugin].
    rewrite lookup_insert_eq. reflexivity.
  - right. left. reflexivity.
  - vm_compute. reflexivity.
Defined.

(** ** The hand-off *)

Lemma combine_some acc first rest :
  acc = first :: rest ->
  _combine_user_messages acc =
    Some (mkEvent (unified_msg_origin (event first)) (sender_id (event first))
            (sender_name (event first))
            (Str.join Str.nl (map content acc))
            (is_at_or_wake_command (event first))).
Proof. intros ->. reflexivity. Qed.

Lemma store_carrier_contents acc carrier :
  map content (store_carrier acc carrier) = map content acc /\
  map timestamp (store_carrier acc carrier) = map timestamp acc.
Proof. destruct acc; cbn; auto. Qed.

(** X17: when the timer of an entry is resumed after the quiet time and the
    hand-off to the queue fails, nothing reaches the queue, yet the reply is
    recorded all the same ([_update_active_state] has already run: reply
    time, counters, energy), and the entry keeps its messages, texts and
    times unchanged. *)
Theorem X17_failed_handoff (p : Plugin) (now : Q) (today : string)
    (tid : nat) (st : State) (t : Task) (ws : UserWaitState)
    (first : message_info) (rest : list message_info) :
  tasks st !! tid = Some t -> live t ->
  user_wait_states st !! task_key t = Some ws ->
  timer_task ws = Some tid ->
  accumulated_messages ws = first :: rest ->
  (silent_wait_duration p - (1 # 10) <= now - waiting_since ws)%Q ->
  let st' := _wait_and_reply p now today tid false st in
  event_queue st' = event_queue st /\
  chat_states st' =
    _update_active_state p today now (unified_msg_origin (event first))
      (chat_states st) /\
  exists ws',
    user_wait_states st' !! task_key t = Some ws' /\
    map content (accumulated_messages ws') = map content (first :: rest) /\
    map timestamp (accumulated_messages ws') = map timestamp (first :: rest).
Proof.
  intros Ht [Hdone Hcancel] Hws Htimer Hacc Hquiet. cbv zeta.
  unfold _wait_and_reply. rewrite Ht, Hdone, Hcancel.
  unfold wait_and_reply_body. rewrite Hws.
  apply Qlt_bool_false in Hquiet. rewrite Hquiet.
  rewrite (combine_some _ first rest Hacc).
  cbn [unified_msg_origin sender_id sender_name message_str].
  set (unit := mkEvent _ _ _ _ true).
  set (ws1 := mkUserWaitState _ _ _ _ _).
  set (st1 := set_user_wait_states _ _).
  assert (H1 : user_wait_states st1 !! task_key t = Some ws1).
  { subst st1. cbn. apply lookup_insert_eq. }
  assert (Hfin : wait_and_reply_finally (task_key t) st1 = st1).
  { unfold wait_and_reply_finally. rewrite H1. subst ws1.
    cbn [timer_task]. rewrite Htimer.
    assert (Hd : is_done (tasks st1) tid = false).
    { subst st1. cbn. unfold is_done. now rewrite Ht. }
    now rewrite Hd. }
  rewrite Hfin. cbn [event_queue chat_states user_wait_states set_tasks].
  split; [reflexivity|]. split; [reflexivity|].
  exists ws1. split; [exact H1|]. subst ws1. cbn [accumulated_messages].
  rewrite Hacc. apply store_carrier_contents.
Qed.

Lemma X17_failed_handoff_witness :
  let st := _enter_silent_wait 0 (Demo.message Demo.chat "u1" "hello")
              initial_state in
  let st' := _wait_and_reply (Demo.plugin 3 (2 # 10)) 6 Demo.today 0 false
               st in
  event_queue st' = [] /\
  total_replies <$> (chat_states st' !! Demo.chat) = Some 1%Z.
Proof.
  cbv zeta.
  destruct (X17_failed_handoff (Demo.plugin 3 (2 # 10)) 6 Demo.today 0
              (_enter_silent_wait 0 (Demo.message Demo.chat "u1" "hello")
                 initial_state)
              (mkTask (event_key (Demo.message Demo.chat "u1" "hello")) 0
                 false false)
              (mkUserWaitState "u1" 0
                 [mkMessageInfo 0 "hello"
                    (Demo.message Demo.chat "u1" "hello")] (Some 0%nat) 0)
              (mkMessageInfo 0 "hello" (Demo.message Demo.chat "u1" "hello"))
              []) as (Hq & Hc & _).
  - reflexivity.
  - split; reflexivity.
  - reflexivity.
  - reflexivity.
  - reflexivity.
  - vm_compute. discriminate.
  - split; [exact Hq|]. rewrite Hc.
    unfold _update_active_state, _get_chat_state. cbn -[Demo.plugin].
    rewrite lookup_insert_eq. reflexivity.
Defined.

(** ** A burst of any length *)

Lemma last_cons_default {A : Type} (l : list A) : forall a d,
  List.last (a :: l) d = List.last l a.
Proof.
  induction l as [|b l IH]; intros a d; [reflexivity|].
  change (List.last (a :: b :: l) d) with (List.last (b :: l) d).
  now rewrite (IH b d), (IH b a).
Qed.

Section Bursts.

Variable p : Plugin.

Lemma admit_opens now ev st :
  user_wait_states st !! event_key ev = None ->
  let st' := _enter_silent_wait now ev st in
  burst_open st' (event_key ev) [info_of now ev] now /\
  event_queue st' = event_queue st /\
  length (tasks st') = S (length (tasks st)).
Proof.
  intros Hnone. cbv zeta. unfold _enter_silent_wait. rewrite Hnone.
  cbn [event_queue tasks set_user_wait_states set_tasks].
  split; [|split; [reflexivity|rewrite length_app; cbn; lia]].
  eexists _, (length (tasks st)). cbn [user_wait_states tasks
    set_user_wait_states set_tasks].
  split; [apply lookup_insert_eq|]. cbn.
  repeat split.
  - rewrite length_app. cbn. lia.
  - rewrite lookup_app_r by lia. now rewrite Nat.sub_diag.
Qed.

Lemma admit_extends now ev st acc since :
  burst_open st (event_key ev) acc since ->
  let st' := _enter_silent_wait now ev st in
  burst_open st' (event_key ev) (acc ++ [info_of now ev])%list now /\
  event_queue st' = event_queue st /\
  length (tasks st') = S (length (tasks st)).
Proof.
  intros (ws & tid & Hws & Hacc & Htimer & Hsince & Hlen & Htask). cbv zeta.
  unfold _enter_silent_wait. rewrite Hws, Htimer.
  assert (Hd : is_done (tasks st) tid = false)
    by (unfold is_done; now rewrite Htask).
  rewrite Hd. cbn [negb].
  cbn [event_queue tasks set_user_wait_states set_tasks].
  rewrite length_app, length_cancel_task. cbn [length].
  split; [|split; [reflexivity|lia]].
  eexists _, (length (tasks st)). cbn [user_wait_states tasks
    set_user_wait_states set_tasks].
  split; [apply lookup_insert_eq|]. cbn [accumulated_messages timer_task
    waiting_since].
  rewrite Hacc. repeat split.
  - rewrite length_app, length_cancel_task. cbn. lia.
  - rewrite lookup_app_r by (rewrite length_cancel_task; lia).
    now rewrite length_cancel_task, Nat.sub_diag.
Qed.

Lemma admit_all_extends k : forall rest st acc since,
  (forall x, x ∈ rest -> event_key x.2 = k) ->
  burst_open st k acc since ->
  let st' := run p st (admit_all rest) in
  burst_open st' k (acc ++ map (fun x => info_of x.1 x.2) rest)%list
    (List.last (map fst rest) since) /\
  event_queue st' = event_queue st /\
  length (tasks st') = (length (tasks st) + length rest)%nat.
Proof.
  induction rest as [|[now ev] rest IH]; intros st acc since Hkeys Hopen.
  - cbn. rewrite app_nil_r. split; [exact Hopen|]. split; [reflexivity|lia].
  - assert (Hk : event_key ev = k)
      by (apply (Hkeys (now, ev)); apply list_elem_of_here).
    rewrite <- Hk in Hopen.
    destruct (admit_extends now ev st acc since Hopen) as (H1 & H2 & H3).
    rewrite Hk in H1.
    assert (Hrest : forall x, x ∈ rest -> event_key x.2 = k)
      by (intros x Hx; apply Hkeys; now apply list_elem_of_further).
    destruct (IH _ _ _ Hrest H1) as (I1 & I2 & I3).
    cbv zeta. change (run p st (admit_all ((now, ev) :: rest)))
      with (run p (_enter_silent_wait now ev st) (admit_all rest)).
    split; [|split].
    + rewrite <- app_assoc in I1. cbn [map fst snd app] in *.
      rewrite last_cons_default. exact I1.
    + rewrite I2. exact H2.
    + rewrite I3, H3. cbn [length]. lia.
Qed.

Lemma wake_open now today st k first rest since :
  burst_open st k (first :: rest) since ->
  (since + silent_wait_duration p - (1 # 10) <= now)%Q ->
  emitted p st (Wake now today (length (tasks st) - 1) true)
  = [mkEvent (unified_msg_origin (event first)) (sender_id (event first))
       (sender_name (event first))
       (Str.join Str.nl (map content (first :: rest))) true].
Proof.
  intros (ws & tid & Hws & Hacc & Htimer & Hsince & Hlen & Htask) Hquiet.
  replace (length (tasks st) - 1)%nat with tid by lia.
  unfold emitted. cbn [step]. unfold _wait_and_reply. rewrite Htask.
  cbn [task_done task_cancel_requested task_key].
  unfold wait_and_reply_body. rewrite Hws.
  assert (Hq : Qlt_bool (now - waiting_since ws)
                 (silent_wait_duration p - (1 # 10)) = false).
  { apply Qlt_bool_false. rewrite Hsince. lra. }
  rewrite Hq, (combine_some _ first rest Hacc).
  cbn [unified_msg_origin sender_id sender_name message_str].
  set (st1 := set_user_wait_states _ _).
  assert (Hfq : event_queue (wait_and_reply_finally k st1) = event_queue st1).
  { unfold wait_and_reply_finally.
    destruct (user_wait_states st1 !! k) as [w|]; [|reflexivity].
    destruct (timer_task w) as [tid0|]; [|reflexivity].
    now destruct (is_done (tasks st1) tid0). }
  cbn [event_queue set_tasks]. rewrite Hfq. subst st1.
  cbn [event_queue set_user_wait_states set_event_queue set_chat_states].
  rewrite drop_app_length. rewrite Hacc. reflexivity.
Qed.

End Bursts.

(** X18: a burst of any length is merged whole and in order.  When the
    messages of a burst, all of one chat and sender that has no wait-state
    entry yet, are admitted one after the other and the last timer created
    is then resumed no sooner than the quiet time minus 0.1 seconds after
    the last admission, exactly one unit goes to the queue: it is carried by
    the first message, its text is the texts of all the messages in the
    order of admission, one per line, and its wake flag is set.  Nothing is
    put on the queue during the admissions. *)
Theorem X18_burst_merged (p : Plugin) (st : State) (k : string)
    (t0 : Q) (e0 : Event) (rest : list (Q * Event)) (now : Q)
    (today : string) :
  let burst := (t0, e0) :: rest in
  (forall x, x ∈ burst -> event_key x.2 = k) ->
  user_wait_states st !! k = None ->
  (List.last (map fst burst) t0 + silent_wait_duration p - (1 # 10) <= now)%Q ->
  let st' := run p st (admit_all burst) in
  event_queue st' = event_queue st /\
  length (tasks st') = (length (tasks st) + length burst)%nat /\
  emitted p st' (Wake now today (length (tasks st') - 1) true)
  = [burst_unit e0 burst].
Proof.
  intros burst Hkeys Hnone Hquiet st'.
  assert (Hk0 : event_key e0 = k)
    by (apply (Hkeys (t0, e0)); apply list_elem_of_here).
  rewrite <- Hk0 in Hnone.
  destruct (admit_opens t0 e0 st Hnone) as (H1 & H2 & H3).
  rewrite Hk0 in H1.
  assert (Hrest : forall x, x ∈ rest -> event_key x.2 = k)
    by (intros x Hx; apply Hkeys; now apply list_elem_of_further).
  destruct (admit_all_extends p k rest _ _ _ Hrest H1) as (I1 & I2 & I3).
  change (run p (_enter_silent_wait t0 e0 st) (admit_all rest)) with st'
    in I1, I2, I3.
  split; [now rewrite I2|]. split; [rewrite I3, H3; unfold burst; cbn [length]; lia|].
  cbn [app] in I1.
  rewrite (wake_open p now today st' k _ _ _ I1).
  - unfold burst_unit, burst. cbn [map info_of event content fst snd].
    do 2 f_equal. rewrite map_map. reflexivity.
  - subst burst. cbn [map fst] in Hquiet.
    rewrite last_cons_default in Hquiet. exact Hquiet.
Qed.

Lemma X18_burst_merged_witness :
  let a := Demo.message Demo.chat "u1" "one" in
  let b := Demo.message Demo.chat "u1" "two" in
  let c := Demo.message Demo.chat "u1" "three" in
  let st' := run (Demo.plugin 3 (2 # 10)) initial_state
               (admit_all [(0%Q, a); (2%Q, b); (4%Q, c)]) in
  emitted (Demo.plugin 3 (2 # 10)) st' (Wake 10 Demo.today 2 true)
  = [mkEvent Demo.chat "u1" "u1"
       ("one" ++ Str.nl ++ "two" ++ Str.nl ++ "three") true].
Proof.
  cbv zeta.
  destruct (X18_burst_merged (Demo.plugin 3 (2 # 10)) initial_state
              (event_key (Demo.message Demo.chat "u1" "one")) 0
              (Demo.message Demo.chat "u1" "one")
              [(2%Q, Demo.message Demo.chat "u1" "two");
               (4%Q, Demo.message Demo.chat "u1" "three")] 10 Demo.today)
    as (_ & _ & H).
  - intros x Hx. repeat (apply elem_of_cons in Hx as [->|Hx]);
      try reflexivity. now apply elem_of_nil in Hx.
  - reflexivity.
  - vm_compute. discriminate.
  - exact H.
Defined.

(** ** Clearing the cache *)

(** X19: [heartflow_cache_clear] reports the number of cached entries and
    empties the cache, touching nothing else; the next request for a persona
    text of at least 50 characters is then summarized anew with one
    provider call, even if the text was cached before. *)
Theorem X19_cache_clear_forces_summary
    (json_loads : string -> option json)
    (get_provider_by_id : string -> result (option Provider))
    (p : Plugin) (c : Collab) (original : string) (st : State)
    (prov : Provider) (cid text : string)
    (conversation : option (option string)) :
  judge_provider_name p <> "" ->
  get_provider_by_id (judge_provider_name p) = Ok (Some prov) ->
  curr_cid c = Ok (Some cid) -> cid <> "" ->
  conversation_persona c = Ok conversation ->
  (50 <= Str.py_len (Str.strip original))%nat ->
  prov (length (provider_log st)) (Txt.summarize_prompt original) []
    = Completion text ->
  let cleared := heartflow_cache_clear st in
  fst cleared = size (system_prompt_cache st) /\
  system_prompt_cache (snd cleared) = ∅ /\
  same_chat_side (snd cleared) st /\
  provider_log (snd cleared) = provider_log st /\
  let again :=
    _get_or_create_summarized_system_prompt json_loads get_provider_by_id p c
      original (snd cleared) in
  fst again = default original (summary_of json_loads text) /\
  provider_log (snd again)
    = (provider_log st ++ [Txt.summarize_prompt original])%list.
Proof.
  intros Hname Hprov Hcid Hne Hconv Hlen Hcall. cbv zeta.
  unfold heartflow_cache_clear. cbn [fst snd].
  split; [reflexivity|]. split; [reflexivity|].
  split; [unfold same_chat_side; cbn; auto|]. split; [reflexivity|].
  rewrite (get_or_create_miss json_loads get_provider_by_id p c original
             (set_system_prompt_cache st ∅) prov cid conversation text
             Hname Hprov Hcid Hne Hconv).
  - split; reflexivity.
  - cbn. now rewrite lookup_empty.
  - exact Hlen.
  - exact Hcall.
Qed.

Lemma X19_cache_clear_forces_summary_witness :
  let request :=
    _get_or_create_summarized_system_prompt JsonFlat.json_loads_flat
      (Demo.resolve (Demo.always DemoHistory.good_summary))
      (Demo.plugin 3 (2 # 10)) Demo.persona_conversation Demo.long_persona in
  let cached := snd (request initial_state) in
  fst (heartflow_cache_clear cached) = 1%nat /\
  length (provider_log
            (snd (request (snd (heartflow_cache_clear cached))))) = 2%nat.
Proof.
  cbv zeta.
  destruct (X19_cache_clear_forces_summary JsonFlat.json_loads_flat
              (Demo.resolve (Demo.always DemoHistory.good_summary))
              (Demo.plugin 3 (2 # 10)) Demo.persona_conversation
              Demo.long_persona
              (snd (_get_or_create_summarized_system_prompt
                      JsonFlat.json_loads_flat
                      (Demo.resolve (Demo.always DemoHistory.good_summary))
                      (Demo.plugin 3 (2 # 10)) Demo.persona_conversation
                      Demo.long_persona initial_state))
              (Demo.always DemoHistory.good_summary) "conv1"
              DemoHistory.good_summary (Some (Some "p1")))
    as (H1 & _ & _ & _ & _ & H2).
  - vm_compute. discriminate.
  - reflexivity.
  - reflexivity.
  - discriminate.
  - reflexivity.
  - vm_compute. lia.
  - reflexivity.
  - split.
    + rewrite H1. vm_compute. reflexivity.
    + rewrite H2. vm_compute. reflexivity.
Defined.

(** ** The history as text *)

Lemma collect_messages_spec recent : forall out,
  collect_messages recent = Some out ->
  (length out <= length recent)%nat /\
  forall v, v ∈ out ->
    exists m r, JObj m ∈ recent /\ m !! "role" = Some (JStr r) /\
                (r = "user" \/ r = "assistant") /\
                default (JStr "") (m !! "content") = v.
Proof.
  induction recent as [|msg rest IH]; intros out H; cbn in H.
  - injection H as <-. split; [cbn; lia|].
    intros v Hin. now apply elem_of_nil in Hin.
  - destruct msg as [| | | | |m]; cbn in H; try discriminate.
    destruct (collect_messages rest) as [tail|]; [|discriminate].
    destruct (IH tail eq_refl) as [Hlen Hall].
    assert (Hrest : forall v, v ∈ tail ->
      exists m' r, JObj m' ∈ JObj m :: rest /\ m' !! "role" = Some (JStr r) /\
                   (r = "user" \/ r = "assistant") /\
                   default (JStr "") (m' !! "content") = v).
    { intros v Hin. destruct (Hall v Hin) as (m' & r & H1 & H2).
      exists m', r. split; [|assumption]. apply elem_of_cons. now right. }
    destruct (is_chat_role
                (match m !! "role" with Some v => v | None => JStr "unknown" end))
      eqn:E.
    + injection H as <-. split; [cbn; lia|].
      intros v Hin. apply elem_of_cons in Hin as [->|Hin];
        [|now apply Hrest].
      destruct (is_chat_role_spec _ E) as [Hr|Hr];
        destruct (m !! "role") as [role|] eqn:Hrole; try discriminate;
        subst role.
      * exists m, "user". split; [apply list_elem_of_here|].
        split; [exact Hrole|]. split; [now left|].
        now destruct (m !! "content").
      * exists m, "assistant". split; [apply list_elem_of_here|].
        split; [exact Hrole|]. split; [now right|].
        now destruct (m !! "content").
    + injection H as <-. split; [cbn; lia | exact Hrest].
Qed.

Lemma all_texts_spec l : forall texts,
  all_texts l = Some texts -> l = map JStr texts.
Proof.
  induction l as [|v l IH]; intros texts H; cbn in H.
  - now injection H as <-.
  - destruct v as [| | | s | |]; try discriminate.
    destruct (all_texts l) as [tail|]; [|discriminate].
    injection H as <-. cbn. now rewrite (IH tail eq_refl).
Qed.

(** X20: the history text [_get_recent_messages] gives the judge prompt is
    the placeholder, or the texts of user and assistant turns of the parsed
    history joined by a separator line; with a positive
    [context_messages_count] at most that many of them.  A single such turn
    whose content is not a text makes the whole result the placeholder. *)
Theorem X20_recent_messages_text (json_loads : string -> option json)
    (p : Plugin) (h : HistorySource) :
  let text := _get_recent_messages json_loads p h in
  (text = no_history_text \/
   exists context texts,
     load_history json_loads h = Some context /\ texts <> [] /\
     text = Str.join (Str.nl ++ "---" ++ Str.nl) texts /\
     ((0 < context_messages_count p)%Z ->
      (length texts <= Z.to_nat (context_messages_count p))%nat) /\
     forall t, t ∈ texts ->
       exists m r, JObj m ∈ context /\ m !! "role" = Some (JStr r) /\
                   (r = "user" \/ r = "assistant") /\
                   default (JStr "") (m !! "content") = JStr t) /\
  (forall context m r v,
     load_history json_loads h = Some context ->
     JObj m ∈ recent_window (context_messages_count p) context ->
     m !! "role" = Some (JStr r) -> r = "user" \/ r = "assistant" ->
     m !! "content" = Some v -> (forall t, v <> JStr t) ->
     text = no_history_text).
Proof.
  cbv zeta. unfold _get_recent_messages. split.
  - destruct (load_history json_loads h) as [context|]; [|now left].
    destruct (collect_messages
                (recent_window (context_messages_count p) context))
      as [out|] eqn:E; [|now left].
    destruct (collect_messages_spec _ _ E) as [Hlen Hall].
    destruct out as [|v out]; [now left|].
    destruct (all_texts (v :: out)) as [texts|] eqn:Et; [|now left].
    right. exists context, texts.
    pose proof (all_texts_spec _ _ Et) as Hmap.
    split; [reflexivity|]. split; [|split; [reflexivity|split]].
    + intros ->. discriminate.
    + intros Hn.
      pose proof (recent_window_length (context_messages_count p) context Hn).
      assert (length texts = length (v :: out))
        by (rewrite Hmap; now rewrite length_map).
      lia.
    + intros t Ht.
      assert (Hin : JStr t ∈ v :: out).
      { rewrite Hmap. apply list_elem_of_fmap. now exists t. }
      destruct (Hall _ Hin) as (m & r & H1 & H2 & H3 & H4).
      exists m, r. split; [|auto].
      eapply recent_window_elem; eauto.
  - intros context m r v Hload Hin Hrole Hr Hcontent Hv. rewrite Hload.
    destruct (collect_messages
                (recent_window (context_messages_count p) context))
      as [out|] eqn:E; [|reflexivity].
    destruct out as [|v0 out]; [reflexivity|].
    destruct (all_texts (v0 :: out)) as [texts|] eqn:Et; [|reflexivity].
    exfalso.
    pose proof (all_texts_spec _ _ Et) as Hmap.
    assert (Hv' : v ∈ v0 :: out).
    { clear Et Hmap. revert E Hin.
      generalize (v0 :: out) as o.
      generalize (recent_window (context_messages_count p) context) as l.
      induction l as [|msg l IH]; intros o E Hin.
      - now apply elem_of_nil in Hin.
      - cbn in E. apply elem_of_cons in Hin as [<-|Hin].
        + cbn in E. rewrite Hrole, Hcontent in E.
          destruct (collect_messages l) as [tail|]; [|discriminate].
          assert (Hc : is_chat_role (JStr r) = true)
            by (destruct Hr as [-> | ->]; reflexivity).
          rewrite Hc in E. injection E as <-. apply list_elem_of_here.
        + destruct (dict_get msg "role" (JStr "unknown")) as [role|];
            [|discriminate].
          destruct (dict_get msg "content" (JStr "")) as [content|];
            [|discriminate].
          destruct (collect_messages l) as [tail|] eqn:Etail; [|discriminate].
          specialize (IH tail eq_refl Hin).
          destruct (is_chat_role role); injection E as <-; [|exact IH].
          now apply list_elem_of_further. }
    rewrite Hmap in Hv'. apply list_elem_of_fmap in Hv' as (t & -> & _).
    now apply (Hv t).
Qed.
